(** * ScanBane steganography detection: a shallow embedding of the Python services

    The development follows the source files of [server/python_services]:

    - [AdvancedLsbDetector]: [advanced_lsb_detector.py];
    - [AdvancedSteganography]: [advanced_steganography.py], whose battery
      ([extract_lsb_plane], [chi_square_test], [rs_analysis], [image_entropy],
      [histogram_slope_analysis], [composite_score]) is the text of
      [advanced_lsb_detector.py];
    - [AdvancedMediaSteganography]: [advanced_media_steganography.py];
    - [SteganographyService]: [steganography_service.py];
    - [MediaSecurityService]: the security status of
      [media_security_service.py] ([analyze_media_file] with its helpers and
      [analyze_media_security]), which calls the dispatcher of
      [advanced_media_steganography.py].  What its scanners
      ([extract_metadata], [scan_with_yara], [detect_uncommon_codecs]) return
      is a field of the [Scanners] class.

    Conventions of the embedding.

    - Python [float]s that the code computes from counts and constants are
      exact rationals ([Q]); rounding of IEEE doubles is not modelled.  Values
      that come back from SciPy and may be [nan] or [inf] are [pyfloat]s.
      Where a bound on a computed float would be met exactly, so that the
      rounding of a sum could cross it, the property is stated with a margin
      that holds on both sides of the rounding.
    - A numpy scalar is the Python value it stands for ([numpy.bool_] is a
      [VBool]).  [json.dumps] does tell them apart, so whether it returns
      the text of a dictionary or raises [TypeError] is the answer of the
      [World] ([json_dumps]), not a function of the embedded value.
    - A numpy array is its shape together with its row-major data.
    - A Python [dict] is an association list in insertion order.
    - A raised exception is the [Raise] case of [result]; [try ... except
      Exception] is [try_except], [catch] or [io_try].
    - In [AdvancedMediaSteganography] the code that writes temporary
      files, decodes media or runs ffmpeg is in [IO], which threads the log
      of the outside calls made.
    - NumPy, SciPy, OpenCV, PIL, pydub and ffmpeg are outside the repository.
      What the code needs from them is modelled from their documented
      behaviour; the numeric kernels that are not rational (the chi-square
      survival function, the logarithm inside the entropy, the luminance
      weights) are fields of [ExternalLib], and the outcomes of decoding and
      of the file system are fields of the [World], [Decoder] and [Tools]
      classes.  A video capture reports a frame count and yields a finite
      stream of frames; the two are independent, as in OpenCV.
    - File names and paths are ASCII and POSIX. *)

From Stdlib Require Import ZArith QArith Qabs Qround Qminmax.
From Stdlib Require Import String Ascii Bool Lia Lqa List.
From Stdlib Require DecimalString.
Import ListNotations.

Set Warnings "-register-all".

(* ------------------------------------------------------------------ *)
(** ** Python values, exceptions and dictionaries *)

Inductive exn : Type :=
| ValueError (msg : string)
| ZeroDivisionError (msg : string)
| TypeError (msg : string)
| IndexError (msg : string)
| Cv2Error (msg : string)
| OSError (msg : string)
| Exception (msg : string).

(** [str(e)] *)
Definition exn_str (e : exn) : string :=
  match e with
  | ValueError m | ZeroDivisionError m | TypeError m | IndexError m
  | Cv2Error m | OSError m | Exception m => m
  end.

Inductive result (A : Type) : Type :=
| Ok (a : A)
| Raise (e : exn).

Arguments Ok {A} a.
Arguments Raise {A} e.

Definition bind {A B : Type} (c : result A) (k : A -> result B) : result B :=
  match c with
  | Ok a => k a
  | Raise e => Raise e
  end.

(** [try: c  except Exception as e: h e] *)
Definition try_except {A : Type} (c : result A) (h : exn -> result A) : result A :=
  match c with
  | Ok a => Ok a
  | Raise e => h e
  end.

(** [try: return c  except Exception as e: return h e] *)
Definition catch {A : Type} (c : result A) (h : exn -> A) : A :=
  match c with
  | Ok a => a
  | Raise e => h e
  end.

Declare Scope py_scope.
Delimit Scope py_scope with py.
Notation "x <- c ;; k" := (bind c (fun x => k))
  (at level 61, c at next level, right associativity) : py_scope.
Notation "' pat <- c ;; k" := (bind c (fun x => match x with pat => k end))
  (at level 61, pat pattern, c at next level, right associativity) : py_scope.

(** A float that may be [nan] or infinite (what SciPy hands back). *)
Inductive pyfloat : Type :=
| Fin (q : Q)
| PosInf
| NegInf
| NaN.

Definition Qltb (a b : Q) : bool := negb (Qle_bool b a).

(** [x < c] for a float [x] and a finite constant [c]: false on [nan]. *)
Definition flt (x : pyfloat) (c : Q) : bool :=
  match x with
  | Fin q => Qltb q c
  | NegInf => true
  | PosInf | NaN => false
  end.

Inductive pyval : Type :=
| VNone
| VBool (b : bool)
| VInt (z : Z)
| VFloat (x : pyfloat)
| VStr (s : string)
| VList (l : list pyval)
| VDict (d : list (string * pyval)).

Definition dict : Type := list (string * pyval).

Definition VNum (q : Q) : pyval := VFloat (Fin q).
Definition VStrs (l : list string) : pyval := VList (map VStr l).

(** [d.get(k)] *)
Fixpoint dict_get (k : string) (d : dict) : option pyval :=
  match d with
  | [] => None
  | (k', v) :: r => if String.eqb k k' then Some v else dict_get k r
  end.

(** [k in d] *)
Definition dict_has (k : string) (d : dict) : bool :=
  match dict_get k d with Some _ => true | None => false end.

(** [d[k] = v]: overwrite in place, or append as the newest key. *)
Fixpoint dict_set (k : string) (v : pyval) (d : dict) : dict :=
  match d with
  | [] => [(k, v)]
  | (k', v') :: r =>
      if String.eqb k k' then (k', v) :: r else (k', v') :: dict_set k v r
  end.

(** The number a value stands for ([0] and [0.0] are the same number). *)
Definition as_num (v : pyval) : option Q :=
  match v with
  | VInt z => Some (inject_Z z)
  | VFloat (Fin q) => Some q
  | _ => None
  end.

(** Python truthiness, as [if v:] and [bool(v)] use it. *)
Definition truthy (v : pyval) : bool :=
  match v with
  | VNone => false
  | VBool b => b
  | VInt z => negb (z =? 0)%Z
  | VFloat (Fin q) => negb (Qeq_bool q 0)
  | VFloat _ => true
  | VStr s => negb (String.eqb s EmptyString)
  | VList l => match l with [] => false | _ => true end
  | VDict d => match d with [] => false | _ => true end
  end.

(** [round(x, n)] on an exact value: to the nearest multiple of [10^-n],
    ties to the even one. *)
Definition round_half_even (y : Q) : Z :=
  let f := Qfloor y in
  let r := (y - inject_Z f)%Q in
  if Qltb r (1#2) then f
  else if Qltb (1#2) r then (f + 1)%Z
  else if Z.even f then f else (f + 1)%Z.

Definition py_round (x : Q) (n : nat) : Q :=
  let s := inject_Z (10 ^ Z.of_nat n) in
  (inject_Z (round_half_even (x * s)) / s)%Q.

Definition py_round_f (x : pyfloat) (n : nat) : pyfloat :=
  match x with
  | Fin q => Fin (py_round q n)
  | other => other
  end.

(** [range(start, stop, step)] for a positive step. *)
Definition py_range (start stop step : Z) : list Z :=
  map (fun k => (start + Z.of_nat k * step)%Z)
      (seq 0 (Z.to_nat ((stop - start + step - 1) / step))).

(** [a / b] on Python ints *)
Definition py_truediv (a b : Z) : result Q :=
  if (b =? 0)%Z then Raise (ZeroDivisionError "division by zero")
  else Ok (inject_Z a / inject_Z b)%Q.

Definition Zsum (l : list Z) : Z := fold_right Z.add 0%Z l.
Definition Qsum (l : list Q) : Q := fold_right Qplus 0%Q l.

(* ------------------------------------------------------------------ *)
(** ** NumPy arrays *)

Record ndarray : Type := mk_ndarray {
  shape : list Z;
  data : list Z          (* row-major *)
}.

Definition np_zeros (sh : list Z) : ndarray :=
  {| shape := sh; data := repeat 0%Z (Z.to_nat (fold_right Z.mul 1%Z sh)) |}.

(** [a & 1], elementwise *)
Definition np_and1 (a : ndarray) : ndarray :=
  {| shape := shape a; data := map (fun v => Z.land v 1) (data a) |}.

(** [a.flatten()] *)
Definition flatten (a : ndarray) : list Z := data a.

(** [np.unique(flat, return_counts=True)]: the sorted distinct values, each
    with its number of occurrences. *)
Fixpoint insert_count (v : Z) (l : list (Z * Z)) : list (Z * Z) :=
  match l with
  | [] => [(v, 1%Z)]
  | (u, c) :: r =>
      if (v <? u)%Z then (v, 1%Z) :: l
      else if (v =? u)%Z then (u, (c + 1)%Z) :: r
      else (u, c) :: insert_count v r
  end.

Definition np_unique (flat : list Z) : list Z * list Z :=
  let t := fold_left (fun acc v => insert_count v acc) flat [] in
  (map fst t, map snd t).

(** [a[i, j]] of a 2-D array with [cols] columns *)
Definition get2 (a : ndarray) (cols i j : Z) : Z :=
  nth (Z.to_nat (i * cols + j)) (data a) 0%Z.

(** [a[i0:i1, j0:j1]] of a [rows] x [cols] array: slices clip at the edge. *)
Definition slice2 (a : ndarray) (rows cols i0 i1 j0 j1 : Z) : ndarray :=
  let i1' := Z.min i1 rows in
  let j1' := Z.min j1 cols in
  {| shape := [Z.max 0 (i1' - i0); Z.max 0 (j1' - j0)];
     data := flat_map (fun i => map (fun j => get2 a cols i j) (py_range j0 j1' 1))
                      (py_range i0 i1' 1) |}.

(** [np.var(a)]: the mean of the squared deviations from the mean. *)
Definition np_mean (xs : list Q) : Q :=
  (Qsum xs / inject_Z (Z.of_nat (length xs)))%Q.

Definition np_var (a : ndarray) : Q :=
  let xs := map inject_Z (data a) in
  let m := np_mean xs in
  np_mean (map (fun x => (x - m) * (x - m))%Q xs).

(** [np.diff] and [np.sign] on integer vectors *)
Fixpoint np_diff (l : list Z) : list Z :=
  match l with
  | a :: ((b :: _) as r) => (b - a)%Z :: np_diff r
  | _ => []
  end.

Definition np_sign (l : list Z) : list Z := map Z.sgn l.

(* ------------------------------------------------------------------ *)
(** ** What the numeric libraries contribute *)

Class ExternalLib : Type := {
  (** OpenCV's luminance of one pixel, from its blue, green and red bytes *)
  bgr2gray : Z -> Z -> Z -> Z;
  (** [scipy.stats.chi2.sf(stat, df)]; [nan] when [df <= 0] *)
  chi2_sf : pyfloat -> Z -> pyfloat;
  (** [scipy.stats.entropy(counts, base=2)] *)
  entropy_of_counts : list Z -> Q
}.

Section Libraries.
Context {L : ExternalLib}.

(** [cv2.cvtColor(image, cv2.COLOR_BGR2GRAY)]: the source must have three
    or four channels; anything else (a 2-D array is one channel) is
    rejected with [cv2.error]. *)
Definition cvtColor_BGR2GRAY (image : ndarray) : result ndarray :=
  match shape image with
  | [h; w; c] =>
      if ((c =? 3) || (c =? 4))%Z then
        let px k o := nth (k * Z.to_nat c + o) (data image) 0%Z in
        Ok {| shape := [h; w];
              data := map (fun k => bgr2gray (px k 0%nat) (px k 1%nat) (px k 2%nat))
                          (seq 0 (Z.to_nat (h * w))) |}
      else Raise (Cv2Error "Invalid number of channels in input image")
  | _ => Raise (Cv2Error "Invalid number of channels in input image")
  end.

(** [cv2.cvtColor(a, cv2.COLOR_RGB2BGR)] swaps the first and third channel. *)
Definition cvtColor_RGB2BGR (image : ndarray) : result ndarray :=
  match shape image with
  | [h; w; c] =>
      if ((c =? 3) || (c =? 4))%Z then
        let px k o := nth (k * Z.to_nat c + o) (data image) 0%Z in
        Ok {| shape := [h; w; 3%Z];
              data := flat_map (fun k => [px k 2%nat; px k 1%nat; px k 0%nat])
                               (seq 0 (Z.to_nat (h * w))) |}
      else Raise (Cv2Error "Invalid number of channels in input image")
  | _ => Raise (Cv2Error "Invalid number of channels in input image")
  end.

(** [skimage.measure.shannon_entropy(a)] is the base-2 entropy of the
    value counts. *)
Definition shannon_entropy (a : ndarray) : Q :=
  entropy_of_counts (snd (np_unique (flatten a))).

(** NumPy broadcasting of two vectors. *)
Definition broadcast (a b : list Q) : result (list Q * list Q) :=
  let la := length a in
  let lb := length b in
  if (la =? lb)%nat then Ok (a, b)
  else if (la =? 1)%nat then Ok (repeat (hd 0%Q a) lb, b)
  else if (lb =? 1)%nat then Ok (a, repeat (hd 0%Q b) la)
  else Raise (ValueError "shape mismatch: objects cannot be broadcast to a single shape").

(** Float addition and the quotient [n / d] with NumPy's conventions for a
    zero divisor. *)
Definition fadd (x y : pyfloat) : pyfloat :=
  match x, y with
  | NaN, _ | _, NaN => NaN
  | PosInf, NegInf | NegInf, PosInf => NaN
  | PosInf, _ | _, PosInf => PosInf
  | NegInf, _ | _, NegInf => NegInf
  | Fin a, Fin b => Fin (a + b)
  end.

Definition fdiv (n d : Q) : pyfloat :=
  if Qeq_bool d 0 then
    (if Qeq_bool n 0 then NaN else if Qltb 0 n then PosInf else NegInf)
  else Fin (n / d).

(** [scipy.stats.chisquare(f_obs, f_exp=f_exp)]: the two vectors are
    broadcast; the sums must agree to a relative [1e-8]; the statistic is
    [sum((obs - exp)**2 / exp)], the p-value the survival function at
    [len - 1] degrees of freedom. *)
Definition sums_disagree (so se : Q) : bool :=
  match fdiv (Qabs (so - se)) (Qmin so se) with
  | Fin r => Qltb (1 # 100000000) r
  | PosInf => true
  | NegInf | NaN => false
  end.

Definition chisquare (f_obs f_exp : list Q) : result (pyfloat * pyfloat) :=
  ('(obs, exp) <- broadcast f_obs f_exp ;;
   if sums_disagree (Qsum obs) (Qsum exp) then
     Raise (ValueError "For each axis slice, the sum of the observed frequencies must agree with the sum of the expected frequencies")
   else
     let terms := map (fun oe => fdiv ((fst oe - snd oe) * (fst oe - snd oe)) (snd oe))
                      (combine obs exp) in
     let stat := fold_right fadd (Fin 0) terms in
     Ok (stat, chi2_sf stat (Z.of_nat (length terms) - 1)))%py.

End Libraries.

(* ------------------------------------------------------------------ *)
(** ** Strings and bytes *)

Definition bytes : Type := list Byte.byte.

(** [s.lower()] on ASCII text *)
Definition lower_ascii (c : ascii) : ascii :=
  let n := nat_of_ascii c in
  if ((65 <=? n) && (n <=? 90))%nat then ascii_of_nat (n + 32) else c.

Fixpoint lower (s : string) : string :=
  match s with
  | EmptyString => EmptyString
  | String c r => String (lower_ascii c) (lower r)
  end.

(** [x in l] for a list of strings *)
Definition str_in (x : string) (l : list string) : bool :=
  existsb (String.eqb x) l.

(** [p.rfind(c)]: the last index of [c], or [-1] *)
Fixpoint rfind_from (c : ascii) (s : string) (i last : Z) : Z :=
  match s with
  | EmptyString => last
  | String a r => rfind_from c r (i + 1)%Z (if Ascii.eqb a c then i else last)
  end.

Definition rfind (c : ascii) (s : string) : Z := rfind_from c s 0 (-1).

Definition char_at (s : string) (i : Z) : option ascii := String.get (Z.to_nat i) s.

(** [s[i:]] *)
Definition str_from (i : Z) (s : string) : string :=
  String.substring (Z.to_nat i) (String.length s - Z.to_nat i) s.

(** [os.path.splitext(p)[-1]] on a POSIX path: the text from the last
    dot on, when that dot comes after the last separator and after some
    character of the file name that is not a dot. *)
Definition splitext_ext (p : string) : string :=
  let sepIndex := rfind "/" p in
  let dotIndex := rfind "." p in
  if (sepIndex <? dotIndex)%Z then
    (* skip all leading dots *)
    if existsb (fun k => match char_at p k with
                         | Some a => negb (Ascii.eqb a ".")
                         | None => false
                         end)
               (py_range (sepIndex + 1) dotIndex 1)
    then str_from dotIndex p
    else EmptyString
  else EmptyString.

(** [os.path.basename(p)] *)
Definition basename (p : string) : string := str_from (rfind "/" p + 1) p.

(* ------------------------------------------------------------------ *)
(** ** advanced_lsb_detector.py *)

Module AdvancedLsbDetector.

Definition SUPPORTED_FORMATS : list string :=
  [".jpg"; ".jpeg"; ".png"; ".gif"; ".webp"; ".bmp"; ".tiff"; ".tif"; ".ico"]%string.

Definition LOSSY_FORMATS : list string := [".jpg"; ".jpeg"; ".webp"]%string.

(** What PIL contributes: the decoded image, already converted to RGB, as
    an array, and its [format] attribute; or the exception of a failed
    decode. *)
Class Decoder : Type := {
  pil_open_rgb : bytes -> result (ndarray * option string)
}.

Section WithLib.
Context {L : ExternalLib} {D : Decoder}.
Local Open Scope py_scope.

Definition load_image_as_array (image_data : bytes) : result (ndarray * string) :=
  try_except
    ('(img_array, fmt) <- pil_open_rgb image_data ;;
     img <- cvtColor_RGB2BGR img_array ;;
     Ok (img, match fmt with Some f => lower f | None => "unknown"%string end))
    (fun e => Raise e).

Definition extract_lsb_plane (image : ndarray) : result ndarray :=
  gray <- cvtColor_BGR2GRAY image ;;
  Ok (np_and1 gray).

Definition chi_square_test (lsb_plane : ndarray) : result (pyfloat * pyfloat) :=
  let flat := flatten lsb_plane in
  let '(values, counts) := np_unique flat in
  (* Expect equal distribution of 0s and 1s *)
  let expected := repeat (inject_Z (Z.of_nat (List.length flat)) / 2)%Q 2 in
  '(chi, p) <- chisquare (map inject_Z counts) expected ;;
  Ok (chi, p).

Definition mask_flip (block mask : ndarray) : ndarray :=
  {| shape := shape block;
     data := map (fun bm => Z.lxor (fst bm) (snd bm)) (combine (data block) (data mask)) |}.

Definition mask : ndarray := {| shape := [2; 2]%Z; data := [0; 0; 0; 1]%Z |}.

Definition shape_eqb (s t : list Z) : bool :=
  if list_eq_dec Z.eq_dec s t then true else false.

(** One pass of the inner loop body at block corner [(i, j)]; the state
    is [(total, regular, singular)]. *)
Definition rs_block (gray : ndarray) (rows cols : Z) (st : Z * Z * Z) (i j : Z)
  : Z * Z * Z :=
  let '(total, regular, singular) := st in
  let block := slice2 gray rows cols i (i + 2) j (j + 2) in
  if negb (shape_eqb (shape block) [2; 2]%Z) then st
  else
    let flipped := mask_flip block mask in
    let orig_var := np_var block in
    let flip_var := np_var flipped in
    if Qltb orig_var flip_var then ((total + 1)%Z, (regular + 1)%Z, singular)
    else if Qltb flip_var orig_var then ((total + 1)%Z, regular, (singular + 1)%Z)
    else ((total + 1)%Z, regular, singular).

Definition rs_loop (gray : ndarray) (rows cols : Z) : Z * Z * Z :=
  fold_left
    (fun st i => fold_left (fun st' j => rs_block gray rows cols st' i j)
                           (py_range 0 (cols - 1) 2) st)
    (py_range 0 (rows - 1) 2)
    (0%Z, 0%Z, 0%Z).

Definition rs_analysis (gray : ndarray) : result (Q * Q) :=
  match shape gray with
  | [rows; cols] =>
      let '(total, regular, singular) := rs_loop gray rows cols in
      (* Return ratio of regular and singular groups *)
      Ok (if (0 <? total)%Z then (inject_Z regular / inject_Z total)%Q else 0%Q,
          if (0 <? total)%Z then (inject_Z singular / inject_Z total)%Q else 0%Q)
  | _ => Raise (ValueError "not enough values to unpack")
  end.

Definition image_entropy (image : ndarray) : Q := shannon_entropy image.

(** [cv2.calcHist([gray], [0], None, [256], [0, 256])]: one bin per
    intensity. *)
Definition calcHist256 (gray : ndarray) : list Z :=
  map (fun v => Z.of_nat (count_occ Z.eq_dec (data gray) (Z.of_nat v))) (seq 0 256).

Definition histogram_slope_analysis (gray : ndarray) : Z :=
  let hist := calcHist256 gray in
  let diffs := np_diff hist in
  Zsum (map Z.abs (np_diff (np_sign diffs))).

Definition composite_score (chi_p : pyfloat) (entropy rs_reg rs_sing : Q)
           (slope_changes : Z) : bool :=
  let score := 0%Z in
  (* Suspicious if chi-square p-value is low *)
  let score := if flt chi_p (5 # 100) then (score + 1)%Z else score in
  (* High entropy in LSB plane is suspicious *)
  let score := if Qltb (9 # 10) entropy then (score + 1)%Z else score in
  (* Equal RS regular and singular ratios are suspicious *)
  let score := if Qltb (Qabs (rs_reg - rs_sing)) (5 # 100) then (score + 1)%Z else score in
  (* Many histogram slope changes can indicate hidden data *)
  let score := if (100 <? slope_changes)%Z then (score + 1)%Z else score in
  (* Consider suspicious if 3+ indicators triggered *)
  (3 <=? score)%Z.

(** The four indicator tests, as [analyze_image] recounts them. *)
Definition indicators (chi_p : pyfloat) (entropy_val rs_reg rs_sing : Q) (slope : Z) : Z :=
  Zsum [ if flt chi_p (5 # 100) then 1 else 0;
         if Qltb (9 # 10) entropy_val then 1 else 0;
         if Qltb (Qabs (rs_reg - rs_sing)) (5 # 100) then 1 else 0;
         if (100 <? slope)%Z then 1 else 0 ]%Z.

(** The battery of [analyze_image]: everything up to the scorer. *)
Record battery : Type := {
  b_format : string;
  b_chi_p : pyfloat;
  b_entropy : Q;
  b_rs_reg : Q;
  b_rs_sing : Q;
  b_slope : Z
}.

Definition run_battery (image_data : bytes) : result battery :=
  '(img, img_format) <- load_image_as_array image_data ;;
  gray <- cvtColor_BGR2GRAY img ;;
  lsb <- extract_lsb_plane img ;;
  '(chi_val, chi_p) <- chi_square_test lsb ;;
  let entropy_val := image_entropy lsb in
  '(rs_reg, rs_sing) <- rs_analysis gray ;;
  let slope := histogram_slope_analysis gray in
  Ok {| b_format := img_format; b_chi_p := chi_p; b_entropy := entropy_val;
        b_rs_reg := rs_reg; b_rs_sing := rs_sing; b_slope := slope |}.

(** The scorer of [analyze_image]: verdict flag and rounded confidence. *)
Definition score_battery (b : battery) : bool * Q :=
  let suspicious :=
    composite_score (b_chi_p b) (b_entropy b) (b_rs_reg b) (b_rs_sing b) (b_slope b) in
  let confidence :=
    if suspicious then
      let n := indicators (b_chi_p b) (b_entropy b) (b_rs_reg b) (b_rs_sing b) (b_slope b) in
      (* Scale from 0.6 to 0.95 based on number of indicators *)
      if (3 <=? n)%Z then ((6 # 10) + inject_Z (n - 3) * (35 # 100) / 1)%Q else 0%Q
    else 0%Q in
  (suspicious, py_round confidence 2).

Definition analyze_image (image_data : bytes) : dict :=
  catch
    (b <- run_battery image_data ;;
     let '(suspicious, confidence) := score_battery b in
     let notes :=
       if str_in (b_format b) LOSSY_FORMATS
       then ["Lossy format; LSB steganography less likely."%string] else [] in
     Ok [ ("detected", VBool suspicious);
          ("confidence", VNum confidence);
          ("method", VStr "Advanced LSB Analysis");
          ("details",
            VDict [ ("chi_square_p", VFloat (py_round_f (b_chi_p b) 5));
                    ("lsb_entropy", VNum (py_round (b_entropy b) 4));
                    ("rs_regular", VNum (py_round (b_rs_reg b) 4));
                    ("rs_singular", VNum (py_round (b_rs_sing b) 4));
                    ("histogram_slope_changes", VInt (b_slope b));
                    ("image_format", VStr (b_format b)) ]%string);
          ("detection_methods",
            VStrs ["Chi-square test"; "RS analysis"; "Entropy analysis";
                   "Histogram analysis"]%string);
          ("notes", VStrs notes) ]%string)
    (fun e =>
       [ ("detected", VBool false);
         ("confidence", VNum 0);
         ("method", VStr "Advanced LSB Analysis");
         ("error", VStr (exn_str e)) ]%string).

End WithLib.
End AdvancedLsbDetector.

(* ------------------------------------------------------------------ *)
(** ** advanced_steganography.py *)

Module AdvancedSteganography.

Definition SUPPORTED_FORMATS : list string :=
  [".jpg"; ".jpeg"; ".png"; ".gif"; ".webp"; ".bmp"; ".tiff"; ".tif"; ".ico"]%string.

Definition LOSSY_FORMATS : list string := [".jpg"; ".jpeg"; ".webp"]%string.

(** What OpenCV and PIL contribute: [cv2.imread(path)], which is [None] for
    a file it cannot read, and [np.array(Image.open(path).convert('RGB'))]. *)
Class Decoder : Type := {
  cv2_imread : string -> option ndarray;
  pil_open_rgb : string -> result ndarray
}.

Section WithLib.
Context {L : ExternalLib} {D : Decoder}.
Local Open Scope py_scope.

Definition load_image_safe (image_path : string) : result ndarray :=
  let ext := lower (splitext_ext image_path) in
  if negb (str_in ext SUPPORTED_FORMATS) then
    Raise (ValueError ("Unsupported file extension: " ++ ext))
  else
    try_except
      (if str_in ext [".png"; ".jpg"; ".jpeg"; ".bmp"; ".tiff"; ".tif"; ".webp"]%string then
         match cv2_imread image_path with
         | Some img => Ok img
         | None => Raise (ValueError ("Failed to load image with OpenCV: " ++ image_path))
         end
       else if str_in ext [".gif"; ".ico"]%string then
         pil <- pil_open_rgb image_path ;;
         cvtColor_RGB2BGR pil
       else Raise (ValueError "Unsupported format for decoding."))
      (fun e => Raise (Exception ("Failed to load image (" ++ ext ++ "): " ++ exn_str e))).

(** The battery and the scorer are the text of [advanced_lsb_detector.py]. *)
Definition extract_lsb_plane : ndarray -> result ndarray :=
  AdvancedLsbDetector.extract_lsb_plane.
Definition chi_square_test : ndarray -> result (pyfloat * pyfloat) :=
  AdvancedLsbDetector.chi_square_test.
Definition rs_analysis : ndarray -> result (Q * Q) := AdvancedLsbDetector.rs_analysis.
Definition image_entropy : ndarray -> Q := AdvancedLsbDetector.image_entropy.
Definition histogram_slope_analysis : ndarray -> Z :=
  AdvancedLsbDetector.histogram_slope_analysis.
Definition composite_score : pyfloat -> Q -> Q -> Q -> Z -> bool :=
  AdvancedLsbDetector.composite_score.

Definition run_battery (image_path : string) : result AdvancedLsbDetector.battery :=
  let ext := lower (splitext_ext image_path) in
  img <- load_image_safe image_path ;;
  gray <- cvtColor_BGR2GRAY img ;;
  lsb <- extract_lsb_plane img ;;
  '(chi_val, chi_p) <- chi_square_test lsb ;;
  let entropy_val := image_entropy lsb in
  '(rs_reg, rs_sing) <- rs_analysis gray ;;
  let slope := histogram_slope_analysis gray in
  Ok {| AdvancedLsbDetector.b_format := ext;
        AdvancedLsbDetector.b_chi_p := chi_p;
        AdvancedLsbDetector.b_entropy := entropy_val;
        AdvancedLsbDetector.b_rs_reg := rs_reg;
        AdvancedLsbDetector.b_rs_sing := rs_sing;
        AdvancedLsbDetector.b_slope := slope |}.

Definition analyze_image (image_path : string) : dict :=
  catch
    (b <- run_battery image_path ;;
     let '(suspicious, confidence) := AdvancedLsbDetector.score_battery b in
     let notes :=
       if str_in (AdvancedLsbDetector.b_format b) LOSSY_FORMATS
       then ["Lossy format; LSB steganography less likely."%string] else [] in
     Ok [ ("hasSteganography", VBool suspicious);
          ("confidence", VNum confidence);
          ("detectionMethod", VStr "Advanced LSB Analysis");
          ("detectionsByMethod",
            VDict [ ("chi_square_p", VFloat (py_round_f (AdvancedLsbDetector.b_chi_p b) 5));
                    ("lsb_entropy", VNum (py_round (AdvancedLsbDetector.b_entropy b) 4));
                    ("rs_regular", VNum (py_round (AdvancedLsbDetector.b_rs_reg b) 4));
                    ("rs_singular", VNum (py_round (AdvancedLsbDetector.b_rs_sing b) 4));
                    ("histogram_slope_changes", VInt (AdvancedLsbDetector.b_slope b))
                  ]%string);
          ("detectionMethods",
            VStrs ["Chi-square test"; "RS analysis"; "Entropy analysis";
                   "Histogram analysis"]%string);
          ("notes", VStrs notes) ]%string)
    (fun e =>
       [ ("hasSteganography", VBool false);
         ("confidence", VNum 0);
         ("error", VStr (exn_str e));
         ("detectionMethod", VStr "Advanced LSB Analysis");
         ("detectionsByMethod", VDict []);
         ("notes", VStrs ["Analysis failed with error"%string]) ]%string).

End WithLib.
End AdvancedSteganography.

(* ------------------------------------------------------------------ *)
(** ** Code that touches the outside: results with a log of what was done *)

Inductive event : Type :=
| TempFileWritten (suffix : string)
| TempFileNamed (suffix : string)
| Unlinked (path : string)
| AudioDecodeAttempt (path : string)
| VideoOpenAttempt (path : string)
| FfmpegRun (src dst : string)
| ImageDecodeAttempt
| StdinRead
| FileRead (path : string)
| Printed (text : string).

(** A computation takes the log so far and gives its outcome and the log
    after it; what was done before an exception stays done. *)
Definition IO (A : Type) : Type := list event -> result A * list event.

Definition io_ret {A : Type} (a : A) : IO A := fun log => (Ok a, log).

Definition io_bind {A B : Type} (c : IO A) (k : A -> IO B) : IO B :=
  fun log =>
    match c log with
    | (Ok a, log') => k a log'
    | (Raise e, log') => (Raise e, log')
    end.

(** An outside call: log it, then take the outcome the world gives. *)
Definition io_call {A : Type} (ev : event) (outcome : result A) : IO A :=
  fun log => (outcome, log ++ [ev]).

Definition io_lift {A : Type} (r : result A) : IO A := fun log => (r, log).

Definition io_try {A : Type} (c : IO A) (h : exn -> IO A) : IO A :=
  fun log =>
    match c log with
    | (Ok a, log') => (Ok a, log')
    | (Raise e, log') => h e log'
    end.

Notation "x <~ c ;; k" := (io_bind c (fun x => k))
  (at level 61, c at next level, right associativity) : py_scope.
Notation "' pat <~ c ;; k" := (io_bind c (fun x => match x with pat => k end))
  (at level 61, pat pattern, c at next level, right associativity) : py_scope.

(** Running from an empty log *)
Definition run {A : Type} (c : IO A) : result A * list event := c [].

(* ------------------------------------------------------------------ *)
(** ** advanced_media_steganography.py *)

Module AdvancedMediaSteganography.

(** [cv2.VideoCapture]: whether the container opened, the frame count its
    header reports ([CAP_PROP_FRAME_COUNT]), and the frames that decode, in
    order. *)
Record capture : Type := {
  cap_isOpened : bool;
  cap_frame_count : Z;
  cap_stream : list ndarray
}.

Class World : Type := {
  (** [tempfile.NamedTemporaryFile(suffix=..., delete=False)], written *)
  tmp_write : bytes -> string -> result string;
  (** the [name] of a fresh [NamedTemporaryFile] *)
  tmp_name : string -> result string;
  path_exists : string -> bool;
  unlink : string -> result unit;
  (** [np.array(AudioSegment.from_file(path).get_array_of_samples())] *)
  audio_samples : string -> result (list Z);
  video_capture : string -> capture;
  (** [ffmpeg.input(src).output(dst).run(...)] *)
  ffmpeg_run : string -> string -> result unit;
  (** [Image.open(io.BytesIO(data))]: the mode and the pixel array *)
  pil_open : bytes -> result (string * ndarray);
  (** [cv2.resize(image, (w, h))] *)
  cv2_resize : ndarray -> Z -> Z -> result ndarray;
  (** [sys.argv], [sys.stdin.buffer.read()], [open(path, 'rb').read()] *)
  sys_argv : list string;
  stdin_read : result bytes;
  file_read : string -> result bytes;
  (** [json.dumps(d)]: the text, or the [TypeError] that it raises on a
      value that is not JSON serializable, such as a numpy [bool_] *)
  json_dumps : dict -> result string
}.

Section WithWorld.
Context {L : ExternalLib} {W : World}.
Local Open Scope py_scope.

(** *** Helper functions *)

Definition load_image_from_buffer (image_data : bytes) : IO ndarray :=
  io_try
    ('(mode, img_array) <~ io_call ImageDecodeAttempt (pil_open image_data) ;;
     (* RGBA2BGR and RGB2BGR both give the three channels reversed *)
     if String.eqb mode "RGBA" then io_lift (cvtColor_RGB2BGR img_array)
     else io_lift (cvtColor_RGB2BGR img_array))
    (fun e =>
       (* Return a small blank image as fallback *)
       io_ret (np_zeros [50; 50; 3]%Z)).

Definition save_buffer_to_temp_file (buffer : bytes) (extension : string) : IO string :=
  io_call (TempFileWritten extension) (tmp_write buffer extension).

(** *** LSB detection for images *)

Definition extract_lsb_plane (image : ndarray) : ndarray :=
  catch
    (gray <- (if (List.length (shape image) =? 3)%nat
              then cvtColor_BGR2GRAY image      (* Color image *)
              else Ok image) ;;                 (* Already grayscale *)
     Ok (np_and1 gray))
    (fun e => np_zeros [50; 50]%Z).

Definition chi_square_test (lsb_plane : ndarray) : pyfloat * pyfloat :=
  catch
    (let flat := flatten lsb_plane in
     let '(values, counts) := np_unique flat in
     e <- py_truediv (Z.of_nat (List.length flat)) (Z.of_nat (List.length values)) ;;
     let expected := repeat e (List.length values) in
     '(chi, p) <- chisquare (map inject_Z counts) expected ;;
     Ok (chi, p))
    (fun e => (Fin 0, Fin 1)).    (* Return no significance on error *)

Definition image_entropy (image : ndarray) : Q :=
  catch (Ok (shannon_entropy image)) (fun e => 0%Q).

(** [np.sum(np.abs(np.diff(block.astype(float), axis=0)))] of a block
    with [w] columns *)
Definition smoothness_of (w : nat) (d : list Z) : Z :=
  Zsum (map (fun k => Z.abs (nth (k + w) d 0 - nth k d 0)%Z)
            (seq 0 (List.length d - w))).

Definition mask_flip (block mask : ndarray) : ndarray :=
  {| shape := shape block;
     data := map (fun bm => Z.lxor (fst bm) (snd bm)) (combine (data block) (data mask)) |}.

(** [np.tile([[0, 1], [1, 0]], (2, 2))] and [np.tile([[1, 0], [0, 1]], (2, 2))] *)
Definition mask1 : ndarray :=
  {| shape := [4; 4]%Z;
     data := [0; 1; 0; 1;  1; 0; 1; 0;  0; 1; 0; 1;  1; 0; 1; 0]%Z |}.
Definition mask2 : ndarray :=
  {| shape := [4; 4]%Z;
     data := [1; 0; 1; 0;  0; 1; 0; 1;  1; 0; 1; 0;  0; 1; 0; 1]%Z |}.

Definition block_size : Z := 4.

(** The body of the block loop; the state is
    [(regular_groups, singular_groups)]. *)
Definition classify (smoothness flipped_smoothness : Z) (st : Z * Z) : Z * Z :=
  let '(regular_groups, singular_groups) := st in
  if (smoothness <? flipped_smoothness)%Z then ((regular_groups + 1)%Z, singular_groups)
  else if (flipped_smoothness <? smoothness)%Z then (regular_groups, (singular_groups + 1)%Z)
  else st.

Definition rs_block (img : ndarray) (height width : Z) (st : Z * Z) (y x : Z) : Z * Z :=
  let block := slice2 img height width y (y + block_size) x (x + block_size) in
  let smoothness := smoothness_of 4 (data block) in
  let flipped := mask_flip block mask1 in
  let st := classify smoothness (smoothness_of 4 (data flipped)) st in
  let flipped2 := mask_flip block mask2 in
  classify smoothness (smoothness_of 4 (data flipped2)) st.

Definition calculate_groups (img : ndarray) (height width : Z) : Q * Q :=
  let '(regular_groups, singular_groups) :=
    fold_left
      (fun st y => fold_left (fun st' x => rs_block img height width st' y x)
                             (py_range 0 (width - block_size + 1) block_size) st)
      (py_range 0 (height - block_size + 1) block_size)
      (0%Z, 0%Z) in
  let total_blocks := ((height / block_size) * (width / block_size) * 2)%Z in
  (if (0 <? total_blocks)%Z then (inject_Z regular_groups / inject_Z total_blocks)%Q else 0%Q,
   if (0 <? total_blocks)%Z then (inject_Z singular_groups / inject_Z total_blocks)%Q else 0%Q).

Definition rs_analysis (gray : ndarray) : Q * Q :=
  catch
    (match shape gray with
     | [height; width] => Ok (calculate_groups gray height width)
     | _ => Raise (ValueError "not enough values to unpack")
     end)
    (fun e => (1 # 2, 1 # 2)%Q).   (* Return neutral values on error *)


(** [a.shape[i]] and [a.size] *)
Definition shape_at (a : ndarray) (i : nat) : result Z :=
  match nth_error (shape a) i with
  | Some v => Ok v
  | None => Raise (IndexError "tuple index out of range")
  end.

Definition np_size (a : ndarray) : Z := fold_right Z.mul 1%Z (shape a).

(** The scoring block of [analyze_image]:
    [(indicator_score, confidence_score, detection_methods)]. *)
Definition image_indicators (chi_p : pyfloat) (entropy_val rs_reg rs_sing : Q)
  : Z * Q * list string :=
  let st := (0%Z, 0%Q, @nil string) in
  let add (i : Z) (c : Q) (m : string) (st : Z * Q * list string) :=
    let '(indicator_score, confidence_score, detection_methods) := st in
    ((indicator_score + i)%Z, (confidence_score + c)%Q, detection_methods ++ [m]) in
  (* Chi-square test *)
  let st :=
    if flt chi_p (1 # 1000) then add 3%Z (4 # 10) "Chi-Square Test"%string st
    else if flt chi_p (1 # 100) then add 2%Z (3 # 10) "Chi-Square Test"%string st
    else if flt chi_p (5 # 100) then add 1%Z (2 # 10) "Chi-Square Test"%string st
    else st in
  (* Entropy analysis *)
  let st :=
    if Qltb (98 # 100) entropy_val then add 3%Z (3 # 10) "Entropy Analysis"%string st
    else if Qltb (95 # 100) entropy_val then add 2%Z (2 # 10) "Entropy Analysis"%string st
    else if Qltb (9 # 10) entropy_val then add 1%Z (1 # 10) "Entropy Analysis"%string st
    else st in
  (* RS analysis *)
  let rs_diff := Qabs (rs_reg - rs_sing) in
  if Qltb rs_diff (5 # 100) then add 2%Z (2 # 10) "RS Analysis"%string st
  else if Qltb rs_diff (1 # 10) then add 1%Z (1 # 10) "RS Analysis"%string st
  else st.

Definition analyze_image (image_data : bytes) : IO dict :=
  io_try
    (image <~ load_image_from_buffer image_data ;;
     if (np_size image =? 0)%Z then
       io_ret [ ("hasSteganography", VBool false);
                ("confidence", VInt 0);
                ("error", VStr "Failed to load image data") ]%string
     else
       let lsb_plane := extract_lsb_plane image in
       let '(chi_val, chi_p) := chi_square_test lsb_plane in
       let entropy_val := image_entropy lsb_plane in
       '(rs_reg, rs_sing) <~
         io_lift
           (h <- shape_at image 0 ;;
            w <- shape_at image 1 ;;
            if (h * w <? 4000000)%Z then
              gray <- cvtColor_BGR2GRAY image ;;
              Ok (rs_analysis gray)
            else
              scaled_img <- cv2_resize image 1024 1024 ;;
              gray <- cvtColor_BGR2GRAY scaled_img ;;
              Ok (rs_analysis gray)) ;;
       let '(indicator_score, confidence_score, detection_methods) :=
         image_indicators chi_p entropy_val rs_reg rs_sing in
       (* Determine final verdict *)
       let has_steganography := (3 <=? indicator_score)%Z in
       (* Scale confidence score to a more intuitive range *)
       let confidence_score :=
         if Qltb 0 confidence_score then Qmin ((3 # 10) + confidence_score) 1
         else confidence_score in
       io_ret [ ("hasSteganography", VBool has_steganography);
                ("confidence", VNum confidence_score);
                ("chi_square_p", VFloat chi_p);
                ("lsb_entropy", VNum entropy_val);
                ("rs_regular", VNum rs_reg);
                ("rs_singular", VNum rs_sing);
                ("indicator_score", VInt indicator_score);
                ("detectionMethods", VStrs detection_methods) ]%string)
    (fun e =>
       io_ret [ ("hasSteganography", VBool false);
                ("confidence", VInt 0);
                ("error", VStr (exn_str e)) ]%string).

(** *** Audio functions *)

Definition extract_audio_from_video (video_path : string) : IO (option string) :=
  audio_output_path <~ io_call (TempFileNamed ".wav") (tmp_name ".wav") ;;
  io_try
    (_ <~ io_call (FfmpegRun video_path audio_output_path)
                  (ffmpeg_run video_path audio_output_path) ;;
     io_ret (Some audio_output_path))
    (fun e => io_ret None).

(** The grading block of [analyze_audio_lsb]: [(is_suspicious, confidence)]. *)
Definition audio_bands (chi_p : pyfloat) (entropy_val : Q) : bool * Q :=
  let is_suspicious := flt chi_p (5 # 100) || Qltb (97 # 100) entropy_val in
  if flt chi_p (1 # 100) && Qltb (98 # 100) entropy_val then
    (is_suspicious, 9 # 10)          (* Very likely *)
  else if flt chi_p (5 # 100) && Qltb (97 # 100) entropy_val then
    (is_suspicious, 7 # 10)          (* Likely *)
  else if flt chi_p (1 # 10) && Qltb (95 # 100) entropy_val then
    (is_suspicious, 5 # 10)          (* Possible *)
  else
    (false, 3 # 10).                 (* Less likely *)

Definition analyze_audio_lsb (audio_path : string) : IO dict :=
  io_try
    (samples <~ io_call (AudioDecodeAttempt audio_path) (audio_samples audio_path) ;;
     (* Perform LSB analysis *)
     let lsb_plane :=
       np_and1 {| shape := [Z.of_nat (List.length samples)]; data := samples |} in
     let '(chi_val, chi_p) := chi_square_test lsb_plane in
     let entropy_val := shannon_entropy lsb_plane in
     let '(is_suspicious, confidence) := audio_bands chi_p entropy_val in
     io_ret [ ("hasSteganography", VBool is_suspicious);
              ("confidence", VNum confidence);
              ("chi_square_p", VFloat chi_p);
              ("lsb_entropy", VNum entropy_val);
              ("detectionMethods",
                VStrs ["LSB Analysis"; "Chi-Square Test"; "Entropy Analysis"]%string)
            ]%string)
    (fun e =>
       io_ret [ ("hasSteganography", VBool false);
                ("confidence", VInt 0);
                ("error", VStr (exn_str e)) ]%string).

(** *** Video functions *)

(** [np.linspace(start, stop, num, dtype=int)] for [0 <= start <= stop] *)
Definition np_linspace_int (start stop num : Z) : list Z :=
  map (fun k => Qfloor (inject_Z start
                        + inject_Z (Z.of_nat k)
                          * (inject_Z (stop - start) / inject_Z (num - 1)))%Q)
      (seq 0 (Z.to_nat num)).

(** [cap.set(cv2.CAP_PROP_POS_FRAMES, idx); ret, frame = cap.read()] *)
Definition read_at (cap : capture) (idx : Z) : option ndarray :=
  if (idx <? 0)%Z then None else nth_error (cap_stream cap) (Z.to_nat idx).

Definition extract_frames_from_video (video_path : string) (max_frames : Z)
  : IO (list ndarray) :=
  io_try
    (cap <~ io_call (VideoOpenAttempt video_path) (Ok (video_capture video_path)) ;;
     if negb (cap_isOpened cap) then
       io_lift (Raise (Exception ("Could not open video: " ++ video_path)))
     else
       let frame_count := cap_frame_count cap in
       if (max_frames <? frame_count)%Z then
         (* If too many frames, extract a sample *)
         let indices := np_linspace_int 0 (frame_count - 1) max_frames in
         io_ret (flat_map (fun idx => match read_at cap idx with
                                      | Some frame => [frame]
                                      | None => []
                                      end) indices)
       else
         (* Extract all frames if fewer than max_frames *)
         io_ret (cap_stream cap))
    (fun e => io_ret []).

(** The frame loop of [analyze_video]; the state is
    [(suspicious_frames, chi_p_values, entropy_values)]. *)
Definition frame_step (st : Z * list pyfloat * list Q) (frame : ndarray)
  : Z * list pyfloat * list Q :=
  let '(suspicious_frames, chi_p_values, entropy_values) := st in
  let lsb_plane := extract_lsb_plane frame in
  let '(chi_val, chi_p) := chi_square_test lsb_plane in
  let entropy_val := shannon_entropy lsb_plane in
  (if flt chi_p (5 # 100) || Qltb (97 # 100) entropy_val
   then (suspicious_frames + 1)%Z else suspicious_frames,
   chi_p_values ++ [chi_p],
   entropy_values ++ [entropy_val]).

Definition frame_loop (frames : list ndarray) : Z * list pyfloat * list Q :=
  fold_left frame_step frames (0%Z, [], []).

(** The four bands of [analyze_video]: [(has_steg, confidence)]. *)
Definition video_bands (suspicious_ratio : Q) : bool * Q :=
  if Qltb (5 # 10) suspicious_ratio then
    (true, (7 # 10) + (suspicious_ratio - (5 # 10)) * (6 # 10))%Q   (* Scale 0.7-1.0 *)
  else if Qltb (3 # 10) suspicious_ratio then
    (true, (5 # 10) + (suspicious_ratio - (3 # 10)) * 2)%Q          (* Scale 0.5-0.7 *)
  else if Qltb (1 # 10) suspicious_ratio then
    (true, (3 # 10) + (suspicious_ratio - (1 # 10)) * 2)%Q          (* Scale 0.3-0.5 *)
  else
    (Qltb 0 suspicious_ratio, suspicious_ratio * 3)%Q.              (* Scale 0-0.3 *)

(** [d.get(k, default)] *)
Definition dict_get_default (k : string) (default : pyval) (d : dict) : pyval :=
  match dict_get k d with Some v => v | None => default end.

Definition num_of (v : pyval) : result Q :=
  match as_num v with
  | Some q => Ok q
  | None => Raise (TypeError "unsupported operand type(s)")
  end.

(** Consider audio analysis in final verdict *)
Definition blend_audio (hc : bool * Q) (audio_result : option dict) : result (bool * Q) :=
  let '(has_steg, confidence) := hc in
  match audio_result with
  | Some a =>
      if truthy (VDict a)
         && truthy (dict_get_default "hasSteganography" (VBool false) a) then
        (* Average confidence with audio result, giving video more weight *)
        ac <- num_of (dict_get_default "confidence" (VInt 0) a) ;;
        Ok (true, ((confidence * 2 + ac) / 3)%Q)
      else Ok (has_steg, confidence)
  | None => Ok (has_steg, confidence)
  end.

Definition fmean (l : list pyfloat) : pyfloat :=
  match fold_right fadd (Fin 0) l with
  | Fin t => Fin (t / inject_Z (Z.of_nat (List.length l)))
  | other => other
  end.

Definition opt_dict (o : option dict) : pyval :=
  match o with Some d => VDict d | None => VNone end.

(** The audio track of the video; an exception after [audio_result] was
    assigned (from [os.unlink]) leaves it assigned. *)
Definition video_audio (video_path : string) : IO (option dict) :=
  io_try
    (audio_path <~ extract_audio_from_video video_path ;;
     match audio_path with
     | Some p =>
         if truthy (VStr p) then
           audio_result <~ analyze_audio_lsb p ;;
           (* Clean up temp audio file *)
           io_try
             (if path_exists p then
                _ <~ io_call (Unlinked p) (unlink p) ;; io_ret (Some audio_result)
              else io_ret (Some audio_result))
             (fun e => io_ret (Some audio_result))
         else io_ret None
     | None => io_ret None
     end)
    (fun e => io_ret None).

Definition analyze_video (video_path : string) : IO dict :=
  io_try
    (frames <~ extract_frames_from_video video_path 10 ;;
     match frames with
     | [] =>
         io_ret [ ("hasSteganography", VBool false);
                  ("confidence", VInt 0);
                  ("error", VStr "No frames could be extracted from video") ]%string
     | _ =>
         (* Analyze frames for LSB steganography *)
         let '(suspicious_frames, chi_p_values, entropy_values) := frame_loop frames in
         (* Also analyze audio if present *)
         audio_result <~ video_audio video_path ;;
         (* Calculate confidence based on proportion of suspicious frames *)
         let suspicious_ratio :=
           (inject_Z suspicious_frames / inject_Z (Z.of_nat (List.length frames)))%Q in
         '(has_steg, confidence) <~
           io_lift (blend_audio (video_bands suspicious_ratio) audio_result) ;;
         (* Cap confidence at 1.0 *)
         let confidence := Qmin confidence 1 in
         io_ret [ ("hasSteganography", VBool has_steg);
                  ("confidence", VNum confidence);
                  ("framesAnalyzed", VInt (Z.of_nat (List.length frames)));
                  ("suspiciousFrames", VInt suspicious_frames);
                  ("avgChiSquareP", VFloat (fmean chi_p_values));
                  ("avgLsbEntropy", VNum (np_mean entropy_values));
                  ("audioSteganography", opt_dict audio_result);
                  ("detectionMethods",
                    VStrs ["Frame LSB Analysis"; "Chi-Square Test";
                           "Entropy Analysis"]%string) ]%string
     end)
    (fun e =>
       io_ret [ ("hasSteganography", VBool false);
                ("confidence", VInt 0);
                ("error", VStr (exn_str e)) ]%string).

(** *** The dispatcher *)

Definition AUDIO_EXTENSIONS : list string :=
  [".mp3"; ".wav"; ".aac"; ".flac"; ".ogg"; ".amr"]%string.
Definition VIDEO_EXTENSIONS : list string :=
  [".mp4"; ".avi"; ".mkv"; ".mov"; ".webm"; ".flv"]%string.
Definition IMAGE_EXTENSIONS : list string :=
  [".jpg"; ".jpeg"; ".png"; ".gif"; ".webp"; ".bmp"; ".tiff"; ".tif"; ".ico";
   ".heic"; ".heif"; ".svg"; ".avif"]%string.

Definition unsupported_verdict (ext : string) : dict :=
  [ ("hasSteganography", VBool false);
    ("confidence", VInt 0);
    ("error", VStr ("Unsupported file format: " ++ ext));
    ("mediaType", VStr "unknown") ]%string.

Definition detect_media_steganography (file_data : bytes) (file_name : string) : IO dict :=
  io_try
    (let ext := lower (splitext_ext file_name) in
     (* Process based on file type *)
     '(result, temp_file_path) <~
       (if str_in ext AUDIO_EXTENSIONS then
          temp_file_path <~ save_buffer_to_temp_file file_data ext ;;
          result <~ analyze_audio_lsb temp_file_path ;;
          io_ret (dict_set "mediaType" (VStr "audio") result, Some temp_file_path)
        else if str_in ext VIDEO_EXTENSIONS then
          temp_file_path <~ save_buffer_to_temp_file file_data ext ;;
          result <~ analyze_video temp_file_path ;;
          io_ret (dict_set "mediaType" (VStr "video") result, Some temp_file_path)
        else if str_in ext IMAGE_EXTENSIONS then
          result <~ analyze_image file_data ;;
          io_ret (dict_set "mediaType" (VStr "image") result, None)
        else
          (* Unsupported format *)
          io_ret (unsupported_verdict ext, None)) ;;
     (* Clean up temporary file if created *)
     _ <~ match temp_file_path with
          | Some p =>
              if truthy (VStr p) && path_exists p then
                io_try (io_call (Unlinked p) (unlink p)) (fun e => io_ret tt)
              else io_ret tt
          | None => io_ret tt
          end ;;
     io_ret result)
    (fun e =>
       io_ret [ ("hasSteganography", VBool false);
                ("confidence", VInt 0);
                ("error", VStr ("Analysis failed: " ++ exn_str e));
                ("mediaType", VStr "unknown") ]%string).

(** *** API function for integration with Node.js
    What it returns is a verdict dictionary, or, when the script got no
    path argument, the JSON text of a usage error.  Every [json.dumps] is
    inside the [try]; the one of the handler is not. *)
Definition is_empty (o : option bytes) : bool :=
  match o with Some (_ :: _) => false | _ => true end.

Definition detect_steganography_in_media (file_data : option bytes) : IO pyval :=
  io_try
    (if (List.length sys_argv <? 2)%nat then
       text <~ io_lift (json_dumps
                          [("error", VStr "Missing required argument: file path")]%string) ;;
       io_ret (VStr text)
     else
       let file_path := nth 1 sys_argv EmptyString in
       let file_name := basename file_path in
       (* Read file data from stdin if not provided *)
       file_data <~ (if is_empty file_data
                     then d <~ io_call StdinRead stdin_read ;; io_ret (Some d)
                     else io_ret file_data) ;;
       (* If still no data, try to read from file path *)
       file_data <~ (if is_empty file_data
                     then d <~ io_call (FileRead file_path) (file_read file_path) ;;
                          io_ret (Some d)
                     else io_ret file_data) ;;
       result <~ detect_media_steganography
                   (match file_data with Some d => d | None => [] end) file_name ;;
       (* Print the result as JSON to stdout *)
       text <~ io_lift (json_dumps result) ;;
       _ <~ io_call (Printed text) (Ok tt) ;;
       io_ret (VDict result))
    (fun e =>
       let error_result :=
         [ ("hasSteganography", VBool false);
           ("confidence", VInt 0);
           ("error", VStr (exn_str e)) ]%string in
       text <~ io_lift (json_dumps error_result) ;;
       _ <~ io_call (Printed text) (Ok tt) ;;
       io_ret (VDict error_result)).

End WithWorld.
End AdvancedMediaSteganography.

(* ------------------------------------------------------------------ *)
(** ** steganography_service.py *)

Module SteganographyService.

(** What [subprocess.Popen(cmd, ...).communicate()] leaves behind *)
Record process : Type := {
  returncode : Z;
  stdout : string;
  stderr : string
}.

Class Tools : Type := {
  (** the [.png] temporary file written with the image bytes *)
  tmp_write : bytes -> result string;
  unlink : string -> result unit;
  (** [np.array(Image.open(...).convert("RGB"))] with the image's width
      and height *)
  pil_open_rgb : bytes -> result (ndarray * Z * Z);
  (** running [java -jar StegExpose.jar path -all] *)
  run_stegexpose : string -> result process;
  (** running [java -jar openstego.jar extract -a lsb -sf path] *)
  run_openstego : string -> result process;
  (** [float(s)] *)
  parse_float : string -> result Q
}.

(** [str(n)] *)
Definition str_of_Z (z : Z) : string :=
  DecimalString.NilZero.string_of_int (Z.to_int z).

(** [s.strip()] *)
Definition is_space (c : ascii) : bool :=
  let n := nat_of_ascii c in
  ((n =? 32) || ((9 <=? n) && (n <=? 13)))%nat.

Fixpoint lstrip (s : string) : string :=
  match s with
  | String c r => if is_space c then lstrip r else s
  | EmptyString => EmptyString
  end.

Fixpoint rstrip (s : string) : string :=
  match s with
  | String c r =>
      match rstrip r with
      | EmptyString => if is_space c then EmptyString else String c EmptyString
      | r' => String c r'
      end
  | EmptyString => EmptyString
  end.

Definition strip (s : string) : string := rstrip (lstrip s).

(** [s.split(",")] *)
Fixpoint split_comma (s : string) : list string :=
  match s with
  | EmptyString => [EmptyString]
  | String c r =>
      if Ascii.eqb c "," then EmptyString :: split_comma r
      else match split_comma r with
           | h :: t => String c h :: t
           | [] => [String c EmptyString]
           end
  end.

(** [needle in hay] *)
Fixpoint contains (needle hay : string) : bool :=
  match hay with
  | EmptyString => String.eqb needle EmptyString
  | String _ r => String.prefix needle hay || contains needle r
  end.

Section WithTools.
Context {T : Tools}.
Local Open Scope py_scope.

Definition error_result (e : exn) : dict :=
  [ ("detected", VBool false);
    ("confidence", VNum 0);
    ("error", VStr (exn_str e)) ]%string.

(** *** detect_lsb *)

(** [pixels[row, col, channel] % 2] of an [h] x [w] x 3 array *)
Definition lsb_at (pixels : ndarray) (w : Z) (row col channel : Z) : Z :=
  (nth (Z.to_nat ((row * w + col) * 3 + channel)) (data pixels) 0 mod 2)%Z.

(** [pixels[:, :, channel].flatten() % 2] *)
Definition channel_lsbs (pixels : ndarray) (h w channel : Z) : list Z :=
  flat_map (fun row => map (fun col => lsb_at pixels w row col channel) (py_range 0 w 1))
           (py_range 0 h 1).

Definition count_eq (v : Z) (l : list Z) : Z :=
  Z.of_nat (List.length (filter (Z.eqb v) l)).

Definition Qmax_list (l : list Q) : Q := fold_right Qmax 0%Q l.

Definition detect_lsb (image_data : bytes) : dict :=
  catch
    ('(pixels, width, height) <- pil_open_rgb image_data ;;
     h <- match nth_error (shape pixels) 0 with
          | Some v => Ok v | None => Raise (IndexError "tuple index out of range") end ;;
     w <- match nth_error (shape pixels) 1 with
          | Some v => Ok v | None => Raise (IndexError "tuple index out of range") end ;;
     let channels := [0; 1; 2]%Z in
     (* Calculate LSB frequencies for each color channel *)
     let lsb_freqs :=
       map (fun channel =>
              let lsb_values := channel_lsbs pixels h w channel in
              (inject_Z (Zsum lsb_values) / inject_Z (h * w))%Q) channels in
     (* In normal images, LSBs should be close to 0.5 frequency *)
     let anomaly_scores := map (fun freq => Qabs (freq - (1 # 2))) lsb_freqs in
     let max_anomaly := Qmax_list anomaly_scores in
     (* Calculate chi-square test for randomness *)
     let chi_square_values :=
       map (fun channel =>
              let channel_data := channel_lsbs pixels h w channel in
              let observed_0 := inject_Z (count_eq 0 channel_data) in
              let observed_1 := inject_Z (count_eq 1 channel_data) in
              let expected := (inject_Z (h * w) / 2)%Q in
              ((observed_0 - expected) * (observed_0 - expected) / expected
               + (observed_1 - expected) * (observed_1 - expected) / expected)%Q)
           channels in
     let avg_chi_square := (Qsum chi_square_values / 3)%Q in
     (* Count transitions between adjacent pixels *)
     let transitions :=
       Zsum (map (fun channel =>
              Zsum (map (fun row =>
                Zsum (map (fun col =>
                  if (lsb_at pixels w row col channel
                      =? lsb_at pixels w row (col + 1) channel)%Z
                  then 0%Z else 1%Z) (py_range 0 (w - 1) 1)))
                (py_range 0 h 1))) channels) in
     transition_ratio <- py_truediv transitions (h * w * 3) ;;
     (* Calculate final detection score (the exact sum; the source's float
        sum is within a rounding of it) *)
     let anomaly_weight := (4 # 10)%Q in
     let chi_square_weight := (4 # 10)%Q in
     let transition_weight := (2 # 10)%Q in
     let chi_score := Qmin 1 (avg_chi_square / 20) in
     (* For transition ratio, very low values are suspicious *)
     let transition_score := (Qmax 0 ((6 # 10) - transition_ratio) * 2)%Q in
     let final_score :=
       (max_anomaly * anomaly_weight + chi_score * chi_square_weight
        + transition_score * transition_weight)%Q in
     (* Determine if steganography is detected based on thresholds *)
     let is_detected := Qltb (5 # 10) final_score in
     let confidence := Qmin (95 # 100) final_score in
     Ok [ ("detected", VBool is_detected);
          ("confidence", VNum confidence);
          ("lsb_frequencies", VList (map VNum lsb_freqs));
          ("chi_square_avg", VNum avg_chi_square);
          ("transition_ratio", VNum transition_ratio);
          ("anomaly_score", VNum max_anomaly);
          ("details",
            VDict [ ("image_size", VStr (str_of_Z width ++ "x" ++ str_of_Z height));
                    ("color_mode", VStr "RGB") ]%string) ]%string)
    error_result.

(** *** detect_stegexpose *)

Definition detect_stegexpose (image_path : string) : dict :=
  catch
    (p <- run_stegexpose image_path ;;
     if negb (returncode p =? 0)%Z then
       Raise (Exception ("StegExpose failed: " ++ stderr p))
     else
       (* Parse output: "filename,chi-square,weighted,sample-pairs,fusion" *)
       let output := strip (stdout p) in
       let parts := split_comma output in
       if (List.length parts <? 5)%nat then
         Raise (Exception ("Unexpected StegExpose output format: " ++ output))
       else
         (* Parse fusion score (overall detection result) *)
         fusion_score <- parse_float (nth 4 parts EmptyString) ;;
         let is_detected := Qltb (5 # 10) fusion_score in
         let confidence := Qmin (95 # 100) fusion_score in
         chi_square_score <- parse_float (nth 1 parts EmptyString) ;;
         weighted_score <- parse_float (nth 2 parts EmptyString) ;;
         sample_pairs_score <- parse_float (nth 3 parts EmptyString) ;;
         Ok [ ("detected", VBool is_detected);
              ("confidence", VNum confidence);
              ("chi_square_score", VNum chi_square_score);
              ("weighted_score", VNum weighted_score);
              ("sample_pairs_score", VNum sample_pairs_score);
              ("fusion_score", VNum fusion_score) ]%string)
    error_result.

(** *** detect_openstego *)

Definition detect_openstego (image_path : string) : dict :=
  catch
    (p <- run_openstego image_path ;;
     (* if OpenStego found a signature, it will report extraction *)
     let output := (stdout p ++ stderr p)%string in
     let is_detected := contains "Extracted" output || contains "extracted" output in
     let confidence := if is_detected then (85 # 100)%Q else 0%Q in
     Ok [ ("detected", VBool is_detected);
          ("confidence", VNum confidence);
          ("tool_output", VStr (strip output)) ]%string)
    error_result.

(** *** detect_steganography *)

(** [results["detailsByMethod"]]: method name to sub-result, in
    insertion order *)
Definition details : Type := list (string * dict).

Fixpoint details_set (k : string) (v : dict) (d : details) : details :=
  match d with
  | [] => [(k, v)]
  | (k', v') :: r =>
      if String.eqb k k' then (k', v) :: r else (k', v') :: details_set k v r
  end.

Definition get_default (k : string) (default : pyval) (d : dict) : pyval :=
  match dict_get k d with Some v => v | None => default end.

(** Aggregate results - check if any method found steganography:
    [(hasSteganography, detectionMethods)] *)
Definition aggregate_detected (ds : details) : bool * list string :=
  fold_left
    (fun st mr =>
       if truthy (get_default "detected" (VBool false) (snd mr))
       then (true, snd st ++ [fst mr]) else st)
    ds (false, []).

(** Calculate overall confidence: [(confidence_sum, methods_count)] *)
Definition aggregate_confidence (ds : details) : result (Q * Z) :=
  fold_left
    (fun st mr =>
       '(confidence_sum, methods_count) <- st ;;
       match dict_get "confidence" (snd mr) with
       | Some c =>
           c <- match as_num c with
                | Some q => Ok q
                | None => Raise (TypeError "unsupported operand type(s)")
                end ;;
           if String.eqb (fst mr) "lsb_analysis" then
             (* Give more weight to LSB analysis *)
             Ok ((confidence_sum + c * 2)%Q, (methods_count + 2)%Z)
           else
             Ok ((confidence_sum + c)%Q, (methods_count + 1)%Z)
       | None => Ok (confidence_sum, methods_count)
       end)
    ds (Ok (0%Q, 0%Z)).

(** The methods that [detect_steganography] runs, in order *)
Definition run_methods (image_data : bytes) (temp_path : string) : result details :=
  let lsb_result := detect_lsb image_data in
  let ds := details_set "lsb_analysis" lsb_result [] in
  c <- match dict_get "confidence" lsb_result with
       | Some v => match as_num v with
                   | Some q => Ok q
                   | None => Raise (TypeError "'<' not supported")
                   end
       | None => Raise (Exception "'confidence'")
       end ;;
  (* Only run external tools if LSB didn't already detect something with
     high confidence *)
  if Qltb c (8 # 10) then
    let ds :=
      details_set "stegexpose"
        (catch (Ok (detect_stegexpose temp_path))
               (fun e => [("error", VStr (exn_str e))]%string)) ds in
    let ds :=
      details_set "openstego"
        (catch (Ok (detect_openstego temp_path))
               (fun e => [("error", VStr (exn_str e))]%string)) ds in
    Ok ds
  else Ok ds.

Definition details_val (ds : details) : pyval :=
  VDict (map (fun mr => (fst mr, VDict (snd mr))) ds).

(** [try: body  finally: cleanup] where the cleanup swallows its own
    exceptions *)
Definition finally {A : Type} (body : result A) (cleanup : result unit) : result A :=
  let _ := cleanup in body.

Definition detect_steganography (image_data : bytes) : dict :=
  catch
    (temp_path <- tmp_write image_data ;;
     finally
       (ds <- run_methods image_data temp_path ;;
        let '(hasSteganography, detectionMethods) := aggregate_detected ds in
        '(confidence_sum, methods_count) <- aggregate_confidence ds ;;
        let confidence :=
          if (0 <? methods_count)%Z
          then (confidence_sum / inject_Z methods_count)%Q else 0%Q in
        Ok [ ("hasSteganography", VBool hasSteganography);
             ("confidence", VNum confidence);
             ("detectionMethods", VStrs detectionMethods);
             ("detailsByMethod", details_val ds) ]%string)
       (try_except (unlink temp_path) (fun e => Ok tt)))
    (fun e =>
       [ ("hasSteganography", VBool false);
         ("confidence", VNum 0);
         ("error", VStr (exn_str e));
         ("detectionMethods", VList []) ]%string).

(** API function to be called from Node.js *)
Definition detect_steganography_in_image (image_data : bytes) : dict :=
  detect_steganography image_data.

End WithTools.
End SteganographyService.

(* ------------------------------------------------------------------ *)
(** ** media_security_service.py *)

Module MediaSecurityService.

Definition AUDIO_FORMATS : list string :=
  [".mp3"; ".wav"; ".aac"; ".flac"; ".ogg"; ".amr"]%string.
Definition VIDEO_FORMATS : list string :=
  [".mp4"; ".avi"; ".mkv"; ".mov"; ".webm"; ".flv"; ".m4v"; ".3gp"]%string.
Definition IMAGE_FORMATS : list string :=
  [".jpg"; ".jpeg"; ".png"; ".gif"; ".webp"; ".bmp"; ".tiff"; ".tif"; ".ico";
   ".heic"; ".heif"; ".svg"; ".avif"]%string.

(** What the scanners of the service find on the machine: whether the
    YARA rules were loaded ([self.yara_rules]), and what [extract_metadata],
    [scan_with_yara] and [detect_uncommon_codecs] return on a file: a
    dictionary, or an exception that escapes them. *)
Class Scanners : Type := {
  yara_rules : bool;
  extract_metadata : string -> string -> result dict;
  scan_with_yara : string -> result dict;
  detect_uncommon_codecs : string -> result dict
}.

(** [results["securityStatus"]] while the analysis runs; the threat level
    is a string, or a number after the codec check. *)
Record security_status : Type := {
  isSafe : bool;
  threatLevel : pyval;
  warnings : list string;
  recommendations : list string
}.

(** [try: body  finally: cleanup], the cleanup in its own
    [try: ... except: pass] *)
Definition io_finally {A : Type} (body : IO A) (cleanup : IO unit) : IO A :=
  fun log =>
    let '(r, log1) := body log in
    let '(_, log2) := io_try cleanup (fun e => io_ret tt) log1 in
    (r, log2).

(** [v > c] for a float [c] *)
Definition py_gt (v : pyval) (c : Q) : result bool :=
  match v with
  | VInt z => Ok (Qltb c (inject_Z z))
  | VBool b => Ok (Qltb c (if b then 1 else 0))
  | VFloat (Fin q) => Ok (Qltb c q)
  | VFloat PosInf => Ok true
  | VFloat _ => Ok false
  | _ => Raise (TypeError "'>' not supported")
  end.

Section WithWorld.
Context {L : ExternalLib} {W : AdvancedMediaSteganography.World} {S : Scanners}.
Local Open Scope py_scope.

(** Determine the general file type based on extension *)
Definition _determine_file_type (file_ext : string) : string :=
  if str_in file_ext AUDIO_FORMATS then "audio"
  else if str_in file_ext VIDEO_FORMATS then "video"
  else if str_in file_ext IMAGE_FORMATS then "image"
  else "unknown".

(** [any(word in r.lower() for r in recommendations)] *)
Definition mentions (word : string) (recommendations : list string) : bool :=
  existsb (fun r => SteganographyService.contains word (lower r)) recommendations.

(** Add appropriate security recommendations based on file type: the list
    is extended in place. *)
Definition _add_security_recommendations (file_type : string)
           (recommendations : list string) : list string :=
  (* General recommendations for all media files *)
  let recommendations :=
    if negb (mentions "sandbox" recommendations)
    then recommendations
         ++ ["Sandbox media files before opening them in your main environment"%string]
    else recommendations in
  let recommendations :=
    if negb (mentions "metadata" recommendations)
    then recommendations ++ ["Strip metadata from media files before sharing"%string]
    else recommendations in
  (* Audio/video specific recommendations *)
  let recommendations :=
    if str_in file_type ["audio"; "video"]%string then
      let recommendations :=
        if negb (mentions "autoplay" recommendations)
        then recommendations
             ++ ["Disable autoplay in media players for untrusted content"%string]
        else recommendations in
      if negb (mentions "codec" recommendations)
      then recommendations
           ++ ["Monitor and block uncommon codec usage which may hide malicious code"%string]
      else recommendations
    else recommendations in
  (* Add user behavior recommendations *)
  recommendations ++ ["Use behavioral anomaly detection for unusual file interactions"%string].

(** Convert string threat level to numeric for comparison
    ([levels.get(level, -1)]: a key that is no string is not found) *)
Definition _threat_level_to_numeric (level : pyval) : Z :=
  match level with
  | VStr s =>
      if String.eqb s "none" then 0
      else if String.eqb s "low" then 1
      else if String.eqb s "medium" then 2
      else if String.eqb s "high" then 3
      else if String.eqb s "critical" then 4
      else if String.eqb s "unknown" then (-1)
      else (-1)
  | _ => (-1)
  end%Z.

(** Convert numeric threat level back to string *)
Definition _numeric_to_threat_level (numeric_level : Z) : string :=
  if (numeric_level =? 0)%Z then "none"
  else if (numeric_level =? 1)%Z then "low"
  else if (numeric_level =? 2)%Z then "medium"
  else if (numeric_level =? 3)%Z then "high"
  else if (numeric_level =? 4)%Z then "critical"
  else if (numeric_level =? -1)%Z then "unknown"
  else "unknown".

Definition status_val (st : security_status) : pyval :=
  VDict [ ("isSafe", VBool (isSafe st));
          ("threatLevel", threatLevel st);
          ("warnings", VStrs (warnings st));
          ("recommendations", VStrs (recommendations st)) ]%string.

(** The stages of [analyze_media_file] on [results["securityStatus"]]. *)

Definition initial_status : security_status :=
  {| isSafe := true; threatLevel := VStr "none"; warnings := []; recommendations := [] |}.

(** Check for suspicious metadata *)
Definition check_metadata (metadata_result : dict) (st : security_status)
  : security_status :=
  if truthy (AdvancedMediaSteganography.dict_get_default
               "suspicious_fields" (VList []) metadata_result)
  then {| isSafe := false; threatLevel := VStr "low";
          warnings := warnings st ++ ["Suspicious metadata detected"%string];
          recommendations :=
            recommendations st ++ ["Strip metadata before sharing or opening"%string] |}
  else st.

(** Detect steganography: what follows the call of the dispatcher *)
Definition check_steganography (stego_result : dict) (st : security_status)
  : result security_status :=
  if truthy (AdvancedMediaSteganography.dict_get_default
               "hasSteganography" (VBool false) stego_result)
  then
    confident <- py_gt (AdvancedMediaSteganography.dict_get_default
                          "confidence" (VInt 0) stego_result) (7 # 10) ;;
    let threat_level := if confident then "high"%string else "medium"%string in
    Ok {| isSafe := false; threatLevel := VStr threat_level;
          warnings := warnings st ++ ["Potential hidden data detected"%string];
          recommendations :=
            recommendations st
            ++ ["Avoid opening this file - it may contain concealed malicious content"%string] |}
  else Ok st.

(** Scan with YARA rules *)
Definition check_yara (temp_file_path : string) (st : security_status) (analysis : dict)
  : result (security_status * dict) :=
  if yara_rules then
    yara_results <- scan_with_yara temp_file_path ;;
    let analysis := analysis ++ [("yara"%string, VDict yara_results)] in
    if truthy (AdvancedMediaSteganography.dict_get_default "matches" (VList []) yara_results)
    then
      let current_level := threatLevel st in
      Ok ({| isSafe := false;
             threatLevel :=
               match current_level with
               | VStr s => if String.eqb s "none" then VStr "medium" else current_level
               | _ => current_level
               end;
             warnings :=
               warnings st
               ++ ["Matched patterns associated with steganography techniques"%string];
             recommendations := recommendations st |}, analysis)
    else Ok (st, analysis)
  else Ok (st, analysis).

(** Check for uncommon codecs *)
Definition check_codecs (file_ext temp_file_path : string) (st : security_status)
           (analysis : dict) : result (security_status * dict) :=
  if str_in file_ext (AUDIO_FORMATS ++ VIDEO_FORMATS) then
    codec_info <- detect_uncommon_codecs temp_file_path ;;
    let analysis := analysis ++ [("codecAnalysis"%string, VDict codec_info)] in
    if truthy (AdvancedMediaSteganography.dict_get_default
                 "uncommonCodecDetected" (VBool false) codec_info)
    then
      Ok ({| isSafe := false;
             threatLevel :=
               VInt (Z.max (_threat_level_to_numeric (threatLevel st))
                           (_threat_level_to_numeric (VStr "medium")));
             warnings := warnings st ++ ["Uncommon codec detected"%string];
             recommendations :=
               recommendations st
               ++ ["Use caution when opening - uncommon codecs may contain exploits"%string] |},
          analysis)
    else Ok (st, analysis)
  else Ok (st, analysis).

(** Add general security recommendations, then convert a numeric threat
    level back to string *)
Definition finish_status (file_type : string) (st : security_status) : security_status :=
  let recommendations := _add_security_recommendations file_type (recommendations st) in
  {| isSafe := isSafe st;
     threatLevel :=
       match threatLevel st with
       | VInt n => VStr (_numeric_to_threat_level n)
       | level => level
       end;
     warnings := warnings st;
     recommendations := recommendations |}.

(** Main entry point for comprehensive media analysis *)
Definition analyze_media_file (file_data : bytes) (file_name : string) : IO dict :=
  io_try
    ((* Get file extension *)
     let file_ext := lower (splitext_ext file_name) in
     (* Save to temporary file for analysis *)
     temp_file_path <~ io_call (TempFileWritten file_ext)
                               (AdvancedMediaSteganography.tmp_write file_data file_ext) ;;
     io_finally
       (let file_type := _determine_file_type file_ext in
        (* Extract and analyze metadata *)
        metadata_result <~ io_lift (extract_metadata temp_file_path file_ext) ;;
        let st := check_metadata metadata_result initial_status in
        (* Detect steganography *)
        stego_result <~
          AdvancedMediaSteganography.detect_media_steganography file_data file_name ;;
        '(st, analysis) <~
          io_lift
            (st <- check_steganography stego_result st ;;
             '(st, analysis) <-
               check_yara temp_file_path st [("steganography"%string, VDict stego_result)] ;;
             check_codecs file_ext temp_file_path st analysis) ;;
        let st := finish_status file_type st in
        io_ret [ ("fileName", VStr file_name);
                 ("fileSize", VInt (Z.of_nat (List.length file_data)));
                 ("fileType", VStr file_type);
                 ("securityStatus", status_val st);
                 ("analysis", VDict analysis);
                 ("metadata", VDict metadata_result) ]%string)
       (* Clean up temporary file *)
       (io_call (Unlinked temp_file_path) (AdvancedMediaSteganography.unlink temp_file_path)))
    (fun e =>
       io_ret [ ("fileName", VStr file_name);
                ("error", VStr (exn_str e));
                ("securityStatus",
                  VDict [ ("isSafe", VBool false);
                          ("threatLevel", VStr "unknown");
                          ("warnings", VStrs ["Analysis failed - treat file with caution"]);
                          ("recommendations",
                            VStrs ["Do not open this file as it could not be properly analyzed"])
                        ]%string) ]%string).


End WithWorld.
End MediaSecurityService.

(* ------------------------------------------------------------------ *)
(** ** Concrete libraries and worlds for the examples *)

Module Examples.

(** OpenCV's fixed-point luminance with 14-bit weights. *)
Definition cv_bgr2gray (b g r : Z) : Z :=
  Z.shiftr (b * 1868 + g * 9617 + r * 4899 + 8192) 14.

(** A table of the chi-square survival function: [nan] without degrees of
    freedom, [1] at a statistic of [0], and for one degree of freedom the
    textbook critical values (each entry an upper bound of the true
    p-value); [1] elsewhere. *)
Definition chi2_sf_table (stat : pyfloat) (df : Z) : pyfloat :=
  if (df <=? 0)%Z then NaN
  else match stat with
       | NaN => NaN
       | PosInf => Fin 0
       | NegInf => Fin 1
       | Fin x =>
           if negb (df =? 1)%Z then Fin 1
           else if Qle_bool (10828 # 1000) x then Fin (1 # 1000)
           else if Qle_bool (6635 # 1000) x then Fin (1 # 100)
           else if Qle_bool (3842 # 1000) x then Fin (5 # 100)
           else if Qle_bool (2706 # 1000) x then Fin (1 # 10)
           else Fin 1
       end.

(** A table of the entropy: exact for a constant array ([0]) and for an
    even split of two values ([1]); for an uneven split with share [p] the
    upper bound [1 - 2.88 (p - 1/2)^2] (Pinsker's inequality), and for [k]
    values the bound [k]. *)
Definition entropy_table (counts : list Z) : Q :=
  match counts with
  | [] | [_] => 0%Q
  | [a; b] =>
      let p := (inject_Z a / inject_Z (a + b))%Q in
      (1 - (288 # 100) * (p - (1 # 2)) * (p - (1 # 2)))%Q
  | _ => inject_Z (Z.of_nat (List.length counts))
  end.

Definition lib : ExternalLib :=
  {| bgr2gray := cv_bgr2gray;
     chi2_sf := chi2_sf_table;
     entropy_of_counts := entropy_table |}.

(** A gray BGR image from its intensities, [h] rows of [w] pixels. *)
Definition gray_image (h w : Z) (vs : list Z) : ndarray :=
  {| shape := [h; w; 3]%Z; data := flat_map (fun v => [v; v; v]) vs |}.

(** One row of 128 pixels with the intensities 0, 1, 4, 5, 8, 9, ...: a
    comb-shaped histogram over an evenly split bit-plane. *)
Definition comb_values : list Z :=
  flat_map (fun k => [Z.of_nat (4 * k); Z.of_nat (4 * k + 1)]) (seq 0 64).

Definition comb_decoder : AdvancedLsbDetector.Decoder :=
  {| AdvancedLsbDetector.pil_open_rgb :=
       fun _ => Ok (gray_image 1 128 comb_values, Some "PNG"%string) |}.

(** A decoder that reads a 2 x 2 black image. *)
Definition black_decoder : AdvancedLsbDetector.Decoder :=
  {| AdvancedLsbDetector.pil_open_rgb :=
       fun _ => Ok (gray_image 2 2 [0; 0; 0; 0]%Z, Some "PNG"%string) |}.

(** What the battery measures on the comb image: a p-value of 1, an entropy
    of 1, no regular or singular block and 254 slope changes. *)
Definition comb_battery : AdvancedLsbDetector.battery :=
  Eval vm_compute in
    match @AdvancedLsbDetector.run_battery lib comb_decoder [] with
    | Ok b => b
    | Raise _ =>
        {| AdvancedLsbDetector.b_format := ""; AdvancedLsbDetector.b_chi_p := NaN;
           AdvancedLsbDetector.b_entropy := 0; AdvancedLsbDetector.b_rs_reg := 0;
           AdvancedLsbDetector.b_rs_sing := 0; AdvancedLsbDetector.b_slope := 0 |}
    end.

(** A decoder of image files that reads nothing. *)
Definition file_decoder : AdvancedSteganography.Decoder :=
  {| AdvancedSteganography.cv2_imread := fun _ => None;
     AdvancedSteganography.pil_open_rgb :=
       fun _ => Raise (OSError "No such file or directory") |}.

(** A frame whose bit-plane is evenly split, and one whose bit-plane is
    constant. *)
Definition split_frame : ndarray := gray_image 1 2 [0; 1]%Z.
Definition flat_frame : ndarray := gray_image 1 2 [0; 0]%Z.

(** A machine without ffmpeg, with a video file whose header carries no
    frame count and whose stream holds the given frames, and with an audio
    file of the given samples. *)
Definition world (frames : list ndarray) (samples : list Z)
  : AdvancedMediaSteganography.World :=
  {| AdvancedMediaSteganography.tmp_write := fun _ ext => Ok ("/tmp/tmpfile" ++ ext)%string;
     AdvancedMediaSteganography.tmp_name := fun ext => Ok ("/tmp/tmpaudio" ++ ext)%string;
     AdvancedMediaSteganography.path_exists := fun _ => true;
     AdvancedMediaSteganography.unlink := fun _ => Ok tt;
     AdvancedMediaSteganography.audio_samples := fun _ => Ok samples;
     AdvancedMediaSteganography.video_capture :=
       fun _ => {| AdvancedMediaSteganography.cap_isOpened := true;
                   AdvancedMediaSteganography.cap_frame_count := 0;
                   AdvancedMediaSteganography.cap_stream := frames |};
     AdvancedMediaSteganography.ffmpeg_run :=
       fun _ _ => Raise (OSError "No such file or directory: 'ffmpeg'");
     AdvancedMediaSteganography.pil_open :=
       fun _ => Raise (Exception "cannot identify image file");
     AdvancedMediaSteganography.cv2_resize :=
       fun _ _ _ => Raise (Cv2Error "resize");
     AdvancedMediaSteganography.sys_argv := ["advanced_media_steganography.py"%string];
     AdvancedMediaSteganography.stdin_read := Ok [];
     AdvancedMediaSteganography.file_read := fun _ => Raise (OSError "No such file");
     AdvancedMediaSteganography.json_dumps := fun _ => Ok "{}"%string |}.

(** The same machine with a video file whose header reports its frames. *)
Definition world_with_header (frames : list ndarray) : AdvancedMediaSteganography.World :=
  let w := world frames [] in
  {| AdvancedMediaSteganography.tmp_write := AdvancedMediaSteganography.tmp_write;
     AdvancedMediaSteganography.tmp_name := AdvancedMediaSteganography.tmp_name;
     AdvancedMediaSteganography.path_exists := AdvancedMediaSteganography.path_exists;
     AdvancedMediaSteganography.unlink := AdvancedMediaSteganography.unlink;
     AdvancedMediaSteganography.audio_samples := AdvancedMediaSteganography.audio_samples;
     AdvancedMediaSteganography.video_capture :=
       fun _ => {| AdvancedMediaSteganography.cap_isOpened := true;
                   AdvancedMediaSteganography.cap_frame_count :=
                     Z.of_nat (List.length frames);
                   AdvancedMediaSteganography.cap_stream := frames |};
     AdvancedMediaSteganography.ffmpeg_run := AdvancedMediaSteganography.ffmpeg_run;
     AdvancedMediaSteganography.pil_open := AdvancedMediaSteganography.pil_open;
     AdvancedMediaSteganography.cv2_resize := AdvancedMediaSteganography.cv2_resize;
     AdvancedMediaSteganography.sys_argv := AdvancedMediaSteganography.sys_argv;
     AdvancedMediaSteganography.stdin_read := AdvancedMediaSteganography.stdin_read;
     AdvancedMediaSteganography.file_read := AdvancedMediaSteganography.file_read;
     AdvancedMediaSteganography.json_dumps := AdvancedMediaSteganography.json_dumps |}.

(** 24 frames of which the first 8 are suspicious; 10 frames of which one is. *)
Definition frames_8_of_24 : list ndarray :=
  repeat split_frame 8 ++ repeat flat_frame 16.
Definition frames_1_of_10 : list ndarray :=
  split_frame :: repeat flat_frame 9.

(** 100 audio samples, 90 even and 10 odd. *)
Definition samples_90_10 : list Z := repeat 2%Z 90 ++ repeat 3%Z 10.

(** A machine without a Java runtime; the image decodes to 2 x 2 black
    pixels. *)
Definition tools_without_java : SteganographyService.Tools :=
  {| SteganographyService.tmp_write := fun _ => Ok "/tmp/tmpimage.png"%string;
     SteganographyService.unlink := fun _ => Ok tt;
     SteganographyService.pil_open_rgb :=
       fun _ => Ok ({| shape := [2; 2; 3]%Z; data := repeat 0%Z 12 |}, 2%Z, 2%Z);
     SteganographyService.run_stegexpose :=
       fun _ => Raise (OSError "No such file or directory: 'java'");
     SteganographyService.run_openstego :=
       fun _ => Raise (OSError "No such file or directory: 'java'");
     SteganographyService.parse_float :=
       fun _ => Raise (ValueError "could not convert string to float") |}.


(** A machine described by what its video capture, its ffmpeg and its audio
    decoder do. *)
Definition world_of (cap : AdvancedMediaSteganography.capture)
  (ffmpeg : string -> string -> result unit) (audio : string -> result (list Z))
  : AdvancedMediaSteganography.World :=
  {| AdvancedMediaSteganography.tmp_write := fun _ ext => Ok ("/tmp/tmpfile" ++ ext)%string;
     AdvancedMediaSteganography.tmp_name := fun ext => Ok ("/tmp/tmpaudio" ++ ext)%string;
     AdvancedMediaSteganography.path_exists := fun _ => true;
     AdvancedMediaSteganography.unlink := fun _ => Ok tt;
     AdvancedMediaSteganography.audio_samples := audio;
     AdvancedMediaSteganography.video_capture := fun _ => cap;
     AdvancedMediaSteganography.ffmpeg_run := ffmpeg;
     AdvancedMediaSteganography.pil_open :=
       fun _ => Raise (Exception "cannot identify image file");
     AdvancedMediaSteganography.cv2_resize :=
       fun _ _ _ => Raise (Cv2Error "resize");
     AdvancedMediaSteganography.sys_argv :=
       ["advanced_media_steganography.py"; "/data/upload.wav"]%string;
     AdvancedMediaSteganography.stdin_read := Ok [];
     AdvancedMediaSteganography.file_read := fun _ => Ok [Byte.x78];
     AdvancedMediaSteganography.json_dumps := fun _ => Ok "{}"%string |}.

(** A video file that does not open. *)
Definition closed_capture : AdvancedMediaSteganography.capture :=
  {| AdvancedMediaSteganography.cap_isOpened := false;
     AdvancedMediaSteganography.cap_frame_count := 0;
     AdvancedMediaSteganography.cap_stream := [] |}.

(** A video file of 24 frames with a correct header. *)
Definition counted_capture : AdvancedMediaSteganography.capture :=
  {| AdvancedMediaSteganography.cap_isOpened := true;
     AdvancedMediaSteganography.cap_frame_count := 24;
     AdvancedMediaSteganography.cap_stream := frames_8_of_24 |}.

Definition no_ffmpeg (src dst : string) : result unit :=
  Raise (OSError "No such file or directory: 'ffmpeg'").


(** A machine without a Java runtime on which the image decodes to 4 x 5
    black pixels. *)
Definition tools_black_4x5 : SteganographyService.Tools :=
  {| SteganographyService.tmp_write := fun _ => Ok "/tmp/tmpimage.png"%string;
     SteganographyService.unlink := fun _ => Ok tt;
     SteganographyService.pil_open_rgb :=
       fun _ => Ok ({| shape := [4; 5; 3]%Z; data := repeat 0%Z 60 |}, 5%Z, 4%Z);
     SteganographyService.run_stegexpose :=
       fun _ => Raise (OSError "No such file or directory: 'java'");
     SteganographyService.run_openstego :=
       fun _ => Raise (OSError "No such file or directory: 'java'");
     SteganographyService.parse_float :=
       fun _ => Raise (ValueError "could not convert string to float") |}.


(** The LSB confidences of the two black images. *)
Definition confidence_black_2x2 : Q :=
  Eval vm_compute in
    match dict_get "confidence" (@SteganographyService.detect_lsb tools_without_java []) with
    | Some (VFloat (Fin q)) => q
    | _ => 0
    end.

Definition confidence_black_4x5 : Q :=
  Eval vm_compute in
    match dict_get "confidence" (@SteganographyService.detect_lsb tools_black_4x5 []) with
    | Some (VFloat (Fin q)) => q
    | _ => 0
    end.


(** A machine started by Node.js on [/data/upload.wav], and what the
    dispatcher returns and does there on a file of one byte. *)
Definition upload_world : AdvancedMediaSteganography.World :=
  world_of counted_capture no_ffmpeg (fun _ => Ok samples_90_10).

Definition upload_verdict : dict :=
  Eval vm_compute in
    match fst (run (@AdvancedMediaSteganography.detect_media_steganography lib upload_world
                      [Byte.x78] "upload.wav")) with
    | Ok d => d
    | Raise _ => []
    end.

Definition upload_events : list event :=
  Eval vm_compute in
    snd (run (@AdvancedMediaSteganography.detect_media_steganography lib upload_world
                [Byte.x78] "upload.wav")).


(** The comb image read as a JPEG: from bytes, and from a file. *)
Definition jpeg_decoder : AdvancedLsbDetector.Decoder :=
  {| AdvancedLsbDetector.pil_open_rgb :=
       fun _ => Ok (gray_image 1 128 comb_values, Some "JPEG"%string) |}.

Definition comb_file_decoder : AdvancedSteganography.Decoder :=
  {| AdvancedSteganography.cv2_imread := fun _ => Some (gray_image 1 128 comb_values);
     AdvancedSteganography.pil_open_rgb := fun _ => Ok (gray_image 1 128 comb_values) |}.


(** Scanners that find nothing: no YARA rules, plain metadata, common
    codecs. *)
Definition quiet_scanners : MediaSecurityService.Scanners :=
  {| MediaSecurityService.yara_rules := false;
     MediaSecurityService.extract_metadata :=
       fun _ ext => Ok [("format", VStr ext); ("suspicious_fields", VList [])]%string;
     MediaSecurityService.scan_with_yara :=
       fun _ => Ok [("matches", VList []); ("error", VStr "YARA rules not available")]%string;
     MediaSecurityService.detect_uncommon_codecs :=
       fun _ => Ok [("uncommonCodecDetected", VBool false);
                    ("suspiciousCodecs", VList []); ("codecs", VList [])]%string |}.

(** A video of 24 frames, 8 of them suspicious: what the dispatcher and the
    security analysis return and do on it. *)
Definition clip_verdict : dict :=
  Eval vm_compute in
    match fst (run (@AdvancedMediaSteganography.detect_media_steganography lib
                      (world frames_8_of_24 []) [Byte.x78] "clip.mp4")) with
    | Ok d => d
    | Raise _ => []
    end.

Definition clip_events : list event :=
  Eval vm_compute in
    snd (run (@AdvancedMediaSteganography.detect_media_steganography lib
                (world frames_8_of_24 []) [Byte.x78] "clip.mp4")).

Definition clip_analysis : dict :=
  Eval vm_compute in
    match fst (run (@MediaSecurityService.analyze_media_file lib
                      (world frames_8_of_24 []) quiet_scanners [Byte.x78] "clip.mp4")) with
    | Ok d => d
    | Raise _ => []
    end.

Definition clip_analysis_events : list event :=
  Eval vm_compute in
    snd (run (@MediaSecurityService.analyze_media_file lib
                (world frames_8_of_24 []) quiet_scanners [Byte.x78] "clip.mp4")).


(** The embedding of [test_media_steganography.py]: the message
    1, 0, 1, 0, ... written over the least significant bits of the samples,
    [(samples & ~1) | message], here on 96 samples of a tone. *)
Definition tone : list Z :=
  flat_map (fun _ => [0; 5126; 9022; 10752; 9900; 6671; 1840; -3433]%Z) (seq 0 12).

Definition alternating_message (n : nat) : list Z :=
  flat_map (fun _ => [1; 0]%Z) (seq 0 (n / 2)).

Definition embed_lsb (samples message : list Z) : list Z :=
  map (fun sm => Z.lor (Z.land (fst sm) (Z.lnot 1)) (snd sm)) (combine samples message).

Definition samples_with_message : list Z :=
  embed_lsb tone (alternating_message (List.length tone)).

End Examples.

(* ------------------------------------------------------------------ *)
(** ** Notions used in the statements *)

(** The block counts of the 2x2 RS loop are consistent: every block is
    regular, singular or neither. *)
Definition rs_counts_ok (st : Z * Z * Z) : Prop :=
  let '(total, regular, singular) := st in
  (0 <= regular)%Z /\ (0 <= singular)%Z /\ (regular + singular <= total)%Z.

(** The convention of the verdicts: an [error] field comes with a false
    detection flag and a confidence of zero. *)
Definition error_convention (flag : string) (d : dict) : Prop :=
  dict_has "error" d = true ->
  dict_get flag d = Some (VBool false) /\
  exists (v : pyval) (q : Q),
    dict_get "confidence" d = Some v /\ as_num v = Some q /\ q == 0.

(** A verdict whose confidence is a number *)
Definition numeric_confidence (d : dict) : Prop :=
  exists q : Q,
    as_num (AdvancedMediaSteganography.dict_get_default "confidence" (VInt 0) d) = Some q.

(** The number of frames that [analyze_video] counts as suspicious, and
    their share of the sampled frames. *)
Definition suspicious_frames {L : ExternalLib} (frames : list ndarray) : Z :=
  fst (fst (AdvancedMediaSteganography.frame_loop frames)).

Definition suspicious_ratio {L : ExternalLib} (frames : list ndarray) : Q :=
  inject_Z (suspicious_frames frames) / inject_Z (Z.of_nat (List.length frames)).

(** The audio track of the video at [video_path] is analysed and flagged. *)
Definition audio_flags {L : ExternalLib} {W : AdvancedMediaSteganography.World}
  (video_path : string) : Prop :=
  exists (log log' : list event) (a : dict),
    AdvancedMediaSteganography.video_audio video_path log = (Ok (Some a), log') /\
    truthy (AdvancedMediaSteganography.dict_get_default "hasSteganography" (VBool false) a)
    = true.


(** The number of gray levels that occur in an image: the non-empty bins of
    its histogram. *)
Definition distinct_levels (gray : ndarray) : Z :=
  Z.of_nat (List.length (filter (fun c => negb (c =? 0)%Z)
                                (AdvancedLsbDetector.calcHist256 gray))).


(** The group counts of the 4x4 RS loop after [n] blocks: each block adds at
    most two classifications. *)
Definition groups_within (n : Z) (st : Z * Z) : Prop :=
  let '(regular_groups, singular_groups) := st in
  (0 <= regular_groups)%Z /\ (0 <= singular_groups)%Z /\
  (regular_groups + singular_groups <= 2 * n)%Z.


(** The number of entries equal to [v], and the value-count table of [a]
    zeros and [b] ones. *)
Definition count_bit (v : Z) (flat : list Z) : Z :=
  Z.of_nat (List.length (filter (Z.eqb v) flat)).

Definition bit_table (a b : Z) : list (Z * Z) :=
  (if (0 <? a)%Z then [(0%Z, a)] else []) ++ (if (0 <? b)%Z then [(1%Z, b)] else []).


(** A computation whose outcome and actions do not depend on what was done
    before it. *)
Definition framed {A : Type} (c : IO A) : Prop :=
  forall log : list event, c log = (fst (c []), log ++ snd (c [])).


(** A security status as [analyze_media_file] keeps it before the codec
    check: a named level among the four that the analysis assigns, [none]
    exactly for a file still called safe, which has no warning. *)
Definition status_ok (st : MediaSecurityService.security_status) : Prop :=
  exists l : string,
    MediaSecurityService.threatLevel st = VStr l /\
    In l ["none"; "low"; "medium"; "high"]%string /\
    (MediaSecurityService.isSafe st = true <-> l = "none"%string) /\
    (MediaSecurityService.isSafe st = true <-> MediaSecurityService.warnings st = []).


(** A security status that carries a detection of hidden data at the given
    level. *)
Definition flagged (level : string) (st : MediaSecurityService.security_status) : Prop :=
  MediaSecurityService.threatLevel st = VStr level /\
  (level = "high"%string \/ level = "medium"%string) /\
  MediaSecurityService.isSafe st = false /\
  In "Potential hidden data detected"%string (MediaSecurityService.warnings st) /\
  In "Avoid opening this file - it may contain concealed malicious content"%string
     (MediaSecurityService.recommendations st).

(* ------------------------------------------------------------------ *)
(** * Properties *)

(** ** Generic facts *)

Lemma fold_left_invariant (S X : Type) (P : S -> Prop) (f : S -> X -> S) (l : list X) :
  (forall st x, P st -> P (f st x)) ->
  forall st, P st -> P (fold_left f l st).
Proof.
  intros Hstep. induction l as [|x l IH]; intros st Hst; simpl.
  - exact Hst.
  - apply IH, Hstep, Hst.
Qed.

Lemma py_range_empty (start stop step : Z) :
  (0 < step)%Z -> (stop <= start)%Z -> py_range start stop step = [].
Proof.
  intros Hs Hle. unfold py_range.
  assert (H : ((stop - start + step - 1) / step < 1)%Z)
    by (apply Z.div_lt_upper_bound; lia).
  replace (Z.to_nat ((stop - start + step - 1) / step)) with 0%nat by lia.
  reflexivity.
Qed.

Lemma ratio_bounds (a t : Z) :
  (0 <= a <= t)%Z -> (0 < t)%Z ->
  0 <= inject_Z a / inject_Z t /\ inject_Z a / inject_Z t <= 1.
Proof.
  intros Ha Ht. destruct t as [|p|p]; try lia.
  unfold Qle, Qdiv, Qmult, Qinv, inject_Z; simpl. split; nia.
Qed.

Lemma ratio_sum_bound (a b t : Z) :
  (0 <= a)%Z -> (0 <= b)%Z -> (a + b <= t)%Z -> (0 < t)%Z ->
  inject_Z a / inject_Z t + inject_Z b / inject_Z t <= 1.
Proof.
  intros Ha Hb Hab Ht. destruct t as [|p|p]; try lia.
  unfold Qle, Qplus, Qdiv, Qmult, Qinv, inject_Z; simpl. nia.
Qed.

Lemma flat_map_option_length (A B : Type) (f : A -> option B) (l : list A) :
  (List.length (flat_map (fun x => match f x with Some y => [y] | None => [] end) l)
   <= List.length l)%nat.
Proof.
  induction l as [|x l IH]; simpl; [lia|].
  destruct (f x); simpl; lia.
Qed.



Lemma np_and1_zeros (sh : list Z) : np_and1 (np_zeros sh) = np_zeros sh.
Proof.
  unfold np_and1, np_zeros; simpl. f_equal.
  induction (Z.to_nat (fold_right Z.mul 1%Z sh)) as [|n IH]; simpl; [reflexivity|].
  now rewrite IH.
Qed.

(** ** The 2x2 RS analysis of [advanced_lsb_detector.py] and
    [advanced_steganography.py] *)

Lemma rs_block_counts (gray : ndarray) (rows cols : Z) (st : Z * Z * Z) (i j : Z) :
  rs_counts_ok st -> rs_counts_ok (AdvancedLsbDetector.rs_block gray rows cols st i j).
Proof.
  destruct st as [[total regular] singular]. unfold AdvancedLsbDetector.rs_block.
  intros [Hr [Hs Ht]].
  destruct (negb _); [simpl; lia|].
  destruct (Qltb _ _); [simpl; lia|].
  destruct (Qltb _ _); simpl; lia.
Qed.

Lemma rs_loop_counts (gray : ndarray) (rows cols : Z) :
  rs_counts_ok (AdvancedLsbDetector.rs_loop gray rows cols).
Proof.
  unfold AdvancedLsbDetector.rs_loop.
  apply fold_left_invariant; [|simpl; lia].
  intros st i Hst. apply fold_left_invariant; [|exact Hst].
  intros st' j Hst'. now apply rs_block_counts.
Qed.

Lemma rs_loop_too_small (gray : ndarray) (rows cols : Z) :
  (rows < 2 \/ cols < 2)%Z ->
  AdvancedLsbDetector.rs_loop gray rows cols = (0, 0, 0)%Z.
Proof.
  intros [Hr | Hc]; unfold AdvancedLsbDetector.rs_loop.
  - rewrite (py_range_empty 0 (rows - 1) 2)%Z by lia. reflexivity.
  - rewrite (py_range_empty 0 (cols - 1) 2)%Z by lia. simpl.
    induction (py_range 0 (rows - 1) 2)%Z as [|i l IH]; simpl; auto.
Qed.

(** C9. For a 2-D array, the 2x2 RS analysis returns two fractions in
    [0, 1] whose sum is at most 1, and exactly (0, 0) when the array has
    fewer than 2 rows or fewer than 2 columns. *)
Theorem rs_analysis_fractions (gray : ndarray) (rows cols : Z) :
  shape gray = [rows; cols] ->
  exists r s : Q,
    AdvancedLsbDetector.rs_analysis gray = Ok (r, s) /\
    AdvancedSteganography.rs_analysis gray = Ok (r, s) /\
    (0 <= r /\ r <= 1) /\ (0 <= s /\ s <= 1) /\ r + s <= 1 /\
    ((rows < 2 \/ cols < 2)%Z -> (r, s) = (0, 0)).
Proof.
  intros Hshape. unfold AdvancedSteganography.rs_analysis.
  unfold AdvancedLsbDetector.rs_analysis. rewrite Hshape.
  pose proof (rs_loop_counts gray rows cols) as Hinv.
  pose proof (rs_loop_too_small gray rows cols) as Hsmall.
  destruct (AdvancedLsbDetector.rs_loop gray rows cols) as [[total regular] singular].
  destruct Hinv as [Hr [Hs Ht]].
  destruct (0 <? total)%Z eqn:Hpos.
  - apply Z.ltb_lt in Hpos.
    exists (inject_Z regular / inject_Z total), (inject_Z singular / inject_Z total).
    split; [reflexivity|]. split; [reflexivity|].
    split; [apply ratio_bounds; lia|].
    split; [apply ratio_bounds; lia|].
    split; [apply ratio_sum_bound; lia|].
    intros Hlt. specialize (Hsmall Hlt). inversion Hsmall; subst. lia.
  - exists 0, 0. split; [reflexivity|]. split; [reflexivity|].
    repeat split; try (unfold Qle; simpl; lia).
Qed.

Lemma rs_analysis_fractions_witness :
  let gray := {| shape := [2; 2]%Z; data := [10; 10; 10; 11]%Z |} in
  shape gray = [2; 2]%Z /\
  exists r s : Q,
    AdvancedLsbDetector.rs_analysis gray = Ok (r, s) /\
    AdvancedSteganography.rs_analysis gray = Ok (r, s) /\
    (0 <= r /\ r <= 1) /\ (0 <= s /\ s <= 1) /\ r + s <= 1 /\
    ((2 < 2 \/ 2 < 2)%Z -> (r, s) = (0, 0)).
Proof.
  split; [reflexivity|].
  apply (rs_analysis_fractions {| shape := [2; 2]%Z; data := [10; 10; 10; 11]%Z |} 2 2).
  reflexivity.
Defined.

(** ** The indicator-counting scorer of [advanced_lsb_detector.py] *)

(** C1. When exactly three of the four indicator conditions hold on the
    battery's results, [analyze_image] reports [detected = True] and a
    confidence of exactly the base value 0.6 (no bonus above the floor). *)
Theorem three_indicators_base_confidence
  (L : ExternalLib) (D : AdvancedLsbDetector.Decoder)
  (image_data : bytes) (b : AdvancedLsbDetector.battery) :
  AdvancedLsbDetector.run_battery image_data = Ok b ->
  AdvancedLsbDetector.indicators
    (AdvancedLsbDetector.b_chi_p b) (AdvancedLsbDetector.b_entropy b)
    (AdvancedLsbDetector.b_rs_reg b) (AdvancedLsbDetector.b_rs_sing b)
    (AdvancedLsbDetector.b_slope b) = 3%Z ->
  dict_get "detected" (AdvancedLsbDetector.analyze_image image_data) = Some (VBool true) /\
  exists c : Q,
    dict_get "confidence" (AdvancedLsbDetector.analyze_image image_data) = Some (VNum c) /\
    c == 6 # 10.
Proof.
  intros Hrun Hthree.
  unfold AdvancedLsbDetector.analyze_image. rewrite Hrun. cbn [bind catch].
  unfold AdvancedLsbDetector.score_battery, AdvancedLsbDetector.composite_score.
  unfold AdvancedLsbDetector.indicators in *.
  destruct (flt (AdvancedLsbDetector.b_chi_p b) (5 # 100));
    destruct (Qltb (9 # 10) (AdvancedLsbDetector.b_entropy b));
    destruct (Qltb (Qabs (AdvancedLsbDetector.b_rs_reg b - AdvancedLsbDetector.b_rs_sing b))
                   (5 # 100));
    destruct (100 <? AdvancedLsbDetector.b_slope b)%Z;
    cbn in Hthree; try discriminate Hthree;
    (split; [reflexivity | eexists; split; [reflexivity | vm_compute; reflexivity]]).
Qed.

Lemma three_indicators_base_confidence_witness :
  @AdvancedLsbDetector.run_battery Examples.lib Examples.comb_decoder []
  = Ok Examples.comb_battery /\
  flt (AdvancedLsbDetector.b_chi_p Examples.comb_battery) (5 # 100) = false /\
  dict_get "detected"
    (@AdvancedLsbDetector.analyze_image Examples.lib Examples.comb_decoder [])
  = Some (VBool true) /\
  exists c : Q,
    dict_get "confidence"
      (@AdvancedLsbDetector.analyze_image Examples.lib Examples.comb_decoder [])
    = Some (VNum c) /\
    c == 6 # 10.
Proof.
  split; [vm_compute; reflexivity|]. split; [reflexivity|].
  apply (three_indicators_base_confidence Examples.lib Examples.comb_decoder []
           Examples.comb_battery).
  - vm_compute. reflexivity.
  - reflexivity.
Defined.

(** ** Degenerate inputs of the chi-square test *)

(** On an array without elements the chi-square test of
    [advanced_lsb_detector.py] raises: the empty counts do not broadcast
    against the two expected buckets.  The test of
    [advanced_media_steganography.py] returns its fallback [(0, 1.0)]. *)
Lemma chi_square_test_empty_input (L : ExternalLib) (a : ndarray) :
  data a = [] ->
  AdvancedLsbDetector.chi_square_test a
  = Raise (ValueError "shape mismatch: objects cannot be broadcast to a single shape") /\
  AdvancedMediaSteganography.chi_square_test a = (Fin 0, Fin 1).
Proof.
  intros Hempty.
  unfold AdvancedLsbDetector.chi_square_test, AdvancedMediaSteganography.chi_square_test.
  unfold flatten. rewrite Hempty. split; reflexivity.
Qed.

(** C3. On the degenerate inputs the chi-square test of
    [advanced_steganography.py] and [advanced_lsb_detector.py] raises
    instead of returning a fallback: on the empty array the counts do not
    broadcast against the two expected buckets, and on a plane with a single
    value (2 x 2 zeros) the one count is spread over both buckets and the
    sums disagree.  The test of [advanced_media_steganography.py] returns a
    result on both. *)
Theorem chi_square_test_degenerate_inputs (L : ExternalLib) :
  let empty := {| shape := [0%Z]; data := [] |} in
  let constant := {| shape := [2; 2]%Z; data := [0; 0; 0; 0]%Z |} in
  AdvancedSteganography.chi_square_test empty
  = Raise (ValueError "shape mismatch: objects cannot be broadcast to a single shape") /\
  AdvancedLsbDetector.chi_square_test empty
  = Raise (ValueError "shape mismatch: objects cannot be broadcast to a single shape") /\
  AdvancedSteganography.chi_square_test constant
  = Raise (ValueError "For each axis slice, the sum of the observed frequencies must agree with the sum of the expected frequencies") /\
  AdvancedLsbDetector.chi_square_test constant
  = Raise (ValueError "For each axis slice, the sum of the observed frequencies must agree with the sum of the expected frequencies") /\
  AdvancedMediaSteganography.chi_square_test empty = (Fin 0, Fin 1) /\
  AdvancedMediaSteganography.chi_square_test constant
  = (Fin (0 # 4), chi2_sf (Fin (0 # 4)) 0).
Proof.
  cbv zeta. repeat split; reflexivity.
Qed.

(** Through [analyze_image]: a black image has a constant bit-plane, the
    chi-square test raises, and the analysis ends in the error verdict
    instead of a scored one. *)
Lemma black_image_analysis_fails :
  @AdvancedLsbDetector.analyze_image Examples.lib Examples.black_decoder []
  = [ ("detected", VBool false);
      ("confidence", VNum 0);
      ("method", VStr "Advanced LSB Analysis");
      ("error", VStr "For each axis slice, the sum of the observed frequencies must agree with the sum of the expected frequencies") ]%string.
Proof. reflexivity. Qed.

(** ** The bit-plane extractor *)

Lemma cvtColor_BGR2GRAY_shape (L : ExternalLib) (image gray : ndarray) :
  cvtColor_BGR2GRAY image = Ok gray ->
  exists h w c, shape image = [h; w; c] /\ shape gray = [h; w].
Proof.
  unfold cvtColor_BGR2GRAY.
  destruct (shape image) as [|h [|w [|c [|x t]]]]; try discriminate.
  destruct ((c =? 3) || (c =? 4))%Z; try discriminate.
  intros H. inversion H; subst. exists h, w, c. split; reflexivity.
Qed.

(** The extractor of [advanced_lsb_detector.py] (and
    [advanced_steganography.py]) takes colour images only, which is what
    [analyze_image] passes to it: a plane that it returned is a 2-D array,
    outside the domain of its unconditional colour conversion. *)
Lemma extract_lsb_plane_rejects_own_output (L : ExternalLib) (image plane : ndarray) :
  AdvancedLsbDetector.extract_lsb_plane image = Ok plane ->
  AdvancedLsbDetector.extract_lsb_plane plane
  = Raise (Cv2Error "Invalid number of channels in input image") /\
  AdvancedSteganography.extract_lsb_plane plane
  = Raise (Cv2Error "Invalid number of channels in input image").
Proof.
  intros Hplane.
  assert (G : AdvancedLsbDetector.extract_lsb_plane plane
              = Raise (Cv2Error "Invalid number of channels in input image")).
  { revert Hplane. unfold AdvancedLsbDetector.extract_lsb_plane.
    destruct (cvtColor_BGR2GRAY image) as [gray|e] eqn:Hgray; cbn [bind]; try discriminate.
    intros H. inversion H; subst plane.
    destruct (cvtColor_BGR2GRAY_shape L image gray Hgray) as (h & w & c & _ & Hs).
    unfold cvtColor_BGR2GRAY. cbn [np_and1 shape]. rewrite Hs. reflexivity. }
  split; exact G.
Qed.

Lemma extract_lsb_plane_rejects_own_output_witness :
  let image := {| shape := [1; 1; 3]%Z; data := [7; 7; 7]%Z |} in
  let plane := {| shape := [1; 1]%Z; data := [1%Z] |} in
  @AdvancedLsbDetector.extract_lsb_plane Examples.lib image = Ok plane /\
  @AdvancedLsbDetector.extract_lsb_plane Examples.lib plane
  = Raise (Cv2Error "Invalid number of channels in input image") /\
  @AdvancedSteganography.extract_lsb_plane Examples.lib plane
  = Raise (Cv2Error "Invalid number of channels in input image").
Proof.
  split; [reflexivity|].
  apply (extract_lsb_plane_rejects_own_output Examples.lib
           {| shape := [1; 1; 3]%Z; data := [7; 7; 7]%Z |}
           {| shape := [1; 1]%Z; data := [1%Z] |}).
  reflexivity.
Defined.





(** ** Threshold tests *)

Lemma Qltb_true (a b : Q) : Qltb a b = true <-> a < b.
Proof.
  unfold Qltb. rewrite negb_true_iff. split; intros H.
  - apply Qnot_le_lt. intros Hle. apply Qle_bool_iff in Hle. congruence.
  - destruct (Qle_bool b a) eqn:E; [|reflexivity].
    apply Qle_bool_iff in E. exfalso. exact (Qlt_not_le _ _ H E).
Qed.

Lemma Qltb_false (a b : Q) : Qltb a b = false <-> b <= a.
Proof.
  unfold Qltb. rewrite negb_false_iff. apply Qle_bool_iff.
Qed.

(** Turn every boolean threshold test among the hypotheses into the
    inequality it decides. *)
Ltac thresholds :=
  repeat match goal with
         | H : Qltb _ _ = true |- _ => apply Qltb_true in H
         | H : Qltb _ _ = false |- _ => apply Qltb_false in H
         end.

Lemma flt_weaken (x : pyfloat) (a b : Q) :
  a <= b -> flt x a = true -> flt x b = true.
Proof.
  destruct x as [q| | |]; simpl; auto.
  intros Hab H. thresholds. apply Qltb_true. lra.
Qed.

Lemma Qltb_weaken (a b e : Q) :
  a <= b -> Qltb b e = true -> Qltb a e = true.
Proof.
  intros Hab H. thresholds. apply Qltb_true. lra.
Qed.

(** ** The audio path *)

(** The verdict of [analyze_audio_lsb], band by band.  For decoded samples
    the verdict is detected exactly when one of the two thresholds
    (p < 0.05, entropy > 0.97) is crossed and the pair is not in the lowest
    band (p < 0.1 and entropy > 0.95); the confidence is 0.9, 0.7, 0.5 or 0.3
    by the first band that applies. *)
Lemma audio_verdict_bands
  (L : ExternalLib) (W : AdvancedMediaSteganography.World)
  (audio_path : string) (samples : list Z) :
  AdvancedMediaSteganography.audio_samples audio_path = Ok samples ->
  let lsb_plane :=
    np_and1 {| shape := [Z.of_nat (List.length samples)]; data := samples |} in
  let p := snd (AdvancedMediaSteganography.chi_square_test lsb_plane) in
  let e := shannon_entropy lsb_plane in
  exists (d : dict) (detected : bool) (c : Q),
    run (AdvancedMediaSteganography.analyze_audio_lsb audio_path)
    = (Ok d, [AudioDecodeAttempt audio_path]) /\
    dict_get "hasSteganography" d = Some (VBool detected) /\
    dict_get "confidence" d = Some (VNum c) /\
    dict_has "error" d = false /\
    (detected = true <->
       (flt p (5 # 100) = true \/ 97 # 100 < e) /\ flt p (1 # 10) = true /\ 95 # 100 < e) /\
    (flt p (1 # 100) = true /\ 98 # 100 < e -> c = 9 # 10) /\
    (~ (flt p (1 # 100) = true /\ 98 # 100 < e) ->
     flt p (5 # 100) = true /\ 97 # 100 < e -> c = 7 # 10) /\
    (~ (flt p (5 # 100) = true /\ 97 # 100 < e) ->
     flt p (1 # 10) = true /\ 95 # 100 < e -> c = 5 # 10) /\
    (~ (flt p (1 # 10) = true /\ 95 # 100 < e) -> c = 3 # 10 /\ detected = false).
Proof.
  intros Hsamples lsb_plane p e.
  unfold run, AdvancedMediaSteganography.analyze_audio_lsb, io_try, io_bind, io_call.
  rewrite Hsamples. fold lsb_plane. fold e.
  subst p. destruct (AdvancedMediaSteganography.chi_square_test lsb_plane) as [chi p].
  cbn [snd app].
  pose proof (flt_weaken p (1 # 100) (5 # 100)) as M1.
  pose proof (flt_weaken p (5 # 100) (1 # 10)) as M2.
  unfold AdvancedMediaSteganography.audio_bands.
  destruct (flt p (1 # 100)) eqn:P1; destruct (flt p (5 # 100)) eqn:P5;
    destruct (flt p (1 # 10)) eqn:P10;
    try (specialize (M1 ltac:(lra) eq_refl); discriminate M1);
    try (specialize (M2 ltac:(lra) eq_refl); discriminate M2);
    clear M1 M2;
    destruct (Qltb (98 # 100) e) eqn:E98; destruct (Qltb (97 # 100) e) eqn:E97;
    destruct (Qltb (95 # 100) e) eqn:E95; thresholds; try lra;
    cbn [andb orb io_ret];
    (eexists; eexists; eexists;
     split; [reflexivity|]; split; [reflexivity|]; split; [reflexivity|];
     split; [reflexivity|];
     repeat split; intros; try reflexivity; try tauto; try lra;
     try discriminate;
     repeat match goal with
            | H : _ /\ _ |- _ => destruct H
            | H : _ \/ _ |- _ => destruct H
            end;
     try discriminate; try lra; try tauto).
Qed.

Lemma audio_verdict_bands_witness :
  exists (d : dict) (detected : bool) (c : Q),
    run (@AdvancedMediaSteganography.analyze_audio_lsb Examples.lib
           (Examples.world [] Examples.samples_90_10) "a.wav")
    = (Ok d, [AudioDecodeAttempt "a.wav"]) /\
    dict_get "hasSteganography" d = Some (VBool detected) /\
    dict_get "confidence" d = Some (VNum c).
Proof.
  destruct (audio_verdict_bands Examples.lib (Examples.world [] Examples.samples_90_10)
              "a.wav" Examples.samples_90_10 eq_refl)
    as (d & detected & c & Hrun & Hdet & Hconf & _).
  exists d, detected, c. repeat split; assumption.
Defined.

(** On 100 samples of which 90 are even the p-value is below 0.05 (and the
    entropy below 0.95), and the verdict is not detected. *)
Lemma audio_detected_is_not_the_disjunction :
  let W := Examples.world [] Examples.samples_90_10 in
  let lsb_plane := np_and1 {| shape := [100%Z]; data := Examples.samples_90_10 |} in
  let p := snd (@AdvancedMediaSteganography.chi_square_test Examples.lib lsb_plane) in
  let e := @shannon_entropy Examples.lib lsb_plane in
  exists d : dict,
    run (@AdvancedMediaSteganography.analyze_audio_lsb Examples.lib W "a.wav")
    = (Ok d, [AudioDecodeAttempt "a.wav"]) /\
    flt p (5 # 100) = true /\
    dict_get "hasSteganography" d = Some (VBool false) /\
    ~ (dict_get "hasSteganography" d = Some (VBool true)
       <-> (flt p (5 # 100) = true \/ 97 # 100 < e)).
Proof.
  cbv zeta. eexists. split; [vm_compute; reflexivity|].
  split; [vm_compute; reflexivity|].
  split; [reflexivity|].
  intros [_ H]. assert (Hp : flt (snd (@AdvancedMediaSteganography.chi_square_test Examples.lib
       (np_and1 {| shape := [100%Z]; data := Examples.samples_90_10 |}))) (5 # 100) = true)
    by (vm_compute; reflexivity).
  specialize (H (or_introl Hp)). discriminate H.
Qed.

(** C2. The audio verdict is not the disjunction of the two tests.  When
    one of the thresholds is crossed (p < 0.05 or entropy > 0.97) but the
    pair is in none of the first three bands (p < 0.1 and entropy > 0.95
    fails), the last branch of [analyze_audio_lsb] resets the flag: the
    verdict is not detected, with confidence 0.3.  The alternating message
    that [test_media_steganography.py] embeds is such an input: both bit
    values are equally frequent, so the entropy is 1 and the p-value is 1. *)
Theorem audio_lowest_band_drops_detection
  (L : ExternalLib) (W : AdvancedMediaSteganography.World)
  (audio_path : string) (samples : list Z) :
  AdvancedMediaSteganography.audio_samples audio_path = Ok samples ->
  let lsb_plane :=
    np_and1 {| shape := [Z.of_nat (List.length samples)]; data := samples |} in
  let p := snd (AdvancedMediaSteganography.chi_square_test lsb_plane) in
  let e := shannon_entropy lsb_plane in
  flt p (5 # 100) = true \/ 97 # 100 < e ->
  ~ (flt p (1 # 10) = true /\ 95 # 100 < e) ->
  exists d : dict,
    run (AdvancedMediaSteganography.analyze_audio_lsb audio_path)
    = (Ok d, [AudioDecodeAttempt audio_path]) /\
    dict_get "hasSteganography" d = Some (VBool false) /\
    dict_get "confidence" d = Some (VNum (3 # 10)) /\
    dict_has "error" d = false.
Proof.
  intros Hsamples lsb_plane p e _ Hlowest.
  destruct (audio_verdict_bands L W audio_path samples Hsamples)
    as (d & detected & c & Hrun & Hdet & Hconf & Herr & _ & _ & _ & _ & Hlast).
  destruct (Hlast Hlowest) as [-> ->].
  exists d. repeat split; assumption.
Qed.

Lemma audio_lowest_band_drops_detection_witness :
  let W := Examples.world [] Examples.samples_with_message in
  let lsb_plane :=
    np_and1 {| shape := [96%Z]; data := Examples.samples_with_message |} in
  let e := @shannon_entropy Examples.lib lsb_plane in
  97 # 100 < e /\
  exists d : dict,
    run (@AdvancedMediaSteganography.analyze_audio_lsb Examples.lib W "message.wav")
    = (Ok d, [AudioDecodeAttempt "message.wav"]) /\
    dict_get "hasSteganography" d = Some (VBool false) /\
    dict_get "confidence" d = Some (VNum (3 # 10)) /\
    dict_has "error" d = false.
Proof.
  cbv zeta. split; [vm_compute; reflexivity|].
  apply (audio_lowest_band_drops_detection Examples.lib
           (Examples.world [] Examples.samples_with_message) "message.wav"
           Examples.samples_with_message).
  - reflexivity.
  - right. vm_compute. reflexivity.
  - intros [H _]. vm_compute in H. discriminate H.
Defined.

(** ** The dispatcher on an unknown extension *)

(** C6. When the lowercased extension of the file name is in none of the
    three extension sets, the dispatcher returns the unknown-media verdict
    (not detected, confidence 0) and the log stays empty: no temporary file
    is written and no decoder is called. *)
Theorem unknown_extension_verdict
  (L : ExternalLib) (W : AdvancedMediaSteganography.World)
  (file_data : bytes) (file_name : string) :
  let ext := lower (splitext_ext file_name) in
  str_in ext AdvancedMediaSteganography.AUDIO_EXTENSIONS = false ->
  str_in ext AdvancedMediaSteganography.VIDEO_EXTENSIONS = false ->
  str_in ext AdvancedMediaSteganography.IMAGE_EXTENSIONS = false ->
  exists d : dict,
    run (AdvancedMediaSteganography.detect_media_steganography file_data file_name)
    = (Ok d, []) /\
    dict_get "hasSteganography" d = Some (VBool false) /\
    dict_get "confidence" d = Some (VInt 0) /\
    dict_get "mediaType" d = Some (VStr "unknown") /\
    dict_get "error" d = Some (VStr ("Unsupported file format: " ++ ext)).
Proof.
  intros ext Ha Hv Hi.
  exists (AdvancedMediaSteganography.unsupported_verdict ext).
  unfold run, AdvancedMediaSteganography.detect_media_steganography, io_try, io_bind.
  fold ext. rewrite Ha, Hv, Hi. cbn [io_ret].
  repeat split; reflexivity.
Qed.

Lemma unknown_extension_verdict_witness :
  exists d : dict,
    run (@AdvancedMediaSteganography.detect_media_steganography Examples.lib
           (Examples.world [] []) [] "Notes.TXT")
    = (Ok d, []) /\
    dict_get "hasSteganography" d = Some (VBool false) /\
    dict_get "confidence" d = Some (VInt 0) /\
    dict_get "mediaType" d = Some (VStr "unknown") /\
    dict_get "error" d = Some (VStr "Unsupported file format: .txt").
Proof.
  apply (unknown_extension_verdict Examples.lib (Examples.world [] []) [] "Notes.TXT");
    reflexivity.
Defined.

(** ** The video path *)

Lemma analyze_audio_lsb_total
  (L : ExternalLib) (W : AdvancedMediaSteganography.World)
  (audio_path : string) (log : list event) :
  exists (d : dict) (log' : list event),
    AdvancedMediaSteganography.analyze_audio_lsb audio_path log = (Ok d, log') /\
    error_convention "hasSteganography" d /\
    numeric_confidence d.
Proof.
  unfold AdvancedMediaSteganography.analyze_audio_lsb, io_try, io_bind, io_call.
  destruct (AdvancedMediaSteganography.audio_samples audio_path) as [samples|e].
  - destruct (AdvancedMediaSteganography.chi_square_test _) as [chi p].
    destruct (AdvancedMediaSteganography.audio_bands p _) as [s c].
    eexists; eexists. split; [reflexivity|]. split.
    + intros H. discriminate H.
    + exists c. reflexivity.
  - eexists; eexists. split; [reflexivity|]. split.
    + intros _. split; [reflexivity|]. exists (VInt 0), 0. repeat split; reflexivity.
    + exists 0. reflexivity.
Qed.

Lemma video_audio_total
  (L : ExternalLib) (W : AdvancedMediaSteganography.World)
  (video_path : string) (log : list event) :
  exists (a : option dict) (log' : list event),
    AdvancedMediaSteganography.video_audio video_path log = (Ok a, log') /\
    (forall d, a = Some d -> numeric_confidence d).
Proof.
  unfold AdvancedMediaSteganography.video_audio,
    AdvancedMediaSteganography.extract_audio_from_video, io_try, io_bind, io_call, io_ret.
  destruct (AdvancedMediaSteganography.tmp_name ".wav") as [p|e].
  2: { eexists; eexists; split; [reflexivity|]. intros d H; discriminate H. }
  destruct (AdvancedMediaSteganography.ffmpeg_run video_path p) as [[]|e].
  2: { eexists; eexists; split; [reflexivity|]. intros d H; discriminate H. }
  destruct (truthy (VStr p)).
  2: { eexists; eexists; split; [reflexivity|]. intros d H; discriminate H. }
  destruct (analyze_audio_lsb_total L W p
              ((log ++ [TempFileNamed ".wav"]) ++ [FfmpegRun video_path p]))
    as (d & log' & Hrun & _ & Hnum).
  rewrite Hrun.
  destruct (AdvancedMediaSteganography.path_exists p).
  - destruct (AdvancedMediaSteganography.unlink p) as [[]|e];
      (eexists; eexists; split; [reflexivity|]; intros d' H; inversion H; subst; exact Hnum).
  - eexists; eexists; split; [reflexivity|]. intros d' H; inversion H; subst; exact Hnum.
Qed.

Lemma extract_frames_total
  (W : AdvancedMediaSteganography.World)
  (video_path : string) (max_frames : Z) (log : list event) :
  exists frames : list ndarray,
    AdvancedMediaSteganography.extract_frames_from_video video_path max_frames log
    = (Ok frames, log ++ [VideoOpenAttempt video_path]).
Proof.
  unfold AdvancedMediaSteganography.extract_frames_from_video,
    io_try, io_bind, io_call, io_lift, io_ret.
  destruct (negb _); [eexists; reflexivity|].
  destruct (max_frames <? _)%Z; eexists; reflexivity.
Qed.

(** When the header reports more frames than [max_frames], at most
    [max_frames] frames are sampled. *)
Lemma sampled_frames_bounded
  (W : AdvancedMediaSteganography.World)
  (video_path : string) (max_frames : Z) (log log' : list event) (frames : list ndarray) :
  (0 <= max_frames)%Z ->
  (max_frames
   < AdvancedMediaSteganography.cap_frame_count
       (AdvancedMediaSteganography.video_capture video_path))%Z ->
  AdvancedMediaSteganography.extract_frames_from_video video_path max_frames log
  = (Ok frames, log') ->
  (Z.of_nat (List.length frames) <= max_frames)%Z.
Proof.
  intros Hmax Hcount.
  unfold AdvancedMediaSteganography.extract_frames_from_video,
    io_try, io_bind, io_call, io_lift, io_ret.
  destruct (negb _).
  - intros H. inversion H; subst. simpl. lia.
  - apply Z.ltb_lt in Hcount. rewrite Hcount. intros H. inversion H; subst.
    unfold AdvancedMediaSteganography.np_linspace_int.
    eapply Z.le_trans; [apply Nat2Z.inj_le, flat_map_option_length|].
    rewrite length_map, length_seq. lia.
Qed.

Lemma analyze_video_run
  (L : ExternalLib) (W : AdvancedMediaSteganography.World)
  (video_path : string) (log log1 log2 : list event)
  (frames : list ndarray) (audio : option dict) (has_steg : bool) (confidence : Q) :
  AdvancedMediaSteganography.extract_frames_from_video video_path 10 log = (Ok frames, log1) ->
  frames <> [] ->
  AdvancedMediaSteganography.video_audio video_path log1 = (Ok audio, log2) ->
  AdvancedMediaSteganography.blend_audio
    (AdvancedMediaSteganography.video_bands (suspicious_ratio frames)) audio
  = Ok (has_steg, confidence) ->
  exists d : dict,
    AdvancedMediaSteganography.analyze_video video_path log = (Ok d, log2) /\
    dict_get "hasSteganography" d = Some (VBool has_steg) /\
    dict_get "confidence" d = Some (VNum (Qmin confidence 1)) /\
    dict_has "error" d = false.
Proof.
  intros Hframes Hne Haudio Hblend.
  unfold AdvancedMediaSteganography.analyze_video, io_try, io_bind.
  rewrite Hframes.
  destruct frames as [|f fs] eqn:Hf; [congruence|]. rewrite <- Hf in *.
  unfold suspicious_ratio, suspicious_frames in Hblend.
  destruct (AdvancedMediaSteganography.frame_loop frames) as [[s cps] es].
  cbn [fst] in Hblend. rewrite Haudio. unfold io_lift. rewrite Hblend. cbn [io_ret].
  eexists. split; [reflexivity|]. repeat split; reflexivity.
Qed.

Lemma blend_audio_unflagged (hc : bool * Q) (audio : option dict) :
  (forall a, audio = Some a ->
     truthy (AdvancedMediaSteganography.dict_get_default "hasSteganography" (VBool false) a)
     = false) ->
  AdvancedMediaSteganography.blend_audio hc audio = Ok hc.
Proof.
  intros H. destruct hc as [h c]. unfold AdvancedMediaSteganography.blend_audio.
  destruct audio as [a|]; [|reflexivity].
  rewrite (H a eq_refl), andb_false_r. reflexivity.
Qed.

Lemma blend_audio_keeps_detection (c : Q) (audio : option dict) :
  (forall a, audio = Some a -> numeric_confidence a) ->
  exists c' : Q, AdvancedMediaSteganography.blend_audio (true, c) audio = Ok (true, c').
Proof.
  intros H. unfold AdvancedMediaSteganography.blend_audio.
  destruct audio as [a|]; [|exists c; reflexivity].
  destruct (truthy (VDict a) && _); [|exists c; reflexivity].
  destruct (H a eq_refl) as [q Hq]. unfold AdvancedMediaSteganography.num_of.
  rewrite Hq. cbn [bind]. eexists. reflexivity.
Qed.

Lemma ratio_pos (a t : Z) : (0 < a)%Z -> (0 < t)%Z -> 0 < inject_Z a / inject_Z t.
Proof.
  intros Ha Ht. destruct t as [|p|p]; try lia.
  unfold Qlt, Qdiv, Qmult, Qinv, inject_Z; simpl. lia.
Qed.

Lemma video_bands_positive (r : Q) :
  0 < r -> fst (AdvancedMediaSteganography.video_bands r) = true.
Proof.
  intros Hr. unfold AdvancedMediaSteganography.video_bands.
  destruct (Qltb (5 # 10) r); [reflexivity|].
  destruct (Qltb (3 # 10) r); [reflexivity|].
  destruct (Qltb (1 # 10) r); [reflexivity|].
  apply Qltb_true. exact Hr.
Qed.

Lemma video_bands_lowest (r : Q) :
  r <= 1 # 10 -> AdvancedMediaSteganography.video_bands r = (Qltb 0 r, r * 3).
Proof.
  intros Hr. unfold AdvancedMediaSteganography.video_bands.
  destruct (Qltb (5 # 10) r) eqn:H5; thresholds; [lra|].
  destruct (Qltb (3 # 10) r) eqn:H3; thresholds; [lra|].
  destruct (Qltb (1 # 10) r) eqn:H1; thresholds; [lra|].
  reflexivity.
Qed.

Lemma frames_of_run
  (W : AdvancedMediaSteganography.World) (video_path : string) (frames : list ndarray) :
  fst (run (AdvancedMediaSteganography.extract_frames_from_video video_path 10)) = Ok frames ->
  AdvancedMediaSteganography.extract_frames_from_video video_path 10 []
  = (Ok frames, [VideoOpenAttempt video_path]).
Proof.
  unfold run. destruct (extract_frames_total W video_path 10 []) as [fs Hfs].
  rewrite Hfs. cbn [fst app]. intros H. inversion H. reflexivity.
Qed.

(** C5. When the sampled frame set has 24 frames of which exactly 8 are
    suspicious, and the audio track does not flag, the video confidence is
    0.5 + (1/3 - 0.3) * 2.0, which lies between 0.5 and 0.7. *)
Theorem video_one_third_suspicious
  (L : ExternalLib) (W : AdvancedMediaSteganography.World)
  (video_path : string) (frames : list ndarray) :
  fst (run (AdvancedMediaSteganography.extract_frames_from_video video_path 10)) = Ok frames ->
  List.length frames = 24%nat ->
  suspicious_frames frames = 8%Z ->
  ~ audio_flags video_path ->
  exists (d : dict) (c : Q),
    fst (run (AdvancedMediaSteganography.analyze_video video_path)) = Ok d /\
    dict_get "hasSteganography" d = Some (VBool true) /\
    dict_get "confidence" d = Some (VNum c) /\
    c == (1 # 2) + ((1 # 3) - (3 # 10)) * 2 /\
    (1 # 2 <= c /\ c <= 7 # 10).
Proof.
  intros Hext Hlen Hsusp Hquiet. apply frames_of_run in Hext.
  destruct (video_audio_total L W video_path [VideoOpenAttempt video_path])
    as (audio & log2 & Haudio & _).
  assert (Hblend :
            AdvancedMediaSteganography.blend_audio
              (AdvancedMediaSteganography.video_bands (suspicious_ratio frames)) audio
            = Ok (true, (5 # 10) + (inject_Z 8 / inject_Z (Z.of_nat 24) - (3 # 10)) * 2)).
  { rewrite blend_audio_unflagged.
    - unfold suspicious_ratio. rewrite Hsusp, Hlen. reflexivity.
    - intros a Ha. subst audio.
      destruct (truthy _) eqn:Hflag; [|reflexivity].
      exfalso. apply Hquiet. exists [VideoOpenAttempt video_path], log2, a.
      split; assumption. }
  assert (Hne : frames <> []) by (intros E; rewrite E in Hlen; discriminate Hlen).
  destruct (analyze_video_run L W video_path [] _ _ frames audio _ _ Hext Hne Haudio Hblend)
    as (d & Hrun & Hflag & Hconf & _).
  exists d. eexists. unfold run. rewrite Hrun.
  split; [reflexivity|]. split; [exact Hflag|]. split; [exact Hconf|].
  split; [reflexivity|]. split; unfold Qle; simpl; lia.
Qed.

Lemma no_audio_without_ffmpeg (frames : list ndarray) (samples : list Z) (video_path : string) :
  ~ @audio_flags Examples.lib (Examples.world frames samples) video_path.
Proof.
  intros (log & log' & a & Hrun & _). discriminate Hrun.
Qed.

Lemma video_one_third_suspicious_witness :
  List.length Examples.frames_8_of_24 = 24%nat /\
  @suspicious_frames Examples.lib Examples.frames_8_of_24 = 8%Z /\
  exists (d : dict) (c : Q),
    fst (run (@AdvancedMediaSteganography.analyze_video Examples.lib
                (Examples.world Examples.frames_8_of_24 []) "clip.mkv")) = Ok d /\
    dict_get "hasSteganography" d = Some (VBool true) /\
    dict_get "confidence" d = Some (VNum c) /\
    c == (1 # 2) + ((1 # 3) - (3 # 10)) * 2 /\
    (1 # 2 <= c /\ c <= 7 # 10).
Proof.
  split; [reflexivity|]. split; [vm_compute; reflexivity|].
  apply (video_one_third_suspicious Examples.lib (Examples.world Examples.frames_8_of_24 [])
           "clip.mkv" Examples.frames_8_of_24).
  - reflexivity.
  - reflexivity.
  - vm_compute. reflexivity.
  - apply no_audio_without_ffmpeg.
Defined.

(** When the header of the same 24-frame video reports its 24 frames, ten
    of them are sampled (frames 0, 2, 5, 7, 10, ...), four of those are
    suspicious, and the confidence is that of a ratio of 0.4: about 0.7, at
    the upper end of the second band. *)
Lemma counted_video_is_sampled :
  exists d : dict,
    fst (run (@AdvancedMediaSteganography.analyze_video Examples.lib
                (Examples.world_with_header Examples.frames_8_of_24) "clip.mkv")) = Ok d /\
    dict_get "framesAnalyzed" d = Some (VInt 10) /\
    dict_get "suspiciousFrames" d = Some (VInt 4) /\
    exists c : Q,
      dict_get "confidence" d = Some (VNum c) /\ 69 # 100 <= c /\ c <= 71 # 100.
Proof.
  eexists. split; [vm_compute; reflexivity|].
  split; [reflexivity|]. split; [reflexivity|].
  eexists. split; [reflexivity|]. split; vm_compute; discriminate.
Qed.

(** C10. As soon as one sampled frame is suspicious the video verdict is
    detected, also in the lowest band (ratio at most 0.1), whose confidence
    is three times the ratio; that is the confidence of the verdict unless a
    flagged audio track is blended in. *)
Theorem video_any_suspicious_frame
  (L : ExternalLib) (W : AdvancedMediaSteganography.World)
  (video_path : string) (frames : list ndarray) :
  fst (run (AdvancedMediaSteganography.extract_frames_from_video video_path 10)) = Ok frames ->
  (0 < suspicious_frames frames)%Z ->
  exists d : dict,
    fst (run (AdvancedMediaSteganography.analyze_video video_path)) = Ok d /\
    dict_get "hasSteganography" d = Some (VBool true) /\
    (suspicious_ratio frames <= 1 # 10 ->
     AdvancedMediaSteganography.video_bands (suspicious_ratio frames)
     = (true, suspicious_ratio frames * 3)) /\
    (suspicious_ratio frames <= 1 # 10 -> ~ audio_flags video_path ->
     exists c : Q,
       dict_get "confidence" d = Some (VNum c) /\ c == suspicious_ratio frames * 3).
Proof.
  intros Hext Hsusp. apply frames_of_run in Hext.
  assert (Hne : frames <> []).
  { intros E. subst frames. unfold suspicious_frames in Hsusp. simpl in Hsusp. lia. }
  assert (Hpos : 0 < suspicious_ratio frames).
  { apply ratio_pos; [exact Hsusp|]. destruct frames; [congruence|]. simpl. lia. }
  destruct (video_audio_total L W video_path [VideoOpenAttempt video_path])
    as (audio & log2 & Haudio & Hnum).
  pose proof (video_bands_positive _ Hpos) as Hdet.
  assert (Hlowest : suspicious_ratio frames <= 1 # 10 ->
                    AdvancedMediaSteganography.video_bands (suspicious_ratio frames)
                    = (true, suspicious_ratio frames * 3)).
  { intros Hlow. rewrite video_bands_lowest by exact Hlow.
    f_equal. apply Qltb_true. exact Hpos. }
  destruct (AdvancedMediaSteganography.video_bands (suspicious_ratio frames))
    as [h c0] eqn:Hbands.
  cbn [fst] in Hdet. subst h.
  destruct (blend_audio_keeps_detection c0 audio Hnum) as [c' Hblend].
  rewrite <- Hbands in Hblend.
  destruct (analyze_video_run L W video_path [] _ _ frames audio _ _ Hext Hne Haudio Hblend)
    as (d & Hrun & Hflag & Hconf & _).
  exists d. unfold run. rewrite Hrun.
  split; [reflexivity|]. split; [exact Hflag|]. split; [exact Hlowest|].
  intros Hlow Hquiet. exists (Qmin c' 1). split; [exact Hconf|].
  assert (Hsame : Ok (true, c') = Ok (true, c0)).
  { rewrite <- Hblend, Hbands. apply blend_audio_unflagged.
    intros a Ha. subst audio.
    destruct (truthy _) eqn:Hf; [|reflexivity].
    exfalso. apply Hquiet. exists [VideoOpenAttempt video_path], log2, a.
    split; assumption. }
  inversion Hsame; subst c'.
  rewrite (video_bands_lowest _ Hlow) in Hbands. inversion Hbands; subst c0.
  apply Q.min_l. lra.
Qed.

Lemma video_any_suspicious_frame_witness :
  (0 < @suspicious_frames Examples.lib Examples.frames_1_of_10)%Z /\
  @suspicious_ratio Examples.lib Examples.frames_1_of_10 <= 1 # 10 /\
  exists d : dict,
    fst (run (@AdvancedMediaSteganography.analyze_video Examples.lib
                (Examples.world Examples.frames_1_of_10 []) "clip.mp4")) = Ok d /\
    dict_get "hasSteganography" d = Some (VBool true) /\
    exists c : Q,
      dict_get "confidence" d = Some (VNum c) /\
      c == @suspicious_ratio Examples.lib Examples.frames_1_of_10 * 3.
Proof.
  assert (Hs : (0 < @suspicious_frames Examples.lib Examples.frames_1_of_10)%Z)
    by (vm_compute; reflexivity).
  assert (Hr : @suspicious_ratio Examples.lib Examples.frames_1_of_10 <= 1 # 10)
    by (vm_compute; discriminate).
  split; [exact Hs|]. split; [exact Hr|].
  destruct (video_any_suspicious_frame Examples.lib
              (Examples.world Examples.frames_1_of_10 []) "clip.mp4"
              Examples.frames_1_of_10 eq_refl Hs)
    as (d & Hrun & Hflag & _ & Hconf).
  exists d. split; [exact Hrun|]. split; [exact Hflag|].
  apply Hconf; [exact Hr|]. apply no_audio_without_ffmpeg.
Defined.

(** ** The error convention of the verdicts *)

Lemma dict_get_set_other (k k' : string) (v : pyval) (d : dict) :
  k <> k' -> dict_get k (dict_set k' v d) = dict_get k d.
Proof.
  intros Hne. induction d as [|[k0 v0] r IH]; simpl.
  - destruct (String.eqb_spec k k'); [contradiction | reflexivity].
  - destruct (String.eqb_spec k' k0) as [E|E]; simpl.
    + subst k0. destruct (String.eqb_spec k k'); [contradiction | reflexivity].
    + destruct (String.eqb k k0); [reflexivity | exact IH].
Qed.

Lemma error_convention_media_type (flag : string) (v : pyval) (d : dict) :
  flag <> "mediaType"%string ->
  error_convention flag d -> error_convention flag (dict_set "mediaType" v d).
Proof.
  intros Hflag Hd. unfold error_convention, dict_has.
  rewrite !dict_get_set_other by (assumption || discriminate).
  exact Hd.
Qed.

(** A verdict without an [error] key, and an error verdict with false flag
    and zero confidence. *)
Ltac clean_verdict := intros Herr; discriminate Herr.
Ltac error_verdict :=
  intros _; split; [reflexivity | eexists; eexists; repeat split; reflexivity].
Ltac verdict := solve [clean_verdict | error_verdict].

Lemma media_analyze_image_total
  (L : ExternalLib) (W : AdvancedMediaSteganography.World)
  (image_data : bytes) (log : list event) :
  exists (d : dict) (log' : list event),
    AdvancedMediaSteganography.analyze_image image_data log = (Ok d, log') /\
    error_convention "hasSteganography" d.
Proof.
  unfold AdvancedMediaSteganography.analyze_image, io_try, io_bind, io_lift, io_ret.
  destruct (AdvancedMediaSteganography.load_image_from_buffer image_data log)
    as [[image|e] log1].
  2: { eexists; eexists; split; [reflexivity | verdict]. }
  destruct (AdvancedMediaSteganography.np_size image =? 0)%Z.
  { eexists; eexists; split; [reflexivity | verdict]. }
  destruct (AdvancedMediaSteganography.chi_square_test _) as [chi p].
  destruct (bind (AdvancedMediaSteganography.shape_at image 0) _) as [[rs_reg rs_sing]|e].
  all: try (destruct (AdvancedMediaSteganography.image_indicators _ _ _ _) as [[i c] m]).
  all: eexists; eexists; split; [reflexivity | verdict].
Qed.

Lemma analyze_video_total
  (L : ExternalLib) (W : AdvancedMediaSteganography.World)
  (video_path : string) (log : list event) :
  exists (d : dict) (log' : list event),
    AdvancedMediaSteganography.analyze_video video_path log = (Ok d, log') /\
    error_convention "hasSteganography" d.
Proof.
  unfold AdvancedMediaSteganography.analyze_video, io_try, io_bind, io_lift, io_ret.
  destruct (AdvancedMediaSteganography.extract_frames_from_video video_path 10 log)
    as [[frames|e] log1].
  2: { eexists; eexists; split; [reflexivity | verdict]. }
  destruct frames as [|f fs].
  { eexists; eexists; split; [reflexivity | verdict]. }
  destruct (AdvancedMediaSteganography.frame_loop (f :: fs)) as [[s cps] es].
  destruct (AdvancedMediaSteganography.video_audio video_path log1) as [[audio|e] log2].
  2: { eexists; eexists; split; [reflexivity | verdict]. }
  destruct (AdvancedMediaSteganography.blend_audio _ audio) as [[h c]|e].
  all: eexists; eexists; split; [reflexivity | verdict].
Qed.

Lemma detect_media_steganography_total
  (L : ExternalLib) (W : AdvancedMediaSteganography.World)
  (file_data : bytes) (file_name : string) (log : list event) :
  exists (d : dict) (log' : list event),
    AdvancedMediaSteganography.detect_media_steganography file_data file_name log
    = (Ok d, log') /\
    error_convention "hasSteganography" d.
Proof.
  unfold AdvancedMediaSteganography.detect_media_steganography, io_try, io_bind, io_ret,
    AdvancedMediaSteganography.save_buffer_to_temp_file, io_call.
  set (ext := lower (splitext_ext file_name)).
  destruct (str_in ext AdvancedMediaSteganography.AUDIO_EXTENSIONS).
  { destruct (AdvancedMediaSteganography.tmp_write file_data ext) as [p|e].
    2: { eexists; eexists; split; [reflexivity | verdict]. }
    destruct (analyze_audio_lsb_total L W p (log ++ [TempFileWritten ext]))
      as (d & log1 & Hrun & Hconv & _).
    rewrite Hrun.
    destruct (truthy (VStr p) && AdvancedMediaSteganography.path_exists p);
      [destruct (AdvancedMediaSteganography.unlink p) as [[]|e]|];
      (eexists; eexists; split; [reflexivity|];
       apply error_convention_media_type; [discriminate | exact Hconv]). }
  destruct (str_in ext AdvancedMediaSteganography.VIDEO_EXTENSIONS).
  { destruct (AdvancedMediaSteganography.tmp_write file_data ext) as [p|e].
    2: { eexists; eexists; split; [reflexivity | verdict]. }
    destruct (analyze_video_total L W p (log ++ [TempFileWritten ext]))
      as (d & log1 & Hrun & Hconv).
    rewrite Hrun.
    destruct (truthy (VStr p) && AdvancedMediaSteganography.path_exists p);
      [destruct (AdvancedMediaSteganography.unlink p) as [[]|e]|];
      (eexists; eexists; split; [reflexivity|];
       apply error_convention_media_type; [discriminate | exact Hconv]). }
  destruct (str_in ext AdvancedMediaSteganography.IMAGE_EXTENSIONS).
  { destruct (media_analyze_image_total L W file_data log) as (d & log1 & Hrun & Hconv).
    rewrite Hrun.
    eexists; eexists; split; [reflexivity|].
    apply error_convention_media_type; [discriminate | exact Hconv]. }
  eexists; eexists; split; [reflexivity | verdict].
Qed.

Lemma wrapper_handler_convention
  (W : AdvancedMediaSteganography.World) (e : exn) (l l' : list event) (v : pyval) :
  io_bind
    (io_lift (AdvancedMediaSteganography.json_dumps
                [("hasSteganography"%string, VBool false);
                 ("confidence"%string, VInt 0);
                 ("error"%string, VStr (exn_str e))]))
    (fun text =>
       io_bind (io_call (Printed text) (Ok tt))
         (fun _ => io_ret (VDict [("hasSteganography"%string, VBool false);
                                  ("confidence"%string, VInt 0);
                                  ("error"%string, VStr (exn_str e))]))) l
  = (Ok v, l') ->
  forall d, v = VDict d -> error_convention "hasSteganography" d.
Proof.
  unfold io_bind, io_lift, io_call, io_ret.
  destruct (AdvancedMediaSteganography.json_dumps _) as [text|e'];
    intros H; inversion H; subst.
  intros d Hd; inversion Hd; subst. verdict.
Qed.

Lemma io_try_ok {A : Type} (c : IO A) (h : exn -> IO A) (P : A -> Prop)
  (log log' : list event) (v : A) :
  (forall a l, c log = (Ok a, l) -> P a) ->
  (forall e l a l0, h e l = (Ok a, l0) -> P a) ->
  io_try c h log = (Ok v, log') -> P v.
Proof.
  intros Hc Hh. unfold io_try.
  destruct (c log) as [[a|e] l] eqn:E.
  - intros H. inversion H; subst. exact (Hc v log' eq_refl).
  - intros H. exact (Hh e l v log' H).
Qed.

Lemma detect_steganography_in_media_convention
  (L : ExternalLib) (W : AdvancedMediaSteganography.World)
  (file_data : option bytes) (log log' : list event) (v : pyval) :
  AdvancedMediaSteganography.detect_steganography_in_media file_data log = (Ok v, log') ->
  forall d, v = VDict d -> error_convention "hasSteganography" d.
Proof.
  unfold AdvancedMediaSteganography.detect_steganography_in_media.
  apply (io_try_ok _ _
           (fun v => forall d, v = VDict d -> error_convention "hasSteganography" d)).
  2: { intros e l a l0. cbv beta zeta. apply wrapper_handler_convention. }
  intros a l.
  assert (Hprint : forall (result : dict) (l1 : list event),
             error_convention "hasSteganography" result ->
             io_bind (io_lift (AdvancedMediaSteganography.json_dumps result))
               (fun text => io_bind (io_call (Printed text) (Ok tt))
                              (fun _ => io_ret (VDict result))) l1
             = (Ok a, l) ->
             forall d, a = VDict d -> error_convention "hasSteganography" d).
  { intros result l1 Hconv. unfold io_bind, io_lift, io_call, io_ret.
    destruct (AdvancedMediaSteganography.json_dumps result) as [text|e];
      intros H; inversion H; subst.
    intros d Hd; inversion Hd; subst. exact Hconv. }
  destruct (List.length AdvancedMediaSteganography.sys_argv <? 2)%nat.
  { unfold io_bind, io_lift, io_ret.
    destruct (AdvancedMediaSteganography.json_dumps _) as [text|e];
      intros H; inversion H; subst. intros d Hd; discriminate Hd. }
  cbv zeta.
  set (file_path := nth 1 AdvancedMediaSteganography.sys_argv EmptyString).
  unfold io_bind at 1.
  destruct (AdvancedMediaSteganography.is_empty file_data).
  - unfold io_bind at 1. unfold io_call at 1.
    destruct AdvancedMediaSteganography.stdin_read as [d0|e];
      [|intros H; discriminate H].
    unfold io_ret at 1. unfold io_bind at 1.
    destruct (AdvancedMediaSteganography.is_empty (Some d0)).
    + unfold io_bind at 1. unfold io_call at 1.
      destruct (AdvancedMediaSteganography.file_read file_path) as [d1|e];
        [|intros H; discriminate H].
      unfold io_ret at 1. unfold io_bind at 1.
      destruct (detect_media_steganography_total L W d1 (basename file_path)
                  ((log ++ [StdinRead]) ++ [FileRead file_path]))
        as (result & log1 & -> & Hconv).
      apply Hprint. exact Hconv.
    + unfold io_ret at 1. unfold io_bind at 1.
      destruct (detect_media_steganography_total L W d0 (basename file_path)
                  (log ++ [StdinRead]))
        as (result & log1 & -> & Hconv).
      apply Hprint. exact Hconv.
  - unfold io_ret at 1. unfold io_bind at 1.
    destruct (AdvancedMediaSteganography.is_empty file_data).
    + unfold io_bind at 1. unfold io_call at 1.
      destruct (AdvancedMediaSteganography.file_read file_path) as [d1|e];
        [|intros H; discriminate H].
      unfold io_ret at 1. unfold io_bind at 1.
      destruct (detect_media_steganography_total L W d1 (basename file_path)
                  (log ++ [FileRead file_path]))
        as (result & log1 & -> & Hconv).
      apply Hprint. exact Hconv.
    + unfold io_ret at 1. unfold io_bind at 1.
      destruct (detect_media_steganography_total L W
                  match file_data with Some d => d | None => [] end
                  (basename file_path) log)
        as (result & log1 & -> & Hconv).
      apply Hprint. exact Hconv.
Qed.

Lemma lsb_detector_analyze_image_convention
  (L : ExternalLib) (D : AdvancedLsbDetector.Decoder) (image_data : bytes) :
  error_convention "detected" (AdvancedLsbDetector.analyze_image image_data).
Proof.
  unfold AdvancedLsbDetector.analyze_image.
  destruct (AdvancedLsbDetector.run_battery image_data) as [b|e]; cbn [bind catch].
  - destruct (AdvancedLsbDetector.score_battery b) as [s c]. verdict.
  - verdict.
Qed.

Lemma service_detect_steganography_convention
  (T : SteganographyService.Tools) (image_data : bytes) :
  error_convention "hasSteganography" (SteganographyService.detect_steganography image_data).
Proof.
  unfold SteganographyService.detect_steganography, SteganographyService.finally.
  destruct (SteganographyService.tmp_write image_data) as [p|e]; cbn [bind catch]; [|verdict].
  destruct (SteganographyService.run_methods image_data p) as [ds|e]; cbn [bind catch];
    [|verdict].
  destruct (SteganographyService.aggregate_detected ds) as [h ms].
  destruct (SteganographyService.aggregate_confidence ds) as [[cs n]|e]; cbn [bind catch];
    verdict.
Qed.

Lemma steganography_analyze_image_convention
  (L : ExternalLib) (D : AdvancedSteganography.Decoder) (image_path : string) :
  error_convention "hasSteganography" (AdvancedSteganography.analyze_image image_path).
Proof.
  unfold AdvancedSteganography.analyze_image.
  destruct (AdvancedSteganography.run_battery image_path) as [b|e]; cbn [bind catch].
  - destruct (AdvancedLsbDetector.score_battery b) as [s c]. verdict.
  - verdict.
Qed.

(** One step into the body of a [try]: decide the next call or test. *)
Ltac try_step :=
  match goal with
  | |- error_convention _ (catch (bind ?x _) _) => destruct x; cbn [bind catch]
  | |- error_convention _ (catch (match ?x with _ => _ end) _) => destruct x; cbn [bind catch]
  end.

Lemma service_methods_convention
  (T : SteganographyService.Tools) (image_data : bytes) (image_path : string) :
  error_convention "detected" (SteganographyService.detect_lsb image_data) /\
  error_convention "detected" (SteganographyService.detect_stegexpose image_path) /\
  error_convention "detected" (SteganographyService.detect_openstego image_path).
Proof.
  refine (conj _ (conj _ _)).
  - unfold SteganographyService.detect_lsb, py_truediv,
      SteganographyService.error_result.
    repeat try_step; verdict.
  - unfold SteganographyService.detect_stegexpose, SteganographyService.error_result.
    repeat try_step; verdict.
  - unfold SteganographyService.detect_openstego, SteganographyService.error_result.
    repeat try_step; verdict.
Qed.

(** C7. A verdict returned by an analysis entry point that carries an
    [error] field has a false detection flag and a confidence of zero: the
    media dispatcher and its three analysers, the Node.js wrapper (whenever
    what it returns is a verdict), both image analysers, and the
    multi-method service with each of its methods. *)
Theorem error_field_convention
  (L : ExternalLib) (W : AdvancedMediaSteganography.World)
  (D : AdvancedLsbDetector.Decoder) (D' : AdvancedSteganography.Decoder)
  (T : SteganographyService.Tools) :
  (forall file_data file_name log d log',
      AdvancedMediaSteganography.detect_media_steganography file_data file_name log
      = (Ok d, log') ->
      error_convention "hasSteganography" d) /\
  (forall video_path log d log',
      AdvancedMediaSteganography.analyze_video video_path log = (Ok d, log') ->
      error_convention "hasSteganography" d) /\
  (forall audio_path log d log',
      AdvancedMediaSteganography.analyze_audio_lsb audio_path log = (Ok d, log') ->
      error_convention "hasSteganography" d) /\
  (forall image_data log d log',
      AdvancedMediaSteganography.analyze_image image_data log = (Ok d, log') ->
      error_convention "hasSteganography" d) /\
  (forall file_data log d log',
      AdvancedMediaSteganography.detect_steganography_in_media file_data log
      = (Ok (VDict d), log') ->
      error_convention "hasSteganography" d) /\
  (forall image_data,
      error_convention "detected" (AdvancedLsbDetector.analyze_image image_data)) /\
  (forall image_path,
      error_convention "hasSteganography" (AdvancedSteganography.analyze_image image_path)) /\
  (forall image_data,
      error_convention "hasSteganography"
        (SteganographyService.detect_steganography image_data)) /\
  (forall image_data image_path,
      error_convention "detected" (SteganographyService.detect_lsb image_data) /\
      error_convention "detected" (SteganographyService.detect_stegexpose image_path) /\
      error_convention "detected" (SteganographyService.detect_openstego image_path)).
Proof.
  refine (conj _ (conj _ (conj _ (conj _ (conj _ (conj _ (conj _ (conj _ _)))))))).
  - intros file_data file_name log d log' H.
    destruct (detect_media_steganography_total L W file_data file_name log)
      as (d0 & l0 & H0 & Hc).
    rewrite H0 in H. inversion H; subst. exact Hc.
  - intros video_path log d log' H.
    destruct (analyze_video_total L W video_path log) as (d0 & l0 & H0 & Hc).
    rewrite H0 in H. inversion H; subst. exact Hc.
  - intros audio_path log d log' H.
    destruct (analyze_audio_lsb_total L W audio_path log) as (d0 & l0 & H0 & Hc & _).
    rewrite H0 in H. inversion H; subst. exact Hc.
  - intros image_data log d log' H.
    destruct (media_analyze_image_total L W image_data log) as (d0 & l0 & H0 & Hc).
    rewrite H0 in H. inversion H; subst. exact Hc.
  - intros file_data log d log' H.
    apply (detect_steganography_in_media_convention L W file_data log log' (VDict d) H).
    reflexivity.
  - intros image_data. apply lsb_detector_analyze_image_convention.
  - intros image_path. apply steganography_analyze_image_convention.
  - intros image_data. apply service_detect_steganography_convention.
  - intros image_data image_path. apply service_methods_convention.
Qed.

Lemma error_field_convention_witness :
  exists d : dict,
    run (@AdvancedMediaSteganography.detect_media_steganography Examples.lib
           (Examples.world [] []) [] "clip.mp4")
    = (Ok d, [TempFileWritten ".mp4"; VideoOpenAttempt "/tmp/tmpfile.mp4";
              Unlinked "/tmp/tmpfile.mp4"]) /\
    dict_get "error" d = Some (VStr "No frames could be extracted from video") /\
    dict_get "hasSteganography" d = Some (VBool false) /\
    exists (v : pyval) (q : Q),
      dict_get "confidence" d = Some v /\ as_num v = Some q /\ q == 0.
Proof.
  eexists. split; [reflexivity|]. split; [reflexivity|].
  apply (proj1 (error_field_convention Examples.lib (Examples.world [] [])
                  Examples.comb_decoder Examples.file_decoder Examples.tools_without_java)
           [] "clip.mp4"%string []
           _ [TempFileWritten ".mp4"; VideoOpenAttempt "/tmp/tmpfile.mp4";
              Unlinked "/tmp/tmpfile.mp4"]);
    reflexivity.
Defined.

(** ** The multi-method aggregator *)

(** The overall flag is the disjunction of the sub-results' [detected]
    flags (a sub-result without the key counts as not detected). *)
Lemma aggregate_detected_is_any (ds : SteganographyService.details) :
  fst (SteganographyService.aggregate_detected ds)
  = existsb (fun mr => truthy (SteganographyService.get_default "detected" (VBool false)
                                 (snd mr))) ds.
Proof.
  unfold SteganographyService.aggregate_detected.
  assert (H : forall (b : bool) (ms : list string),
             fst (fold_left
                    (fun st mr =>
                       if truthy (SteganographyService.get_default "detected" (VBool false)
                                    (snd mr))
                       then (true, snd st ++ [fst mr]) else st) ds (b, ms))
             = b || existsb (fun mr => truthy (SteganographyService.get_default "detected"
                                                 (VBool false) (snd mr))) ds).
  { induction ds as [|mr ds IH]; intros b ms; simpl.
    - now rewrite orb_false_r.
    - destruct (truthy _); rewrite IH; simpl.
      + now rewrite orb_true_r.
      + reflexivity. }
  apply (H false []).
Qed.

(** A sub-result that the aggregator itself records for a raising tool,
    [{"error": ...}], has no confidence and is left out of the average. *)
Lemma aggregate_confidence_skips_bare_error
  (ds : SteganographyService.details) (method msg : string) :
  SteganographyService.aggregate_confidence (ds ++ [(method, [("error"%string, VStr msg)])])
  = SteganographyService.aggregate_confidence ds.
Proof.
  unfold SteganographyService.aggregate_confidence.
  rewrite fold_left_app. cbn [fold_left snd dict_get String.eqb].
  destruct (fold_left _ ds (Ok (0, 0%Z))) as [[cs n]|e]; reflexivity.
Qed.

(** The tools never hand the aggregator such a record: what they return on
    failure carries a confidence of 0.0. *)
Lemma tool_failure_has_confidence (T : SteganographyService.Tools) (image_path : string)
  (e : exn) :
  SteganographyService.run_stegexpose image_path = Raise e ->
  SteganographyService.detect_stegexpose image_path
  = [("detected", VBool false); ("confidence", VNum 0); ("error", VStr (exn_str e))]%string.
Proof.
  intros H. unfold SteganographyService.detect_stegexpose. rewrite H. reflexivity.
Qed.

(** C4. On a machine where both external tools fail, the overall
    confidence is not the LSB confidence (the only sub-result without an
    error) but half of it: the two error sub-results enter the average with
    confidence 0. *)
Theorem errored_tools_enter_the_average :
  let v := @SteganographyService.detect_steganography Examples.tools_without_java [] in
  exists (lsb stegexpose openstego : dict) (c_lsb c : Q),
    dict_get "detailsByMethod" v
    = Some (VDict [("lsb_analysis", VDict lsb); ("stegexpose", VDict stegexpose);
                   ("openstego", VDict openstego)]%string) /\
    dict_has "error" lsb = false /\
    dict_get "confidence" lsb = Some (VNum c_lsb) /\ c_lsb == 52 # 100 /\
    dict_has "error" stegexpose = true /\ dict_get "confidence" stegexpose = Some (VNum 0) /\
    dict_has "error" openstego = true /\ dict_get "confidence" openstego = Some (VNum 0) /\
    dict_get "hasSteganography" v = Some (VBool true) /\
    dict_get "confidence" v = Some (VNum c) /\ c == 26 # 100 /\ ~ c == c_lsb.
Proof.
  vm_compute.
  do 5 eexists.
  split; [reflexivity|]. split; [reflexivity|]. split; [reflexivity|].
  split; [reflexivity|]. split; [reflexivity|]. split; [reflexivity|].
  split; [reflexivity|]. split; [reflexivity|]. split; [reflexivity|].
  split; [reflexivity|]. split; [reflexivity|].
  intros H. discriminate H.
Qed.

(** ** The same scorer behind [advanced_steganography.py] *)

Lemma three_indicators_base_confidence_by_path
  (L : ExternalLib) (D : AdvancedSteganography.Decoder)
  (image_path : string) (b : AdvancedLsbDetector.battery) :
  AdvancedSteganography.run_battery image_path = Ok b ->
  AdvancedLsbDetector.indicators
    (AdvancedLsbDetector.b_chi_p b) (AdvancedLsbDetector.b_entropy b)
    (AdvancedLsbDetector.b_rs_reg b) (AdvancedLsbDetector.b_rs_sing b)
    (AdvancedLsbDetector.b_slope b) = 3%Z ->
  dict_get "hasSteganography" (AdvancedSteganography.analyze_image image_path)
  = Some (VBool true) /\
  exists c : Q,
    dict_get "confidence" (AdvancedSteganography.analyze_image image_path) = Some (VNum c) /\
    c == 6 # 10.
Proof.
  intros Hrun Hthree.
  unfold AdvancedSteganography.analyze_image. rewrite Hrun. cbn [bind catch].
  unfold AdvancedLsbDetector.score_battery, AdvancedLsbDetector.composite_score.
  unfold AdvancedLsbDetector.indicators in *.
  destruct (flt (AdvancedLsbDetector.b_chi_p b) (5 # 100));
    destruct (Qltb (9 # 10) (AdvancedLsbDetector.b_entropy b));
    destruct (Qltb (Qabs (AdvancedLsbDetector.b_rs_reg b - AdvancedLsbDetector.b_rs_sing b))
                   (5 # 100));
    destruct (100 <? AdvancedLsbDetector.b_slope b)%Z;
    cbn in Hthree; try discriminate Hthree;
    (split; [reflexivity | eexists; split; [reflexivity | vm_compute; reflexivity]]).
Qed.

(** In general: when the LSB analysis succeeds with a confidence [c] below
    0.8 and neither tool can be started, the overall confidence is [c / 2]. *)
Lemma tool_failures_halve_confidence
  (T : SteganographyService.Tools) (image_data : bytes) (temp_path : string)
  (c : Q) (e1 e2 : exn) :
  SteganographyService.tmp_write image_data = Ok temp_path ->
  dict_get "confidence" (SteganographyService.detect_lsb image_data) = Some (VNum c) ->
  c < 8 # 10 ->
  SteganographyService.run_stegexpose temp_path = Raise e1 ->
  SteganographyService.run_openstego temp_path = Raise e2 ->
  exists c' : Q,
    dict_get "confidence" (SteganographyService.detect_steganography image_data)
    = Some (VNum c') /\
    c' == c / 2.
Proof.
  intros Htmp Hconf Hlow Hse Hos.
  unfold SteganographyService.detect_steganography, SteganographyService.finally.
  rewrite Htmp. cbn [bind catch].
  unfold SteganographyService.run_methods.
  rewrite Hconf. cbn [as_num VNum bind].
  apply Qltb_true in Hlow. rewrite Hlow.
  unfold SteganographyService.detect_stegexpose, SteganographyService.detect_openstego.
  rewrite Hse, Hos. cbn [bind catch SteganographyService.error_result].
  cbn [SteganographyService.details_set String.eqb Ascii.eqb Bool.eqb].
  destruct (SteganographyService.aggregate_detected _) as [h ms].
  unfold SteganographyService.aggregate_confidence.
  cbn [fold_left bind snd fst]. rewrite Hconf.
  cbn [dict_get String.eqb Ascii.eqb Bool.eqb as_num VNum bind Z.add Z.ltb Z.compare
       Pos.add Pos.succ Pos.compare Pos.compare_cont].
  cbn. eexists. split; [reflexivity|]. field.
Qed.

(* ------------------------------------------------------------------ *)
(** * Further properties of the detectors *)

(** ** The indicator-counting scorer, all cases *)

(** X1. The indicator-counting scorer knows three confidence levels: 0 with
    fewer than three indicators (not detected), 0.6 with exactly three and
    0.95 with all four (detected). *)
Theorem scorer_confidence_levels
  (L : ExternalLib) (D : AdvancedLsbDetector.Decoder)
  (image_data : bytes) (b : AdvancedLsbDetector.battery) :
  AdvancedLsbDetector.run_battery image_data = Ok b ->
  let n := AdvancedLsbDetector.indicators
             (AdvancedLsbDetector.b_chi_p b) (AdvancedLsbDetector.b_entropy b)
             (AdvancedLsbDetector.b_rs_reg b) (AdvancedLsbDetector.b_rs_sing b)
             (AdvancedLsbDetector.b_slope b) in
  exists (detected : bool) (c : Q),
    dict_get "detected" (AdvancedLsbDetector.analyze_image image_data)
    = Some (VBool detected) /\
    dict_get "confidence" (AdvancedLsbDetector.analyze_image image_data) = Some (VNum c) /\
    dict_has "error" (AdvancedLsbDetector.analyze_image image_data) = false /\
    (detected = true <-> (3 <= n)%Z) /\
    (((0 <= n <= 2)%Z /\ c == 0) \/ (n = 3%Z /\ c == 6 # 10) \/ (n = 4%Z /\ c == 95 # 100)).
Proof.
  intros Hrun n. subst n.
  unfold AdvancedLsbDetector.analyze_image. rewrite Hrun. cbn [bind catch].
  unfold AdvancedLsbDetector.score_battery, AdvancedLsbDetector.composite_score.
  unfold AdvancedLsbDetector.indicators.
  destruct (flt (AdvancedLsbDetector.b_chi_p b) (5 # 100));
    destruct (Qltb (9 # 10) (AdvancedLsbDetector.b_entropy b));
    destruct (Qltb (Qabs (AdvancedLsbDetector.b_rs_reg b - AdvancedLsbDetector.b_rs_sing b))
                   (5 # 100));
    destruct (100 <? AdvancedLsbDetector.b_slope b)%Z;
    (eexists; eexists;
     split; [reflexivity|]; split; [reflexivity|]; split; [reflexivity|];
     split; [cbn; split; intros H; first [reflexivity | lia | discriminate H]|];
     first [ left; split; [cbn; lia | vm_compute; reflexivity]
           | right; left; split; [reflexivity | vm_compute; reflexivity]
           | right; right; split; [reflexivity | vm_compute; reflexivity] ]).
Qed.

Lemma scorer_confidence_levels_witness :
  exists (detected : bool) (c : Q),
    dict_get "detected"
      (@AdvancedLsbDetector.analyze_image Examples.lib Examples.comb_decoder [])
    = Some (VBool detected) /\
    dict_get "confidence"
      (@AdvancedLsbDetector.analyze_image Examples.lib Examples.comb_decoder [])
    = Some (VNum c) /\
    (detected = true <-> (3 <= 3)%Z).
Proof.
  destruct (scorer_confidence_levels Examples.lib Examples.comb_decoder []
              Examples.comb_battery ltac:(vm_compute; reflexivity))
    as (detected & c & Hd & Hc & _ & Hiff & _).
  exists detected, c. split; [exact Hd|]. split; [exact Hc|]. exact Hiff.
Defined.

(** ** The histogram-slope count *)

Lemma diff_steps_bound (s : list Z) :
  (0 <= Zsum (map Z.abs (np_diff s)))%Z /\
  (Zsum (map Z.abs (np_diff s)) + Z.abs (hd 0%Z s) <= 2 * Zsum (map Z.abs s))%Z.
Proof.
  induction s as [|a [|b r] IH].
  - unfold Zsum; cbn [np_diff map fold_right hd]; lia.
  - unfold Zsum; cbn [np_diff map fold_right hd]; lia.
  - change (np_diff (a :: b :: r)) with ((b - a)%Z :: np_diff (b :: r)).
    unfold Zsum in *. cbn [map fold_right hd] in *. lia.
Qed.

Lemma sign_steps_length_bound (d : list Z) :
  (Zsum (map Z.abs (np_diff (np_sign d))) <= 2 * Z.of_nat (pred (List.length d)))%Z.
Proof.
  unfold np_sign. induction d as [|a [|b r] IH].
  - unfold Zsum; cbn [np_diff map fold_right List.length pred]; lia.
  - unfold Zsum; cbn [np_diff map fold_right List.length pred]; lia.
  - change (np_diff (map Z.sgn (a :: b :: r)))
      with ((Z.sgn b - Z.sgn a)%Z :: np_diff (map Z.sgn (b :: r))).
    assert (Z.abs (Z.sgn b - Z.sgn a) <= 2)%Z by (destruct a, b; simpl; lia).
    unfold Zsum in *. cbn [map fold_right List.length pred] in *. lia.
Qed.

Lemma abs_signs_count (d : list Z) :
  Zsum (map Z.abs (np_sign d))
  = Z.of_nat (List.length (filter (fun c => negb (c =? 0)%Z) d)).
Proof.
  unfold np_sign, Zsum. induction d as [|a r IH]; [reflexivity|].
  cbn [map fold_right filter]. rewrite IH. destruct a; cbn [negb Z.eqb List.length Z.sgn Z.abs]; lia.
Qed.

Lemma diff_nonzero_count (h : list Z) :
  (Z.of_nat (List.length (filter (fun c => negb (c =? 0)%Z) (np_diff h)))
   + (if (hd 0 h =? 0) then 0 else 1)
   <= 2 * Z.of_nat (List.length (filter (fun c => negb (c =? 0)%Z) h)))%Z.
Proof.
  induction h as [|a [|b r] IH].
  - simpl. lia.
  - simpl. destruct (a =? 0)%Z; simpl; lia.
  - change (np_diff (a :: b :: r)) with ((b - a)%Z :: np_diff (b :: r)).
    cbn [filter hd] in *.
    destruct (Z.eqb_spec (b - a) 0), (Z.eqb_spec a 0), (Z.eqb_spec b 0);
      cbn [negb List.length] in *; lia.
Qed.

Lemma np_diff_length (l : list Z) : List.length (np_diff l) = pred (List.length l).
Proof.
  induction l as [|a [|b r] IH]; simpl; try reflexivity.
  simpl in IH. rewrite IH. reflexivity.
Qed.

(** X2. The histogram-slope count lies between 0 and 508, and it is at most
    four times the number of gray levels that occur: an image with at most
    25 distinct gray levels cannot cross the threshold of 100. *)
Theorem histogram_slope_bounds (gray : ndarray) :
  (0 <= AdvancedLsbDetector.histogram_slope_analysis gray <= 508)%Z /\
  (AdvancedLsbDetector.histogram_slope_analysis gray <= 4 * distinct_levels gray)%Z /\
  ((distinct_levels gray <= 25)%Z ->
   (100 <? AdvancedLsbDetector.histogram_slope_analysis gray)%Z = false).
Proof.
  unfold AdvancedLsbDetector.histogram_slope_analysis, distinct_levels.
  set (hist := AdvancedLsbDetector.calcHist256 gray).
  pose proof (diff_steps_bound (np_sign (np_diff hist))) as [Hpos Hsteps].
  pose proof (sign_steps_length_bound (np_diff hist)) as Hlen.
  pose proof (abs_signs_count (np_diff hist)) as Hcount.
  pose proof (diff_nonzero_count hist) as Hnz.
  assert (Hhist : List.length hist = 256%nat)
    by (unfold hist, AdvancedLsbDetector.calcHist256; now rewrite length_map, length_seq).
  rewrite np_diff_length, Hhist in Hlen. cbn [pred] in Hlen.
  assert (Hhd : (0 <= Z.abs (hd 0 (np_sign (np_diff hist))))%Z) by lia.
  assert (Hif : (0 <= (if (hd 0 hist =? 0) then 0 else 1))%Z)
    by (destruct (hd 0 hist =? 0)%Z; lia).
  split; [lia|]. split; [lia|].
  intros Hfew. apply Z.ltb_ge. lia.
Qed.

(** ** The 4x4 RS analysis of [advanced_media_steganography.py] *)

Lemma py_range_length (start stop step : Z) :
  List.length (py_range start stop step)
  = Z.to_nat ((stop - start + step - 1) / step).
Proof. unfold py_range. now rewrite length_map, length_seq. Qed.

Lemma media_rs_block_groups (img : ndarray) (height width : Z) (st : Z * Z) (y x n : Z) :
  groups_within n st ->
  groups_within (n + 1) (AdvancedMediaSteganography.rs_block img height width st y x).
Proof.
  destruct st as [r s]. unfold AdvancedMediaSteganography.rs_block, groups_within.
  intros (Hr & Hs & Hn).
  unfold AdvancedMediaSteganography.classify.
  repeat match goal with
         | |- context [if ?b then _ else _] => destruct b
         end; lia.
Qed.

Lemma media_rs_row_groups (img : ndarray) (height width y : Z) (xs : list Z) :
  forall (st : Z * Z) (n : Z),
    groups_within n st ->
    groups_within (n + Z.of_nat (List.length xs))
      (fold_left (fun st' x => AdvancedMediaSteganography.rs_block img height width st' y x)
                 xs st).
Proof.
  induction xs as [|x xs IH]; intros st n Hst.
  - simpl. now replace (n + 0)%Z with n by lia.
  - cbn [fold_left List.length].
    replace (n + Z.of_nat (S (List.length xs)))%Z
      with ((n + 1) + Z.of_nat (List.length xs))%Z by lia.
    apply IH. now apply media_rs_block_groups.
Qed.

Lemma media_rs_loop_groups (img : ndarray) (height width : Z) (xs ys : list Z) :
  forall (st : Z * Z) (n : Z),
    groups_within n st ->
    groups_within (n + Z.of_nat (List.length ys) * Z.of_nat (List.length xs))
      (fold_left
         (fun st y =>
            fold_left (fun st' x => AdvancedMediaSteganography.rs_block img height width st' y x)
                      xs st)
         ys st).
Proof.
  induction ys as [|y ys IH]; intros st n Hst.
  - simpl. now replace (n + 0)%Z with n by lia.
  - cbn [fold_left List.length].
    replace (n + Z.of_nat (S (List.length ys)) * Z.of_nat (List.length xs))%Z
      with ((n + Z.of_nat (List.length xs))
            + Z.of_nat (List.length ys) * Z.of_nat (List.length xs))%Z by lia.
    apply IH. now apply media_rs_row_groups.
Qed.

(** X3. The 4x4 RS analysis always returns two fractions in [0, 1] whose
    sum is at most 1: (0.5, 0.5) for an array that is not 2-D, (0, 0) for a
    2-D array with fewer than 4 rows or 4 columns. *)
Theorem media_rs_analysis_fractions (gray : ndarray) :
  exists r s : Q,
    AdvancedMediaSteganography.rs_analysis gray = (r, s) /\
    (0 <= r /\ r <= 1) /\ (0 <= s /\ s <= 1) /\ r + s <= 1 /\
    (List.length (shape gray) <> 2%nat -> (r, s) = (1 # 2, 1 # 2)) /\
    (forall height width,
        shape gray = [height; width] -> (0 <= height)%Z -> (0 <= width)%Z ->
        (height < 4 \/ width < 4)%Z -> (r, s) = (0, 0)).
Proof.
  unfold AdvancedMediaSteganography.rs_analysis.
  destruct (shape gray) as [|height [|width [|x t]]] eqn:Hshape; cbn [catch].
  1, 2, 4: (exists (1 # 2), (1 # 2); split; [reflexivity|];
            repeat split; try (unfold Qle; simpl; lia); try reflexivity;
            intros; discriminate).
  unfold AdvancedMediaSteganography.calculate_groups.
  pose proof (media_rs_loop_groups gray height width
                (py_range 0 (width - AdvancedMediaSteganography.block_size + 1)
                          AdvancedMediaSteganography.block_size)
                (py_range 0 (height - AdvancedMediaSteganography.block_size + 1)
                          AdvancedMediaSteganography.block_size)
                (0, 0)%Z 0%Z ltac:(unfold groups_within; lia)) as Hinv.
  rewrite !py_range_length in Hinv. unfold AdvancedMediaSteganography.block_size in *.
  replace (height - 4 + 1 - 0 + 4 - 1)%Z with height in Hinv by lia.
  replace (width - 4 + 1 - 0 + 4 - 1)%Z with width in Hinv by lia.
  destruct (fold_left _ _ (0%Z, 0%Z)) as [regular singular].
  destruct Hinv as (Hr & Hs & Hn).
  assert (Hh : (height < 4 -> height / 4 <= 0)%Z)
    by (intros; assert (height / 4 < 1)%Z by (apply Z.div_lt_upper_bound; lia); lia).
  assert (Hw : (width < 4 -> width / 4 <= 0)%Z)
    by (intros; assert (width / 4 < 1)%Z by (apply Z.div_lt_upper_bound; lia); lia).
  destruct (0 <? height / 4 * (width / 4) * 2)%Z eqn:Hpos.
  - apply Z.ltb_lt in Hpos.
    assert (Hsum : (regular + singular <= height / 4 * (width / 4) * 2)%Z).
    { destruct (Z_lt_le_dec 0 (height / 4)) as [Hp|Hp].
      - assert (0 < width / 4)%Z by nia. rewrite !Z2Nat.id in Hn by lia. lia.
      - replace (Z.to_nat (height / 4)) with 0%nat in Hn by lia. simpl in Hn. lia. }
    eexists; eexists. split; [reflexivity|].
    split; [apply ratio_bounds; lia|].
    split; [apply ratio_bounds; lia|].
    split; [apply ratio_sum_bound; lia|].
    split; [intros H; exfalso; apply H; reflexivity|].
    intros h w Heq Hh0 Hw0 Hsmall. inversion Heq; subst h w. exfalso.
    destruct Hsmall as [Hlt|Hlt].
    + rewrite (Z.div_small height 4) in Hpos by lia. lia.
    + rewrite (Z.div_small width 4) in Hpos by lia. lia.
  - exists 0, 0. split; [reflexivity|].
    repeat split; try (unfold Qle; simpl; lia).
Qed.

(** ** The weighted scorer of [advanced_media_steganography.py] *)

Ltac decide_closed :=
  repeat match goal with
         | |- _ /\ _ => split
         | |- _ -> _ => intro
         | H : false = true |- _ => discriminate H
         | H : _ = Gt |- _ => discriminate H
         | H : _ :: _ = [] |- _ => discriminate H
         end.

Lemma image_indicators_range (chi_p : pyfloat) (entropy_val rs_reg rs_sing : Q) :
  let '(indicator_score, confidence_score, detection_methods) :=
    AdvancedMediaSteganography.image_indicators chi_p entropy_val rs_reg rs_sing in
  let confidence :=
    if Qltb 0 confidence_score then Qmin ((3 # 10) + confidence_score) 1
    else confidence_score in
  0 <= confidence /\ confidence <= 1 /\
  ((3 <=? indicator_score)%Z = true -> 6 # 10 <= confidence /\ detection_methods <> []) /\
  (detection_methods = [] -> confidence == 0).
Proof.
  unfold AdvancedMediaSteganography.image_indicators.
  destruct (flt chi_p (1 # 1000));
    [|destruct (flt chi_p (1 # 100)); [|destruct (flt chi_p (5 # 100))]];
    (destruct (Qltb (98 # 100) entropy_val);
     [|destruct (Qltb (95 # 100) entropy_val); [|destruct (Qltb (9 # 10) entropy_val)]]);
    (destruct (Qltb (Qabs (rs_reg - rs_sing)) (5 # 100));
     [|destruct (Qltb (Qabs (rs_reg - rs_sing)) (1 # 10))]);
    vm_compute; decide_closed; reflexivity.
Qed.

(** X4. The image analysis of the media module always returns a verdict;
    its confidence lies in [0, 1], and a detected verdict has a confidence of
    at least 0.6. *)
Theorem media_image_confidence_range
  (L : ExternalLib) (W : AdvancedMediaSteganography.World)
  (image_data : bytes) (log : list event) :
  exists (d : dict) (log' : list event) (detected : bool) (v : pyval) (c : Q),
    AdvancedMediaSteganography.analyze_image image_data log = (Ok d, log') /\
    dict_get "hasSteganography" d = Some (VBool detected) /\
    dict_get "confidence" d = Some v /\ as_num v = Some c /\
    0 <= c /\ c <= 1 /\
    (detected = true -> 6 # 10 <= c).
Proof.
  unfold AdvancedMediaSteganography.analyze_image, io_try, io_bind, io_lift, io_ret.
  assert (Hfail : forall (msg : string) (l : list event),
             exists (d : dict) (log' : list event) (detected : bool) (v : pyval) (c : Q),
               (Ok [("hasSteganography"%string, VBool false);
                    ("confidence"%string, VInt 0);
                    ("error"%string, VStr msg)], l) = (Ok d, log') /\
               dict_get "hasSteganography" d = Some (VBool detected) /\
               dict_get "confidence" d = Some v /\ as_num v = Some c /\
               0 <= c /\ c <= 1 /\ (detected = true -> 6 # 10 <= c)).
  { intros msg l. do 5 eexists. split; [reflexivity|].
    split; [reflexivity|]. split; [reflexivity|]. split; [reflexivity|].
    vm_compute. decide_closed. }
  destruct (AdvancedMediaSteganography.load_image_from_buffer image_data log)
    as [[image|e] log1]; [|apply Hfail].
  destruct (AdvancedMediaSteganography.np_size image =? 0)%Z; [apply Hfail|].
  destruct (AdvancedMediaSteganography.chi_square_test _) as [chi p].
  destruct (bind (AdvancedMediaSteganography.shape_at image 0) _) as [[rs_reg rs_sing]|e];
    [|apply Hfail].
  pose proof (image_indicators_range p
                (AdvancedMediaSteganography.image_entropy
                   (AdvancedMediaSteganography.extract_lsb_plane image))
                rs_reg rs_sing) as Hrange.
  destruct (AdvancedMediaSteganography.image_indicators _ _ _ _) as [[i c0] m].
  cbv zeta in Hrange. destruct Hrange as (H0 & H1 & Hdet & _).
  do 5 eexists. split; [reflexivity|].
  split; [reflexivity|]. split; [reflexivity|]. split; [reflexivity|].
  split; [exact H0|]. split; [exact H1|].
  intros Hflag. apply Hdet. exact Hflag.
Qed.

(** ** An image that does not decode *)

Lemma blank_image_gray (L : ExternalLib) :
  bgr2gray 0 0 0 = 0%Z ->
  cvtColor_BGR2GRAY (np_zeros [50; 50; 3]%Z) = Ok (np_zeros [50; 50]%Z).
Proof.
  intros Hblack. unfold cvtColor_BGR2GRAY, np_zeros. cbn [shape data Z.eqb orb].
  f_equal. f_equal.
  rewrite (map_ext _ (fun _ => 0%Z)).
  - vm_compute. reflexivity.
  - intros k. rewrite !nth_repeat. exact Hblack.
Qed.

Lemma flt_false_weaken (x : pyfloat) (a b : Q) :
  a <= b -> flt x b = false -> flt x a = false.
Proof.
  intros Hab Hb. destruct (flt x a) eqn:Ha; [|reflexivity].
  rewrite (flt_weaken x a b Hab Ha) in Hb. discriminate Hb.
Qed.

(** X5. Bytes that PIL cannot open are analysed as a blank 50 x 50 image
    and come back as a clean verdict (not detected, confidence 0) without an
    error field. *)
Theorem undecodable_image_reported_clean
  (L : ExternalLib) (W : AdvancedMediaSteganography.World)
  (image_data : bytes) (e : exn) :
  AdvancedMediaSteganography.pil_open image_data = Raise e ->
  bgr2gray 0 0 0 = 0%Z ->
  (forall x, flt (chi2_sf x 0) (5 # 100) = false) ->
  (forall n, entropy_of_counts [n] <= 9 # 10) ->
  exists (d : dict) (c : Q),
    run (AdvancedMediaSteganography.analyze_image image_data)
    = (Ok d, [ImageDecodeAttempt]) /\
    dict_get "hasSteganography" d = Some (VBool false) /\
    dict_get "confidence" d = Some (VNum c) /\ c == 0 /\
    dict_get "detectionMethods" d = Some (VList []) /\
    dict_has "error" d = false.
Proof.
  intros Hopen Hblack Hsf Hentropy.
  unfold run, AdvancedMediaSteganography.analyze_image,
    AdvancedMediaSteganography.load_image_from_buffer, io_try, io_bind, io_call, io_lift, io_ret.
  rewrite Hopen. cbn [app].
  assert (Hplane : AdvancedMediaSteganography.extract_lsb_plane (np_zeros [50; 50; 3]%Z)
                   = np_zeros [50; 50]%Z).
  { unfold AdvancedMediaSteganography.extract_lsb_plane. cbn [np_zeros shape List.length Nat.eqb].
    change {| shape := [50; 50; 3]%Z;
              data := repeat 0%Z (Z.to_nat (fold_right Z.mul 1 [50; 50; 3]))%Z |}
      with (np_zeros [50; 50; 3]%Z).
    rewrite (blank_image_gray L Hblack). cbn [bind catch]. apply np_and1_zeros. }
  rewrite Hplane. rewrite (blank_image_gray L Hblack).
  replace (AdvancedMediaSteganography.np_size (np_zeros [50; 50; 3]) =? 0)%Z with false
    by (vm_compute; reflexivity).
  assert (Hchi : exists x, AdvancedMediaSteganography.chi_square_test (np_zeros [50; 50]%Z)
                           = (Fin x, chi2_sf (Fin x) 0)).
  { eexists. vm_compute. reflexivity. }
  destruct Hchi as [x Hchi]. rewrite Hchi.
  assert (Hent : AdvancedMediaSteganography.image_entropy (np_zeros [50; 50]%Z)
                 = entropy_of_counts [2500%Z]) by (vm_compute; reflexivity).
  rewrite Hent.
  assert (Hrs : AdvancedMediaSteganography.rs_analysis (np_zeros [50; 50]%Z)
                = (inject_Z 288 / inject_Z 288, inject_Z 0 / inject_Z 288))
    by (vm_compute; reflexivity).
  cbn [AdvancedMediaSteganography.shape_at np_zeros shape nth_error bind].
  replace (50 * 50 <? 4000000)%Z with true by reflexivity.
  cbn [bind]. 
  change {| shape := [50; 50]%Z;
            data := repeat 0%Z (Z.to_nat (fold_right Z.mul 1 [50; 50]))%Z |}
    with (np_zeros [50; 50]%Z).
  rewrite Hrs.
  unfold AdvancedMediaSteganography.image_indicators.
  rewrite (flt_false_weaken _ (1 # 1000) (5 # 100) ltac:(lra) (Hsf (Fin x))).
  rewrite (flt_false_weaken _ (1 # 100) (5 # 100) ltac:(lra) (Hsf (Fin x))).
  rewrite (Hsf (Fin x)).
  pose proof (Hentropy 2500%Z) as He.
  replace (Qltb (98 # 100) (entropy_of_counts [2500%Z])) with false
    by (symmetry; apply Qltb_false; lra).
  replace (Qltb (95 # 100) (entropy_of_counts [2500%Z])) with false
    by (symmetry; apply Qltb_false; lra).
  replace (Qltb (9 # 10) (entropy_of_counts [2500%Z])) with false
    by (symmetry; apply Qltb_false; lra).
  exists [ ("hasSteganography", VBool false); ("confidence", VNum 0);
           ("chi_square_p", VFloat (chi2_sf (Fin x) 0));
           ("lsb_entropy", VNum (entropy_of_counts [2500%Z]));
           ("rs_regular", VNum (inject_Z 288 / inject_Z 288));
           ("rs_singular", VNum (inject_Z 0 / inject_Z 288));
           ("indicator_score", VInt 0);
           ("detectionMethods", VStrs []) ]%string, 0.
  split; [reflexivity|]. repeat split; reflexivity.
Qed.

Lemma undecodable_image_reported_clean_witness :
  exists (d : dict) (c : Q),
    run (@AdvancedMediaSteganography.analyze_image Examples.lib (Examples.world [] []) [])
    = (Ok d, [ImageDecodeAttempt]) /\
    dict_get "hasSteganography" d = Some (VBool false) /\
    dict_get "confidence" d = Some (VNum c) /\ c == 0 /\
    dict_get "detectionMethods" d = Some (VList []) /\
    dict_has "error" d = false.
Proof.
  apply (undecodable_image_reported_clean Examples.lib (Examples.world [] []) []
           (Exception "cannot identify image file")).
  - reflexivity.
  - reflexivity.
  - intros x. reflexivity.
  - intros n. unfold Qle. simpl. lia.
Defined.

(** ** Frame sampling *)

(** X6. The frames that [extract_frames_from_video] returns are frames of
    the stream; when the header reports more than [max_frames] frames at
    most [max_frames] are returned, otherwise the whole stream of an opened
    video, and nothing for a video that does not open. *)
Theorem sampled_frames_from_stream
  (W : AdvancedMediaSteganography.World)
  (video_path : string) (max_frames : Z) (log log' : list event) (frames : list ndarray) :
  AdvancedMediaSteganography.extract_frames_from_video video_path max_frames log
  = (Ok frames, log') ->
  let cap := AdvancedMediaSteganography.video_capture video_path in
  (forall f, In f frames -> In f (AdvancedMediaSteganography.cap_stream cap)) /\
  (AdvancedMediaSteganography.cap_isOpened cap = false -> frames = []) /\
  ((0 <= max_frames < AdvancedMediaSteganography.cap_frame_count cap)%Z ->
   (Z.of_nat (List.length frames) <= max_frames)%Z) /\
  (AdvancedMediaSteganography.cap_isOpened cap = true ->
   (AdvancedMediaSteganography.cap_frame_count cap <= max_frames)%Z ->
   frames = AdvancedMediaSteganography.cap_stream cap).
Proof.
  intros Hrun cap.
  split; [|split; [|split]].
  - revert Hrun.
    unfold AdvancedMediaSteganography.extract_frames_from_video,
      io_try, io_bind, io_call, io_lift, io_ret. fold cap.
    destruct (negb _).
    + intros H; inversion H; subst. intros f [].
    + destruct (max_frames <? _)%Z; intros H; inversion H; subst; [|auto].
      intros f Hin. apply in_flat_map in Hin. destruct Hin as (idx & _ & Hin).
      unfold AdvancedMediaSteganography.read_at in Hin.
      destruct (idx <? 0)%Z; [destruct Hin|].
      destruct (nth_error _ _) as [g|] eqn:Hnth; [|destruct Hin].
      destruct Hin as [<-|[]]. eapply nth_error_In. exact Hnth.
  - revert Hrun.
    unfold AdvancedMediaSteganography.extract_frames_from_video,
      io_try, io_bind, io_call, io_lift, io_ret. fold cap.
    intros Hrun Hclosed. rewrite Hclosed in Hrun. cbn [negb] in Hrun.
    inversion Hrun. reflexivity.
  - intros [H0 Hcount].
    exact (sampled_frames_bounded W video_path max_frames log log' frames H0 Hcount Hrun).
  - revert Hrun.
    unfold AdvancedMediaSteganography.extract_frames_from_video,
      io_try, io_bind, io_call, io_lift, io_ret. fold cap.
    intros Hrun Hopen Hcount. rewrite Hopen in Hrun. cbn [negb] in Hrun.
    apply Z.ltb_ge in Hcount. rewrite Hcount in Hrun. inversion Hrun. reflexivity.
Qed.

Lemma sampled_frames_from_stream_witness :
  let W := Examples.world_of Examples.counted_capture Examples.no_ffmpeg (fun _ => Ok []) in
  exists frames : list ndarray,
    fst (run (@AdvancedMediaSteganography.extract_frames_from_video W "clip.avi" 10))
    = Ok frames /\
    (forall f, In f frames -> In f Examples.frames_8_of_24) /\
    (Z.of_nat (List.length frames) <= 10)%Z.
Proof.
  cbv zeta.
  destruct (extract_frames_total
              (Examples.world_of Examples.counted_capture Examples.no_ffmpeg (fun _ => Ok []))
              "clip.avi" 10 []) as [frames Hrun].
  exists frames. unfold run. rewrite Hrun. split; [reflexivity|].
  destruct (sampled_frames_from_stream
              (Examples.world_of Examples.counted_capture Examples.no_ffmpeg (fun _ => Ok []))
              "clip.avi" 10 [] _ frames Hrun) as (Hin & _ & Hlen & _).
  split; [exact Hin|]. apply Hlen. cbn. lia.
Defined.

(** ** Video verdicts *)

(** X7. A video that does not open is answered with the error verdict "No
    frames could be extracted from video"; its audio track is not looked at
    (no temporary file, no ffmpeg run). *)
Theorem unopened_video_verdict
  (L : ExternalLib) (W : AdvancedMediaSteganography.World) (video_path : string) :
  AdvancedMediaSteganography.cap_isOpened
    (AdvancedMediaSteganography.video_capture video_path) = false ->
  run (AdvancedMediaSteganography.analyze_video video_path)
  = (Ok [ ("hasSteganography", VBool false);
          ("confidence", VInt 0);
          ("error", VStr "No frames could be extracted from video") ]%string,
     [VideoOpenAttempt video_path]).
Proof.
  intros Hclosed.
  unfold run, AdvancedMediaSteganography.analyze_video,
    AdvancedMediaSteganography.extract_frames_from_video,
    io_try, io_bind, io_call, io_lift, io_ret.
  rewrite Hclosed. reflexivity.
Qed.

Lemma unopened_video_verdict_witness :
  run (@AdvancedMediaSteganography.analyze_video Examples.lib
         (Examples.world_of Examples.closed_capture Examples.no_ffmpeg (fun _ => Ok []))
         "broken.mp4")
  = (Ok [ ("hasSteganography", VBool false);
          ("confidence", VInt 0);
          ("error", VStr "No frames could be extracted from video") ]%string,
     [VideoOpenAttempt "broken.mp4"]).
Proof.
  apply (unopened_video_verdict Examples.lib
           (Examples.world_of Examples.closed_capture Examples.no_ffmpeg (fun _ => Ok []))
           "broken.mp4").
  reflexivity.
Defined.

Lemma frame_loop_counts (L : ExternalLib) (frames : list ndarray) :
  (0 <= suspicious_frames frames <= Z.of_nat (List.length frames))%Z.
Proof.
  unfold suspicious_frames, AdvancedMediaSteganography.frame_loop.
  assert (H : forall (st : Z * list pyfloat * list Q),
             (fst (fst st)
              <= fst (fst (fold_left AdvancedMediaSteganography.frame_step frames st))
              <= fst (fst st) + Z.of_nat (List.length frames))%Z).
  { induction frames as [|f fs IH]; intros st.
    - simpl. lia.
    - cbn [fold_left List.length].
      specialize (IH (AdvancedMediaSteganography.frame_step st f)).
      assert (Hstep : (fst (fst st)
                       <= fst (fst (AdvancedMediaSteganography.frame_step st f))
                       <= fst (fst st) + 1)%Z).
      { destruct st as [[s cps] es]. unfold AdvancedMediaSteganography.frame_step.
        destruct (AdvancedMediaSteganography.chi_square_test _) as [chi p].
        destruct (flt p (5 # 100) || _); cbn [fst]; lia. }
      lia. }
  specialize (H (0%Z, [], [])). cbn [fst] in H. lia.
Qed.

Lemma video_bands_range (r : Q) :
  0 <= r -> r <= 1 ->
  0 <= snd (AdvancedMediaSteganography.video_bands r) /\
  snd (AdvancedMediaSteganography.video_bands r) <= 1.
Proof.
  intros H0 H1. unfold AdvancedMediaSteganography.video_bands.
  destruct (Qltb (5 # 10) r) eqn:E5; thresholds; [cbn [snd]; lra|].
  destruct (Qltb (3 # 10) r) eqn:E3; thresholds; [cbn [snd]; lra|].
  destruct (Qltb (1 # 10) r) eqn:E1; thresholds; cbn [snd]; lra.
Qed.

Lemma audio_confidence_range
  (L : ExternalLib) (W : AdvancedMediaSteganography.World)
  (audio_path : string) (log : list event) :
  exists (d : dict) (log' : list event) (q : Q),
    AdvancedMediaSteganography.analyze_audio_lsb audio_path log = (Ok d, log') /\
    as_num (AdvancedMediaSteganography.dict_get_default "confidence" (VInt 0) d) = Some q /\
    0 <= q /\ q <= 1.
Proof.
  unfold AdvancedMediaSteganography.analyze_audio_lsb, io_try, io_bind, io_call.
  destruct (AdvancedMediaSteganography.audio_samples audio_path) as [samples|e].
  - destruct (AdvancedMediaSteganography.chi_square_test _) as [chi p].
    unfold AdvancedMediaSteganography.audio_bands.
    repeat match goal with
           | |- context [if ?b then _ else _] => destruct b
           end;
      (do 3 eexists; split; [reflexivity|]; split; [reflexivity|];
       vm_compute; decide_closed).
  - do 3 eexists. split; [reflexivity|]. split; [reflexivity|]. vm_compute. decide_closed.
Qed.

Lemma video_audio_confidence_range
  (L : ExternalLib) (W : AdvancedMediaSteganography.World)
  (video_path : string) (log : list event) :
  exists (a : option dict) (log' : list event),
    AdvancedMediaSteganography.video_audio video_path log = (Ok a, log') /\
    (forall d, a = Some d ->
       exists q : Q,
         as_num (AdvancedMediaSteganography.dict_get_default "confidence" (VInt 0) d)
         = Some q /\ 0 <= q /\ q <= 1).
Proof.
  unfold AdvancedMediaSteganography.video_audio,
    AdvancedMediaSteganography.extract_audio_from_video, io_try, io_bind, io_call, io_ret.
  destruct (AdvancedMediaSteganography.tmp_name ".wav") as [p|e].
  2: { eexists; eexists; split; [reflexivity|]. intros d H; discriminate H. }
  destruct (AdvancedMediaSteganography.ffmpeg_run video_path p) as [[]|e].
  2: { eexists; eexists; split; [reflexivity|]. intros d H; discriminate H. }
  destruct (truthy (VStr p)).
  2: { eexists; eexists; split; [reflexivity|]. intros d H; discriminate H. }
  destruct (audio_confidence_range L W p
              ((log ++ [TempFileNamed ".wav"]) ++ [FfmpegRun video_path p]))
    as (d & log' & q & Hrun & Hq).
  rewrite Hrun.
  destruct (AdvancedMediaSteganography.path_exists p).
  - destruct (AdvancedMediaSteganography.unlink p) as [[]|e];
      (eexists; eexists; split; [reflexivity|];
       intros d' H; inversion H; subst; exists q; exact Hq).
  - eexists; eexists; split; [reflexivity|].
    intros d' H; inversion H; subst; exists q; exact Hq.
Qed.

(** X8. Every video analysis ends in a verdict whose confidence lies in
    [0, 1]; a verdict without error counts at least one analysed frame and
    no more suspicious frames than analysed ones. *)
Theorem video_confidence_range
  (L : ExternalLib) (W : AdvancedMediaSteganography.World)
  (video_path : string) (log : list event) :
  exists (d : dict) (log' : list event) (v : pyval) (c : Q),
    AdvancedMediaSteganography.analyze_video video_path log = (Ok d, log') /\
    dict_get "confidence" d = Some v /\ as_num v = Some c /\
    0 <= c /\ c <= 1 /\
    (dict_has "error" d = false ->
     exists s n : Z,
       dict_get "suspiciousFrames" d = Some (VInt s) /\
       dict_get "framesAnalyzed" d = Some (VInt n) /\
       (0 <= s <= n)%Z /\ (0 < n)%Z).
Proof.
  unfold AdvancedMediaSteganography.analyze_video, io_try, io_bind, io_lift, io_ret.
  assert (Hfail : forall (msg : string) (l : list event),
             exists (d : dict) (log' : list event) (v : pyval) (c : Q),
               (Ok [("hasSteganography"%string, VBool false);
                    ("confidence"%string, VInt 0);
                    ("error"%string, VStr msg)], l) = (Ok d, log') /\
               dict_get "confidence" d = Some v /\ as_num v = Some c /\ 0 <= c /\ c <= 1 /\
               (dict_has "error" d = false ->
                exists s n : Z,
                  dict_get "suspiciousFrames" d = Some (VInt s) /\
                  dict_get "framesAnalyzed" d = Some (VInt n) /\
                  (0 <= s <= n)%Z /\ (0 < n)%Z)).
  { intros msg l. do 4 eexists. split; [reflexivity|].
    split; [reflexivity|]. split; [reflexivity|].
    split; [vm_compute; decide_closed|]. split; [vm_compute; decide_closed|].
    intros H; discriminate H. }
  destruct (AdvancedMediaSteganography.extract_frames_from_video video_path 10 log)
    as [[frames|e] log1]; [|apply Hfail].
  destruct frames as [|f fs] eqn:Hf; [apply Hfail|]. rewrite <- Hf.
  pose proof (frame_loop_counts L frames) as Hcount. unfold suspicious_frames in Hcount.
  destruct (AdvancedMediaSteganography.frame_loop frames) as [[s cps] es].
  cbn [fst] in Hcount.
  destruct (video_audio_confidence_range L W video_path log1)
    as (audio & log2 & Haudio & Hnum).
  rewrite Haudio.
  assert (Hlen : (0 < Z.of_nat (List.length frames))%Z) by (subst frames; simpl; lia).
  assert (Hratio : 0 <= inject_Z s / inject_Z (Z.of_nat (List.length frames)) /\
                   inject_Z s / inject_Z (Z.of_nat (List.length frames)) <= 1)
    by (apply ratio_bounds; lia).
  destruct Hratio as [Hr0 Hr1].
  pose proof (video_bands_range _ Hr0 Hr1) as [Hb0 Hb1].
  destruct (AdvancedMediaSteganography.video_bands _) as [h c0]. cbn [snd] in Hb0, Hb1.
  assert (Hframes : exists s' n : Z,
             Some (VInt s) = Some (VInt s') /\
             Some (VInt (Z.of_nat (List.length frames))) = Some (VInt n) /\
             (0 <= s' <= n)%Z /\ (0 < n)%Z).
  { exists s, (Z.of_nat (List.length frames)). repeat split; try reflexivity; lia. }
  unfold AdvancedMediaSteganography.blend_audio.
  destruct audio as [a|].
  - destruct (truthy (VDict a) && _).
    + destruct (Hnum a eq_refl) as (q & Hq & Hq0 & Hq1).
      unfold AdvancedMediaSteganography.num_of. rewrite Hq. cbn [bind].
      do 4 eexists. split; [reflexivity|]. split; [reflexivity|]. split; [reflexivity|].
      split; [apply Q.min_glb; [apply Qle_shift_div_l; lra | lra]|].
      split; [apply Q.le_min_r|]. intros _. exact Hframes.
    + do 4 eexists. split; [reflexivity|]. split; [reflexivity|]. split; [reflexivity|].
      split; [apply Q.min_glb; lra|]. split; [apply Q.le_min_r|]. intros _. exact Hframes.
  - do 4 eexists. split; [reflexivity|]. split; [reflexivity|]. split; [reflexivity|].
    split; [apply Q.min_glb; lra|]. split; [apply Q.le_min_r|]. intros _. exact Hframes.
Qed.

(** ** What the dispatcher does outside: temporary files and decoders *)

Lemma dict_get_set_same (k : string) (v : pyval) (d : dict) :
  dict_get k (dict_set k v d) = Some v.
Proof.
  induction d as [|[k0 v0] r IH]; simpl.
  - now rewrite String.eqb_refl.
  - destruct (String.eqb_spec k k0) as [E|E]; simpl.
    + subst k0. now rewrite String.eqb_refl.
    + destruct (String.eqb_spec k k0); [contradiction | exact IH].
Qed.

Lemma analyze_audio_lsb_log
  (L : ExternalLib) (W : AdvancedMediaSteganography.World)
  (audio_path : string) (log : list event) :
  exists d : dict,
    AdvancedMediaSteganography.analyze_audio_lsb audio_path log
    = (Ok d, log ++ [AudioDecodeAttempt audio_path]).
Proof.
  unfold AdvancedMediaSteganography.analyze_audio_lsb, io_try, io_bind, io_call.
  destruct (AdvancedMediaSteganography.audio_samples audio_path) as [samples|e].
  - destruct (AdvancedMediaSteganography.chi_square_test _) as [chi p].
    destruct (AdvancedMediaSteganography.audio_bands p _) as [s c].
    eexists. reflexivity.
  - eexists. reflexivity.
Qed.

Lemma load_image_from_buffer_log
  (W : AdvancedMediaSteganography.World) (image_data : bytes) (log : list event) :
  exists image : ndarray,
    AdvancedMediaSteganography.load_image_from_buffer image_data log
    = (Ok image, log ++ [ImageDecodeAttempt]).
Proof.
  unfold AdvancedMediaSteganography.load_image_from_buffer,
    io_try, io_bind, io_lift, io_ret, io_call.
  destruct (AdvancedMediaSteganography.pil_open image_data) as [[mode img]|e].
  - destruct (String.eqb mode "RGBA"); destruct (cvtColor_RGB2BGR img);
      eexists; reflexivity.
  - eexists; reflexivity.
Qed.

Lemma media_analyze_image_log
  (L : ExternalLib) (W : AdvancedMediaSteganography.World)
  (image_data : bytes) (log : list event) :
  exists d : dict,
    AdvancedMediaSteganography.analyze_image image_data log
    = (Ok d, log ++ [ImageDecodeAttempt]).
Proof.
  unfold AdvancedMediaSteganography.analyze_image, io_try, io_bind, io_lift, io_ret.
  destruct (load_image_from_buffer_log W image_data log) as (image & Hload).
  rewrite Hload.
  destruct (AdvancedMediaSteganography.np_size image =? 0)%Z; [eexists; reflexivity|].
  destruct (AdvancedMediaSteganography.chi_square_test _) as [chi p].
  destruct (bind (AdvancedMediaSteganography.shape_at image 0) _)
    as [[rs_reg rs_sing]|e]; [|eexists; reflexivity].
  destruct (AdvancedMediaSteganography.image_indicators _ _ _ _) as [[i c] m].
  eexists; reflexivity.
Qed.

Lemma video_audio_log
  (L : ExternalLib) (W : AdvancedMediaSteganography.World)
  (video_path : string) (log : list event) :
  exists (a : option dict) (evs : list event),
    AdvancedMediaSteganography.video_audio video_path log = (Ok a, log ++ evs).
Proof.
  unfold AdvancedMediaSteganography.video_audio,
    AdvancedMediaSteganography.extract_audio_from_video, io_try, io_bind, io_call, io_ret.
  destruct (AdvancedMediaSteganography.tmp_name ".wav") as [p|e];
    [|eexists; eexists; reflexivity].
  destruct (AdvancedMediaSteganography.ffmpeg_run video_path p) as [[]|e];
    [|eexists; eexists; rewrite <- app_assoc; reflexivity].
  destruct (truthy (VStr p)); [|eexists; eexists; rewrite <- app_assoc; reflexivity].
  destruct (analyze_audio_lsb_log L W p
              ((log ++ [TempFileNamed ".wav"]) ++ [FfmpegRun video_path p])) as (d & Hrun).
  rewrite Hrun.
  destruct (AdvancedMediaSteganography.path_exists p).
  - destruct (AdvancedMediaSteganography.unlink p) as [[]|e];
      (eexists; eexists; rewrite <- !app_assoc; reflexivity).
  - eexists; eexists; rewrite <- !app_assoc; reflexivity.
Qed.

Lemma analyze_video_log
  (L : ExternalLib) (W : AdvancedMediaSteganography.World)
  (video_path : string) (log : list event) :
  exists (d : dict) (evs : list event),
    AdvancedMediaSteganography.analyze_video video_path log = (Ok d, log ++ evs).
Proof.
  unfold AdvancedMediaSteganography.analyze_video, io_try, io_bind, io_lift, io_ret.
  destruct (extract_frames_total W video_path 10 log) as [frames Hframes].
  rewrite Hframes.
  destruct frames as [|f fs]; [eexists; eexists; reflexivity|].
  destruct (AdvancedMediaSteganography.frame_loop (f :: fs)) as [[s cps] es].
  destruct (video_audio_log L W video_path (log ++ [VideoOpenAttempt video_path]))
    as (audio & evs & Haudio).
  rewrite Haudio.
  destruct (AdvancedMediaSteganography.blend_audio _ audio) as [[h c]|e];
    (eexists; eexists; rewrite <- app_assoc; reflexivity).
Qed.

(** X9. The dispatcher removes the temporary file it wrote for an audio or
    video upload: when that file exists after the analysis, the last thing
    done is its unlink, whatever the verdict; and the verdict carries the
    media type of the extension. *)
Theorem dispatcher_removes_temp_file
  (L : ExternalLib) (W : AdvancedMediaSteganography.World)
  (file_data : bytes) (file_name temp_path : string) :
  let ext := lower (splitext_ext file_name) in
  str_in ext (AdvancedMediaSteganography.AUDIO_EXTENSIONS
              ++ AdvancedMediaSteganography.VIDEO_EXTENSIONS) = true ->
  AdvancedMediaSteganography.tmp_write file_data ext = Ok temp_path ->
  truthy (VStr temp_path) = true ->
  AdvancedMediaSteganography.path_exists temp_path = true ->
  exists (d : dict) (evs : list event),
    run (AdvancedMediaSteganography.detect_media_steganography file_data file_name)
    = (Ok d, (TempFileWritten ext :: evs) ++ [Unlinked temp_path]) /\
    dict_get "mediaType" d
    = Some (VStr (if str_in ext AdvancedMediaSteganography.AUDIO_EXTENSIONS
                  then "audio" else "video")).
Proof.
  intros ext Hext Htmp Hpath Hexists.
  unfold run, AdvancedMediaSteganography.detect_media_steganography, io_try, io_bind, io_ret,
    AdvancedMediaSteganography.save_buffer_to_temp_file, io_call.
  fold ext. unfold str_in in Hext. rewrite existsb_app in Hext. fold (str_in ext) in Hext.
  fold (str_in ext AdvancedMediaSteganography.AUDIO_EXTENSIONS) in Hext.
  fold (str_in ext AdvancedMediaSteganography.VIDEO_EXTENSIONS) in Hext.
  destruct (str_in ext AdvancedMediaSteganography.AUDIO_EXTENSIONS) eqn:Haudio.
  - rewrite Htmp. cbn [app].
    destruct (analyze_audio_lsb_log L W temp_path [TempFileWritten ext]) as (d & Hrun).
    rewrite Hrun, Hpath, Hexists. cbn [andb].
    destruct (AdvancedMediaSteganography.unlink temp_path) as [[]|e];
      (eexists; exists [AudioDecodeAttempt temp_path];
       split; [reflexivity | apply dict_get_set_same]).
  - cbn [orb] in Hext. rewrite Hext, Htmp. cbn [app].
    destruct (analyze_video_log L W temp_path [TempFileWritten ext]) as (d & evs & Hrun).
    rewrite Hrun, Hpath, Hexists. cbn [andb].
    destruct (AdvancedMediaSteganography.unlink temp_path) as [[]|e];
      (eexists; exists evs; split; [reflexivity | apply dict_get_set_same]).
Qed.

Lemma dispatcher_removes_temp_file_witness :
  exists (d : dict) (evs : list event),
    run (@AdvancedMediaSteganography.detect_media_steganography Examples.lib
           (Examples.world [] Examples.samples_90_10) [] "voice.WAV")
    = (Ok d, (TempFileWritten ".wav" :: evs) ++ [Unlinked "/tmp/tmpfile.wav"]) /\
    dict_get "mediaType" d = Some (VStr "audio").
Proof.
  apply (dispatcher_removes_temp_file Examples.lib (Examples.world [] Examples.samples_90_10)
           [] "voice.WAV" "/tmp/tmpfile.wav"); reflexivity.
Defined.

(** X10. An image upload is analysed from memory: the dispatcher makes one
    decode attempt, writes and removes no file, and labels the verdict as an
    image. *)
Theorem dispatcher_image_in_memory
  (L : ExternalLib) (W : AdvancedMediaSteganography.World)
  (file_data : bytes) (file_name : string) :
  let ext := lower (splitext_ext file_name) in
  str_in ext AdvancedMediaSteganography.AUDIO_EXTENSIONS = false ->
  str_in ext AdvancedMediaSteganography.VIDEO_EXTENSIONS = false ->
  str_in ext AdvancedMediaSteganography.IMAGE_EXTENSIONS = true ->
  exists d : dict,
    run (AdvancedMediaSteganography.detect_media_steganography file_data file_name)
    = (Ok d, [ImageDecodeAttempt]) /\
    dict_get "mediaType" d = Some (VStr "image").
Proof.
  intros ext Ha Hv Hi.
  unfold run, AdvancedMediaSteganography.detect_media_steganography, io_try, io_bind, io_ret.
  fold ext. rewrite Ha, Hv, Hi.
  destruct (media_analyze_image_log L W file_data []) as (d & Hrun).
  rewrite Hrun. eexists. split; [reflexivity | apply dict_get_set_same].
Qed.

Lemma dispatcher_image_in_memory_witness :
  exists d : dict,
    run (@AdvancedMediaSteganography.detect_media_steganography Examples.lib
           (Examples.world [] []) [] "photo.JPG")
    = (Ok d, [ImageDecodeAttempt]) /\
    dict_get "mediaType" d = Some (VStr "image").
Proof.
  apply (dispatcher_image_in_memory Examples.lib (Examples.world [] []) [] "photo.JPG");
    reflexivity.
Defined.

(** X11. The audio track of a video goes through a temporary wav file that
    is always created; it is removed exactly when ffmpeg succeeded (and the
    file is still there), so a failed ffmpeg run leaves it behind, and then
    the video is judged without its audio. *)
Theorem extracted_audio_file_cleanup
  (L : ExternalLib) (W : AdvancedMediaSteganography.World)
  (video_path audio_path : string) (log : list event) :
  AdvancedMediaSteganography.tmp_name ".wav" = Ok audio_path ->
  exists (audio_result : option dict) (evs : list event),
    AdvancedMediaSteganography.video_audio video_path log
    = (Ok audio_result, log ++ TempFileNamed ".wav" :: evs) /\
    (In (Unlinked audio_path) evs <->
       AdvancedMediaSteganography.ffmpeg_run video_path audio_path = Ok tt /\
       truthy (VStr audio_path) = true /\
       AdvancedMediaSteganography.path_exists audio_path = true) /\
    (audio_result = None <->
       AdvancedMediaSteganography.ffmpeg_run video_path audio_path <> Ok tt \/
       truthy (VStr audio_path) = false).
Proof.
  intros Hname.
  unfold AdvancedMediaSteganography.video_audio,
    AdvancedMediaSteganography.extract_audio_from_video, io_try, io_bind, io_call, io_ret.
  rewrite Hname.
  destruct (AdvancedMediaSteganography.ffmpeg_run video_path audio_path) as [[]|e].
  2: { exists None, [FfmpegRun video_path audio_path].
       rewrite <- app_assoc. split; [reflexivity|]. split.
       - split; [intros [H|[]]; discriminate H | intros (H & _); discriminate H].
       - split; [intros _; left; discriminate | reflexivity]. }
  destruct (truthy (VStr audio_path)) eqn:Htruthy.
  2: { exists None, [FfmpegRun video_path audio_path].
       rewrite <- app_assoc. split; [reflexivity|]. split.
       - split; [intros [H|[]]; discriminate H | intros (_ & H & _); discriminate H].
       - split; [intros _; right; reflexivity | reflexivity]. }
  destruct (analyze_audio_lsb_log L W audio_path
              ((log ++ [TempFileNamed ".wav"]) ++ [FfmpegRun video_path audio_path]))
    as (d & Hrun).
  rewrite Hrun.
  destruct (AdvancedMediaSteganography.path_exists audio_path).
  - exists (Some d),
      [FfmpegRun video_path audio_path; AudioDecodeAttempt audio_path; Unlinked audio_path].
    split.
    + destruct (AdvancedMediaSteganography.unlink audio_path) as [[]|e];
        rewrite <- !app_assoc; reflexivity.
    + split.
      * split; [intros _; repeat split | intros _; simpl; auto].
      * split; [discriminate | intros [H|H]; [now contradiction H | discriminate H]].
  - exists (Some d), [FfmpegRun video_path audio_path; AudioDecodeAttempt audio_path].
    split; [rewrite <- !app_assoc; reflexivity|]. split.
    + split; [intros [H|[H|[]]]; discriminate H | intros (_ & _ & H); discriminate H].
    + split; [discriminate | intros [H|H]; [now contradiction H | discriminate H]].
Qed.

Lemma extracted_audio_file_cleanup_witness :
  exists (audio_result : option dict) (evs : list event),
    @AdvancedMediaSteganography.video_audio Examples.lib
      (Examples.world_of Examples.counted_capture Examples.no_ffmpeg (fun _ => Ok []))
      "/tmp/clip.mp4" []
    = (Ok audio_result, [] ++ TempFileNamed ".wav" :: evs) /\
    (In (Unlinked "/tmp/tmpaudio.wav") evs <->
       Examples.no_ffmpeg "/tmp/clip.mp4" "/tmp/tmpaudio.wav" = Ok tt /\
       truthy (VStr "/tmp/tmpaudio.wav") = true /\ true = true) /\
    (audio_result = None <->
       Examples.no_ffmpeg "/tmp/clip.mp4" "/tmp/tmpaudio.wav" <> Ok tt \/
       truthy (VStr "/tmp/tmpaudio.wav") = false).
Proof.
  apply (extracted_audio_file_cleanup Examples.lib
           (Examples.world_of Examples.counted_capture Examples.no_ffmpeg (fun _ => Ok []))
           "/tmp/clip.mp4" "/tmp/tmpaudio.wav" []).
  reflexivity.
Defined.

(** ** The multi-method service *)

Lemma Zsum_map_nonneg {A : Type} (f : A -> Z) (l : list A) :
  (forall x, (0 <= f x)%Z) -> (0 <= Zsum (map f l))%Z.
Proof.
  intros Hf. induction l as [|a r IH]; unfold Zsum in *; simpl; [lia|].
  specialize (Hf a). lia.
Qed.

Lemma bits_sum_bounds (l : list Z) :
  Forall (fun v => 0 <= v <= 1)%Z l -> (0 <= Zsum l <= Z.of_nat (List.length l))%Z.
Proof.
  induction 1 as [|v r Hv _ IH]; unfold Zsum in *; simpl List.length; simpl fold_right; lia.
Qed.

Lemma channel_lsbs_bits (pixels : ndarray) (h w channel : Z) :
  Forall (fun v => 0 <= v <= 1)%Z (SteganographyService.channel_lsbs pixels h w channel).
Proof.
  apply Forall_forall. intros v Hin.
  unfold SteganographyService.channel_lsbs in Hin.
  apply in_flat_map in Hin. destruct Hin as (row & _ & Hin).
  apply in_map_iff in Hin. destruct Hin as (col & Hv & _). subst v.
  unfold SteganographyService.lsb_at.
  pose proof (Z.mod_pos_bound
                (nth (Z.to_nat ((row * w + col) * 3 + channel)) (data pixels) 0) 2)%Z.
  lia.
Qed.

Lemma channel_lsbs_length (pixels : ndarray) (h w channel : Z) :
  (0 <= h)%Z -> (0 <= w)%Z ->
  Z.of_nat (List.length (SteganographyService.channel_lsbs pixels h w channel)) = (h * w)%Z.
Proof.
  intros Hh Hw. unfold SteganographyService.channel_lsbs.
  assert (G : forall rows : list Z,
             List.length (flat_map (fun row => map (fun col =>
                 SteganographyService.lsb_at pixels w row col channel) (py_range 0 w 1)) rows)
             = (List.length rows * Z.to_nat w)%nat).
  { induction rows as [|r rs IH]; simpl; [reflexivity|].
    rewrite length_app, length_map, py_range_length, IH.
    replace ((w - 0 + 1 - 1) / 1)%Z with w by (rewrite Z.div_1_r; lia). reflexivity. }
  rewrite G, py_range_length.
  replace ((h - 0 + 1 - 1) / 1)%Z with h by (rewrite Z.div_1_r; lia). nia.
Qed.

Lemma Qmax_list_range (b : Q) (l : list Q) :
  0 <= b -> Forall (fun x => 0 <= x /\ x <= b) l ->
  0 <= SteganographyService.Qmax_list l /\ SteganographyService.Qmax_list l <= b.
Proof.
  intros Hb. induction 1 as [|x r [Hx0 Hxb] _ [IH0 IHb]];
    unfold SteganographyService.Qmax_list in *; simpl.
  - split; [lra | exact Hb].
  - split.
    + apply Qle_trans with x; [exact Hx0 | apply Q.le_max_l].
    + apply Q.max_lub; assumption.
Qed.

Lemma Qsum_nonneg (l : list Q) : Forall (fun x => 0 <= x) l -> 0 <= Qsum l.
Proof.
  induction 1 as [|x r Hx _ IH]; unfold Qsum in *; simpl; lra.
Qed.

Lemma share_anomaly_range (s n : Z) :
  (0 <= s <= n)%Z -> (0 < n)%Z ->
  0 <= Qabs (inject_Z s / inject_Z n - (1 # 2)) /\
  Qabs (inject_Z s / inject_Z n - (1 # 2)) <= 1 # 2.
Proof.
  intros Hs Hn. split; [apply Qabs_nonneg|].
  assert (Hn' : 0 < inject_Z n) by (change 0 with (inject_Z 0); rewrite <- Zlt_Qlt; lia).
  assert (H0 : 0 <= inject_Z s / inject_Z n).
  { apply Qle_shift_div_l; [exact Hn'|]. rewrite Qmult_0_l.
    change 0 with (inject_Z 0). rewrite <- Zle_Qle. lia. }
  assert (H1 : inject_Z s / inject_Z n <= 1).
  { apply Qle_shift_div_r; [exact Hn'|]. rewrite Qmult_1_l. rewrite <- Zle_Qle. lia. }
  apply Qabs_Qle_condition. split; lra.
Qed.

Lemma chi_square_value_nonneg (a b e : Q) :
  0 < e -> 0 <= (a - e) * (a - e) / e + (b - e) * (b - e) / e.
Proof.
  intros He.
  assert (Hsq : forall x : Q, 0 <= x * x / e).
  { intros x. apply Qle_shift_div_l; [exact He|]. rewrite Qmult_0_l. nra. }
  pose proof (Hsq (a - e)). pose proof (Hsq (b - e)). lra.
Qed.

Lemma lsb_score_range (m c t : Q) :
  0 <= m -> m <= 1 # 2 -> 0 <= c -> 0 <= t ->
  let final_score :=
    m * (4 # 10) + Qmin 1 (c / 20) * (4 # 10) + Qmax 0 ((6 # 10) - t) * 2 * (2 # 10) in
  0 <= final_score /\ final_score <= 84 # 100.
Proof.
  intros Hm0 Hm1 Hc Ht. cbv zeta.
  assert (Hc0 : 0 <= Qmin 1 (c / 20)).
  { apply Q.min_glb; [lra|]. apply Qle_shift_div_l; lra. }
  assert (Hc1 : Qmin 1 (c / 20) <= 1) by apply Q.le_min_l.
  assert (Ht0 : 0 <= Qmax 0 ((6 # 10) - t)) by apply Q.le_max_l.
  assert (Ht1 : Qmax 0 ((6 # 10) - t) <= 6 # 10) by (apply Q.max_lub; lra).
  split; lra.
Qed.

(** X12. The LSB method of the service never reaches its own cap: whenever
    the decoded array has non-negative dimensions, its confidence lies
    between 0 and 0.85 (the three weighted scores add up to 0.84 at most, up
    to the rounding of the sum), well below the 0.95 of
    [min(0.95, final_score)], and it reports a detection exactly when that
    confidence exceeds 0.5. *)
Theorem detect_lsb_confidence_range
  (T : SteganographyService.Tools) (image_data : bytes) :
  (forall pixels width height,
      SteganographyService.pil_open_rgb image_data = Ok (pixels, width, height) ->
      Forall (fun n => 0 <= n)%Z (shape pixels)) ->
  exists (c : Q) (detected : bool),
    dict_get "confidence" (SteganographyService.detect_lsb image_data) = Some (VNum c) /\
    dict_get "detected" (SteganographyService.detect_lsb image_data)
    = Some (VBool detected) /\
    0 <= c /\ c <= 85 # 100 /\
    (detected = true <-> 1 # 2 < c).
Proof.
  intros Hshape.
  assert (Hfail : forall e : exn,
             exists (c : Q) (detected : bool),
               dict_get "confidence" (SteganographyService.error_result e) = Some (VNum c) /\
               dict_get "detected" (SteganographyService.error_result e)
               = Some (VBool detected) /\
               0 <= c /\ c <= 85 # 100 /\ (detected = true <-> 1 # 2 < c)).
  { intros e. exists 0, false. split; [reflexivity|]. split; [reflexivity|].
    split; [lra|]. split; [lra|]. split; [discriminate | lra]. }
  unfold SteganographyService.detect_lsb.
  destruct (SteganographyService.pil_open_rgb image_data) as [[[pixels width] height]|e];
    [|apply Hfail].
  specialize (Hshape pixels width height eq_refl).
  cbn [bind].
  destruct (shape pixels) as [|h [|w rest]]; cbn [nth_error bind catch];
    [apply Hfail | apply Hfail |].
  inversion Hshape as [|? ? Hh Hrest]; subst.
  inversion Hrest as [|? ? Hw _]; subst.
  unfold py_truediv.
  destruct (h * w * 3 =? 0)%Z eqn:Hzero; [apply Hfail|].
  cbn [bind catch].
  apply Z.eqb_neq in Hzero.
  assert (Hhw : (0 < h * w)%Z) by nia.
  match goal with
  | |- context [Qmin (95 # 100) ?f] => set (final_score := f)
  end.
  assert (Hrange : 0 <= final_score /\ final_score <= 84 # 100).
  { subst final_score. apply lsb_score_range.
    - apply (Qmax_list_range (1 # 2)); [lra|].
      rewrite !Forall_map. apply Forall_forall. intros channel _.
      apply share_anomaly_range; [|exact Hhw].
      rewrite <- (channel_lsbs_length pixels h w channel Hh Hw).
      apply bits_sum_bounds, channel_lsbs_bits.
    - apply (Qmax_list_range (1 # 2)); [lra|].
      rewrite !Forall_map. apply Forall_forall. intros channel _.
      apply share_anomaly_range; [|exact Hhw].
      rewrite <- (channel_lsbs_length pixels h w channel Hh Hw).
      apply bits_sum_bounds, channel_lsbs_bits.
    - apply Qle_shift_div_l; [lra|]. rewrite Qmult_0_l.
      apply Qsum_nonneg. rewrite Forall_map. apply Forall_forall. intros channel _.
      apply chi_square_value_nonneg.
      apply Qlt_shift_div_l; [lra|]. rewrite Qmult_0_l.
      change 0 with (inject_Z 0). rewrite <- Zlt_Qlt. exact Hhw.
    - apply Qle_shift_div_l.
      + change 0 with (inject_Z 0). rewrite <- Zlt_Qlt. lia.
      + rewrite Qmult_0_l. change 0 with (inject_Z 0). rewrite <- Zle_Qle.
        apply Zsum_map_nonneg. intros channel.
        apply Zsum_map_nonneg. intros row.
        apply Zsum_map_nonneg. intros col.
        destruct (_ =? _)%Z; lia. }
  destruct Hrange as [H0 H1].
  exists (Qmin (95 # 100) final_score), (Qltb (5 # 10) final_score).
  split; [reflexivity|]. split; [reflexivity|].
  split; [apply Q.min_glb; lra|].
  split; [apply Qle_trans with final_score; [apply Q.le_min_r | lra]|].
  split.
  - intros Hd. apply Qltb_true in Hd. apply Q.min_glb_lt; lra.
  - intros Hc. apply Qltb_true.
    apply Qlt_le_trans with (Qmin (95 # 100) final_score); [lra | apply Q.le_min_r].
Qed.

Lemma detect_lsb_confidence_range_witness :
  exists (c : Q) (detected : bool),
    dict_get "confidence"
      (@SteganographyService.detect_lsb Examples.tools_without_java [])
    = Some (VNum c) /\
    dict_get "detected"
      (@SteganographyService.detect_lsb Examples.tools_without_java [])
    = Some (VBool detected) /\
    0 <= c /\ c <= 85 # 100 /\
    (detected = true <-> 1 # 2 < c).
Proof.
  apply (detect_lsb_confidence_range Examples.tools_without_java []).
  intros pixels width height H. injection H as <- _ _.
  repeat constructor; simpl; lia.
Defined.

Lemma Zsum_map_zero {A : Type} (f : A -> Z) (l : list A) :
  (forall x, f x = 0%Z) -> Zsum (map f l) = 0%Z.
Proof.
  intros Hf. induction l as [|a r IH]; unfold Zsum in *; simpl; [reflexivity|].
  rewrite Hf, IH. reflexivity.
Qed.

Lemma zeros_counts (l : list Z) :
  Forall (fun v => v = 0%Z) l ->
  Zsum l = 0%Z /\
  SteganographyService.count_eq 0 l = Z.of_nat (List.length l) /\
  SteganographyService.count_eq 1 l = 0%Z.
Proof.
  unfold SteganographyService.count_eq.
  induction 1 as [|v r Hv _ (IH0 & IH1 & IH2)]; [repeat split|].
  subst v. unfold Zsum in *. cbn [fold_right filter Z.eqb List.length].
  repeat split; [lia | | exact IH2].
  cbn [List.length]. lia.
Qed.

Lemma even_pixels_lsb (pixels : ndarray) (w row col channel : Z) :
  Forall (fun v => Z.even v = true) (data pixels) ->
  SteganographyService.lsb_at pixels w row col channel = 0%Z.
Proof.
  intros Heven. unfold SteganographyService.lsb_at.
  set (k := Z.to_nat ((row * w + col) * 3 + channel)).
  assert (H : Z.even (nth k (data pixels) 0%Z) = true).
  { destruct (nth_in_or_default k (data pixels) 0%Z) as [Hin|Hd].
    - rewrite Forall_forall in Heven. apply Heven, Hin.
    - rewrite Hd. reflexivity. }
  rewrite Zmod_even, H. reflexivity.
Qed.

Lemma even_pixels_channel (pixels : ndarray) (h w channel : Z) :
  Forall (fun v => Z.even v = true) (data pixels) ->
  Forall (fun v => v = 0%Z) (SteganographyService.channel_lsbs pixels h w channel).
Proof.
  intros Heven. apply Forall_forall. intros v Hin.
  unfold SteganographyService.channel_lsbs in Hin.
  apply in_flat_map in Hin. destruct Hin as (row & _ & Hin).
  apply in_map_iff in Hin. destruct Hin as (col & Hv & _). subst v.
  apply even_pixels_lsb, Heven.
Qed.

Lemma uniform_score (a0 a1 a2 c0 c1 c2 t : Q) :
  a0 == 1 # 2 -> a1 == 1 # 2 -> a2 == 1 # 2 ->
  20 <= c0 -> 20 <= c1 -> 20 <= c2 -> t == 0 ->
  SteganographyService.Qmax_list [a0; a1; a2] * (4 # 10)
  + Qmin 1 (Qsum [c0; c1; c2] / 3 / 20) * (4 # 10)
  + Qmax 0 ((6 # 10) - t) * 2 * (2 # 10) == 84 # 100.
Proof.
  intros Ha0 Ha1 Ha2 Hc0 Hc1 Hc2 Ht.
  unfold SteganographyService.Qmax_list, Qsum. cbn [fold_right].
  set (m := Qmax a0 (Qmax a1 (Qmax a2 0))).
  assert (Hm : m == 1 # 2).
  { apply Qle_antisym.
    - subst m. repeat apply Q.max_lub; lra.
    - apply Qle_trans with a0; [lra | apply Q.le_max_l]. }
  set (c := Qmin 1 ((c0 + (c1 + (c2 + 0))) / 3 / 20)).
  assert (Hc : c == 1).
  { apply Qle_antisym; [apply Q.le_min_l|].
    apply Q.min_glb; [lra|].
    apply Qle_shift_div_l; [lra|]. apply Qle_shift_div_l; lra. }
  set (s := Qmax 0 ((6 # 10) - t)).
  assert (Hs : s == 6 # 10).
  { apply Qle_antisym.
    - subst s. apply Q.max_lub; lra.
    - apply Qle_trans with ((6 # 10) - t); [lra | apply Q.le_max_r]. }
  rewrite Hm, Hc, Hs. reflexivity.
Qed.

(** X13. An image whose pixel values are all even, for instance a
    single-colour image, with at least 20 pixels is reported by the LSB
    method with its highest score: detected, with a confidence between 0.8
    and 0.85 (the three weighted scores add up to 0.84, up to the rounding of
    the sum), which is in the range where the service consults no tool. *)
Theorem even_image_flagged_by_lsb
  (T : SteganographyService.Tools) (image_data : bytes)
  (pixels : ndarray) (width height h w : Z) :
  SteganographyService.pil_open_rgb image_data = Ok (pixels, width, height) ->
  shape pixels = [h; w; 3%Z] ->
  (0 <= h)%Z -> (0 <= w)%Z -> (20 <= h * w)%Z ->
  Forall (fun v => Z.even v = true) (data pixels) ->
  exists c : Q,
    dict_get "confidence" (SteganographyService.detect_lsb image_data) = Some (VNum c) /\
    8 # 10 <= c /\ c <= 85 # 100 /\
    dict_get "detected" (SteganographyService.detect_lsb image_data) = Some (VBool true) /\
    dict_has "error" (SteganographyService.detect_lsb image_data) = false.
Proof.
  intros Hopen Hshape Hh Hw Hsize Heven.
  unfold SteganographyService.detect_lsb.
  rewrite Hopen. cbn [bind]. rewrite Hshape. cbn [nth_error bind catch].
  unfold py_truediv.
  destruct (h * w * 3 =? 0)%Z eqn:Hzero; [apply Z.eqb_eq in Hzero; lia|].
  cbn [bind catch].
  assert (Hn : 20 <= inject_Z (h * w)).
  { change 20 with (inject_Z 20). rewrite <- Zle_Qle. exact Hsize. }
  assert (Hn3 : 0 < inject_Z (h * w * 3)).
  { change 0 with (inject_Z 0). rewrite <- Zlt_Qlt. lia. }
  match goal with
  | |- context [Qmin (95 # 100) ?f] => set (final_score := f)
  end.
  assert (Hscore : final_score == 84 # 100).
  { subst final_score. cbn [map].
    assert (Hch : forall channel,
               Zsum (SteganographyService.channel_lsbs pixels h w channel) = 0%Z /\
               SteganographyService.count_eq 0
                 (SteganographyService.channel_lsbs pixels h w channel) = (h * w)%Z /\
               SteganographyService.count_eq 1
                 (SteganographyService.channel_lsbs pixels h w channel) = 0%Z).
    { intros channel.
      destruct (zeros_counts _ (even_pixels_channel pixels h w channel Heven))
        as (H0 & H1 & H2).
      rewrite channel_lsbs_length in H1 by assumption. auto. }
    destruct (Hch 0%Z) as (-> & -> & ->).
    destruct (Hch 1%Z) as (-> & -> & ->).
    destruct (Hch 2%Z) as (-> & -> & ->).
    assert (Ha : Qabs (inject_Z 0 / inject_Z (h * w) - (1 # 2)) == 1 # 2).
    { assert (E : inject_Z 0 / inject_Z (h * w) - (1 # 2) == - (1 # 2)) by (field; lra).
      rewrite E. reflexivity. }
    assert (Hc : 20 <=
                 (inject_Z (h * w) - inject_Z (h * w) / 2)
                 * (inject_Z (h * w) - inject_Z (h * w) / 2) / (inject_Z (h * w) / 2)
                 + (inject_Z 0 - inject_Z (h * w) / 2)
                   * (inject_Z 0 - inject_Z (h * w) / 2) / (inject_Z (h * w) / 2)).
    { assert (E : (inject_Z (h * w) - inject_Z (h * w) / 2)
                  * (inject_Z (h * w) - inject_Z (h * w) / 2) / (inject_Z (h * w) / 2)
                  + (inject_Z 0 - inject_Z (h * w) / 2)
                    * (inject_Z 0 - inject_Z (h * w) / 2) / (inject_Z (h * w) / 2)
                  == inject_Z (h * w)) by (field; lra).
      rewrite E. exact Hn. }
    apply uniform_score; try exact Ha; try exact Hc.
    assert (Htr : forall channel,
               Zsum (map (fun row =>
                 Zsum (map (fun col =>
                   if (SteganographyService.lsb_at pixels w row col channel
                       =? SteganographyService.lsb_at pixels w row (col + 1) channel)%Z
                   then 0%Z else 1%Z) (py_range 0 (w - 1) 1)))
                 (py_range 0 h 1)) = 0%Z).
    { intros channel. apply Zsum_map_zero. intros row. apply Zsum_map_zero. intros col.
      rewrite !even_pixels_lsb by exact Heven. reflexivity. }
    rewrite !Htr. change (Zsum [0; 0; 0]%Z) with 0%Z. field. lra. }
  exists (Qmin (95 # 100) final_score).
  split; [reflexivity|].
  split; [rewrite Hscore; vm_compute; discriminate|].
  split; [rewrite Hscore; vm_compute; discriminate|].
  split; [|reflexivity].
  cbn [dict_get String.eqb Ascii.eqb Bool.eqb].
  replace (Qltb (5 # 10) final_score) with true; [reflexivity|].
  symmetry. apply Qltb_true. rewrite Hscore. reflexivity.
Qed.

Lemma even_image_flagged_by_lsb_witness :
  exists c : Q,
    dict_get "confidence" (@SteganographyService.detect_lsb Examples.tools_black_4x5 [])
    = Some (VNum c) /\
    8 # 10 <= c /\ c <= 85 # 100 /\
    dict_get "detected" (@SteganographyService.detect_lsb Examples.tools_black_4x5 [])
    = Some (VBool true) /\
    dict_has "error" (@SteganographyService.detect_lsb Examples.tools_black_4x5 []) = false.
Proof.
  apply (even_image_flagged_by_lsb Examples.tools_black_4x5 []
           {| shape := [4; 5; 3]%Z; data := repeat 0%Z 60 |} 5 4 4 5);
    try reflexivity; try lia.
  apply Forall_forall. intros v Hv. apply repeat_spec in Hv. subst v. reflexivity.
Defined.

Lemma tool_verdicts (T : SteganographyService.Tools) (image_path : string) :
  (exists (c : Q) (detected : bool),
      dict_get "confidence" (SteganographyService.detect_stegexpose image_path)
      = Some (VNum c) /\
      dict_get "detected" (SteganographyService.detect_stegexpose image_path)
      = Some (VBool detected) /\
      c <= 95 # 100 /\ (detected = true <-> 1 # 2 < c)) /\
  (exists (c : Q) (detected : bool),
      dict_get "confidence" (SteganographyService.detect_openstego image_path)
      = Some (VNum c) /\
      dict_get "detected" (SteganographyService.detect_openstego image_path)
      = Some (VBool detected) /\
      c = (if detected then 85 # 100 else 0)).
Proof.
  split.
  - assert (Hfail : forall e : exn,
               exists (c : Q) (detected : bool),
                 dict_get "confidence" (SteganographyService.error_result e) = Some (VNum c) /\
                 dict_get "detected" (SteganographyService.error_result e)
                 = Some (VBool detected) /\
                 c <= 95 # 100 /\ (detected = true <-> 1 # 2 < c)).
    { intros e. exists 0, false. split; [reflexivity|]. split; [reflexivity|].
      split; [lra|]. split; [discriminate | lra]. }
    unfold SteganographyService.detect_stegexpose.
    destruct (SteganographyService.run_stegexpose image_path) as [p|e];
      cbn [bind catch]; [|apply Hfail].
    destruct (negb (SteganographyService.returncode p =? 0)%Z); cbn [bind catch];
      [apply Hfail|].
    destruct (List.length _ <? 5)%nat; cbn [bind catch]; [apply Hfail|].
    destruct (SteganographyService.parse_float (nth 4 _ _)) as [fusion|e];
      cbn [bind catch]; [|apply Hfail].
    destruct (SteganographyService.parse_float (nth 1 _ _)) as [s1|e];
      cbn [bind catch]; [|apply Hfail].
    destruct (SteganographyService.parse_float (nth 2 _ _)) as [s2|e];
      cbn [bind catch]; [|apply Hfail].
    destruct (SteganographyService.parse_float (nth 3 _ _)) as [s3|e];
      cbn [bind catch]; [|apply Hfail].
    exists (Qmin (95 # 100) fusion), (Qltb (5 # 10) fusion).
    split; [reflexivity|]. split; [reflexivity|].
    split; [apply Q.le_min_l|]. split.
    + intros Hd. apply Qltb_true in Hd. apply Q.min_glb_lt; lra.
    + intros Hc. apply Qltb_true.
      apply Qlt_le_trans with (Qmin (95 # 100) fusion); [lra | apply Q.le_min_r].
  - unfold SteganographyService.detect_openstego.
    destruct (SteganographyService.run_openstego image_path) as [p|e]; cbn [bind catch].
    + eexists; eexists. split; [reflexivity|]. split; [reflexivity|].
      destruct (_ || _); reflexivity.
    + exists 0, false. repeat split.
Qed.

(** X14. When the LSB method is confident enough (0.8 or more) the service
    consults no external tool: the details hold the LSB result alone, the
    overall confidence is the LSB confidence, and the overall verdict and
    the list of detecting methods are those of the LSB method. *)
Theorem confident_lsb_skips_tools
  (T : SteganographyService.Tools) (image_data : bytes) (temp_path : string) (c : Q) :
  SteganographyService.tmp_write image_data = Ok temp_path ->
  dict_get "confidence" (SteganographyService.detect_lsb image_data) = Some (VNum c) ->
  8 # 10 <= c ->
  let lsb := SteganographyService.detect_lsb image_data in
  let detected := truthy (SteganographyService.get_default "detected" (VBool false) lsb) in
  let v := SteganographyService.detect_steganography image_data in
  dict_get "detailsByMethod" v = Some (VDict [("lsb_analysis"%string, VDict lsb)]) /\
  (exists c' : Q, dict_get "confidence" v = Some (VNum c') /\ c' == c) /\
  dict_get "hasSteganography" v = Some (VBool detected) /\
  dict_get "detectionMethods" v
  = Some (VStrs (if detected then ["lsb_analysis"%string] else [])) /\
  dict_has "error" v = false.
Proof.
  intros Htmp Hconf Hhigh lsb detected v. subst v detected lsb.
  unfold SteganographyService.detect_steganography, SteganographyService.finally.
  rewrite Htmp. cbn [bind catch].
  unfold SteganographyService.run_methods.
  rewrite Hconf. cbn [as_num VNum bind].
  replace (Qltb c (8 # 10)) with false
    by (symmetry; apply Qltb_false; exact Hhigh).
  cbn [bind SteganographyService.details_set].
  unfold SteganographyService.aggregate_detected, SteganographyService.aggregate_confidence.
  cbn [fold_left bind snd fst]. rewrite Hconf.
  cbn [as_num VNum bind String.eqb Ascii.eqb Bool.eqb].
  destruct (truthy (SteganographyService.get_default "detected" (VBool false)
                      (SteganographyService.detect_lsb image_data)));
    cbn [bind catch app];
    (split; [reflexivity|]; split;
     [eexists; split; [reflexivity | cbn; field]
     | split; [reflexivity | split; reflexivity]]).
Qed.

Lemma confident_lsb_skips_tools_witness :
  let lsb := @SteganographyService.detect_lsb Examples.tools_black_4x5 [] in
  let detected := truthy (SteganographyService.get_default "detected" (VBool false) lsb) in
  let v := @SteganographyService.detect_steganography Examples.tools_black_4x5 [] in
  dict_get "detailsByMethod" v = Some (VDict [("lsb_analysis"%string, VDict lsb)]) /\
  (exists c' : Q, dict_get "confidence" v = Some (VNum c') /\
                  c' == Examples.confidence_black_4x5) /\
  dict_get "hasSteganography" v = Some (VBool detected) /\
  dict_get "detectionMethods" v
  = Some (VStrs (if detected then ["lsb_analysis"%string] else [])) /\
  dict_has "error" v = false.
Proof.
  apply (confident_lsb_skips_tools Examples.tools_black_4x5 [] "/tmp/tmpimage.png"
           Examples.confidence_black_4x5).
  - reflexivity.
  - vm_compute. reflexivity.
  - vm_compute. discriminate.
Defined.

(** X15. When the LSB confidence is below 0.8 the service runs both tools,
    in this order after the LSB method, and the overall confidence is the
    mean of the three confidences with the LSB confidence counted twice;
    the overall verdict is the disjunction of the three verdicts. *)
Theorem overall_confidence_weighted_mean
  (T : SteganographyService.Tools) (image_data : bytes) (temp_path : string)
  (c : Q) (d : bool) :
  SteganographyService.tmp_write image_data = Ok temp_path ->
  dict_get "confidence" (SteganographyService.detect_lsb image_data) = Some (VNum c) ->
  dict_get "detected" (SteganographyService.detect_lsb image_data) = Some (VBool d) ->
  c < 8 # 10 ->
  let v := SteganographyService.detect_steganography image_data in
  exists (c_se c_os c' : Q) (d_se d_os : bool),
    dict_get "detailsByMethod" v
    = Some (VDict [("lsb_analysis"%string,
                     VDict (SteganographyService.detect_lsb image_data));
                   ("stegexpose"%string,
                     VDict (SteganographyService.detect_stegexpose temp_path));
                   ("openstego"%string,
                     VDict (SteganographyService.detect_openstego temp_path))]) /\
    dict_get "confidence" (SteganographyService.detect_stegexpose temp_path)
    = Some (VNum c_se) /\
    dict_get "confidence" (SteganographyService.detect_openstego temp_path)
    = Some (VNum c_os) /\
    dict_get "detected" (SteganographyService.detect_stegexpose temp_path)
    = Some (VBool d_se) /\
    dict_get "detected" (SteganographyService.detect_openstego temp_path)
    = Some (VBool d_os) /\
    dict_get "confidence" v = Some (VNum c') /\
    c' == (2 * c + c_se + c_os) / 4 /\
    dict_get "hasSteganography" v = Some (VBool (d || d_se || d_os)).
Proof.
  intros Htmp Hconf Hdet Hlow v. subst v.
  destruct (tool_verdicts T temp_path)
    as ((c_se & d_se & Hcse & Hdse & _) & (c_os & d_os & Hcos & Hdos & _)).
  exists c_se, c_os. 
  unfold SteganographyService.detect_steganography, SteganographyService.finally.
  rewrite Htmp. cbn [bind catch].
  unfold SteganographyService.run_methods.
  rewrite Hconf. cbn [as_num VNum bind].
  apply Qltb_true in Hlow. rewrite Hlow.
  cbn [bind catch SteganographyService.details_set String.eqb Ascii.eqb Bool.eqb].
  unfold SteganographyService.aggregate_detected, SteganographyService.aggregate_confidence,
    SteganographyService.get_default.
  cbn [fold_left bind snd fst].
  rewrite Hconf, Hcse, Hcos, Hdet, Hdse, Hdos.
  cbn [as_num VNum bind String.eqb Ascii.eqb Bool.eqb truthy].
  eexists. exists d_se, d_os.
  destruct d, d_se, d_os; cbn [bind catch app snd fst];
    (split; [reflexivity|]; split; [reflexivity|]; split; [reflexivity|];
     split; [reflexivity|]; split; [reflexivity|]; split; [reflexivity|];
     split; [cbn; field | reflexivity]).
Qed.

Lemma overall_confidence_weighted_mean_witness :
  let v := @SteganographyService.detect_steganography Examples.tools_without_java [] in
  exists (c_se c_os c' : Q) (d_se d_os : bool),
    dict_get "detailsByMethod" v
    = Some (VDict [("lsb_analysis"%string,
                     VDict (@SteganographyService.detect_lsb Examples.tools_without_java []));
                   ("stegexpose"%string,
                     VDict (@SteganographyService.detect_stegexpose
                              Examples.tools_without_java "/tmp/tmpimage.png"));
                   ("openstego"%string,
                     VDict (@SteganographyService.detect_openstego
                              Examples.tools_without_java "/tmp/tmpimage.png"))]) /\
    dict_get "confidence" (@SteganographyService.detect_stegexpose
                             Examples.tools_without_java "/tmp/tmpimage.png")
    = Some (VNum c_se) /\
    dict_get "confidence" (@SteganographyService.detect_openstego
                             Examples.tools_without_java "/tmp/tmpimage.png")
    = Some (VNum c_os) /\
    dict_get "detected" (@SteganographyService.detect_stegexpose
                           Examples.tools_without_java "/tmp/tmpimage.png")
    = Some (VBool d_se) /\
    dict_get "detected" (@SteganographyService.detect_openstego
                           Examples.tools_without_java "/tmp/tmpimage.png")
    = Some (VBool d_os) /\
    dict_get "confidence" v = Some (VNum c') /\
    c' == (2 * Examples.confidence_black_2x2 + c_se + c_os) / 4 /\
    dict_get "hasSteganography" v = Some (VBool (true || d_se || d_os)).
Proof.
  apply (overall_confidence_weighted_mean Examples.tools_without_java []
           "/tmp/tmpimage.png" Examples.confidence_black_2x2 true).
  - reflexivity.
  - vm_compute. reflexivity.
  - vm_compute. reflexivity.
  - vm_compute. reflexivity.
Defined.

(** ** The chi-square test on bit-planes *)

(** The table that [np.unique] builds from [a] zeros and [b] ones. *)
Lemma insert_count_bits (a b : Z) :
  (0 <= a)%Z -> (0 <= b)%Z ->
  insert_count 0 (bit_table a b) = bit_table (a + 1) b /\
  insert_count 1 (bit_table a b) = bit_table a (b + 1).
Proof.
  intros Ha Hb. unfold bit_table.
  destruct (0 <? a)%Z eqn:Ea; destruct (0 <? b)%Z eqn:Eb;
    replace (0 <? a + 1)%Z with true by (symmetry; apply Z.ltb_lt; lia);
    replace (0 <? b + 1)%Z with true by (symmetry; apply Z.ltb_lt; lia);
    try apply Z.ltb_ge in Ea; try apply Z.ltb_ge in Eb;
    try (assert (a = 0%Z) by lia; subst a);
    try (assert (b = 0%Z) by lia; subst b);
    split; reflexivity.
Qed.

Lemma np_unique_bits (flat : list Z) :
  Forall (fun v => v = 0 \/ v = 1)%Z flat ->
  np_unique flat
  = (map fst (bit_table (count_bit 0 flat) (count_bit 1 flat)),
     map snd (bit_table (count_bit 0 flat) (count_bit 1 flat))).
Proof.
  intros Hbits. unfold np_unique.
  assert (G : forall a b : Z,
             (0 <= a)%Z -> (0 <= b)%Z ->
             fold_left (fun acc v => insert_count v acc) flat (bit_table a b)
             = bit_table (a + count_bit 0 flat) (b + count_bit 1 flat)).
  { induction Hbits as [|v r Hv _ IH]; intros a b Ha Hb.
    - unfold count_bit. simpl. now rewrite !Z.add_0_r.
    - destruct (insert_count_bits a b Ha Hb) as [H0 H1].
      assert (Hc : forall u, count_bit u (v :: r)
                             = ((if (u =? v)%Z then 1 else 0) + count_bit u r)%Z).
      { intros u. unfold count_bit. cbn [filter].
        destruct (u =? v)%Z; cbn [List.length]; lia. }
      cbn [fold_left]. rewrite !Hc.
      destruct Hv as [-> | ->].
      + rewrite H0, IH by lia. cbn [Z.eqb]. f_equal; lia.
      + rewrite H1, IH by lia. cbn [Z.eqb Pos.eqb]. f_equal; lia. }
  specialize (G 0%Z 0%Z (Z.le_refl 0) (Z.le_refl 0)).
  change (bit_table 0 0) with (@nil (Z * Z)) in G. rewrite G. reflexivity.
Qed.

Lemma count_bit_total (flat : list Z) :
  Forall (fun v => v = 0 \/ v = 1)%Z flat ->
  (0 <= count_bit 0 flat)%Z /\ (0 <= count_bit 1 flat)%Z /\
  Z.of_nat (List.length flat) = (count_bit 0 flat + count_bit 1 flat)%Z.
Proof.
  unfold count_bit.
  induction 1 as [|v r Hv _ (IH0 & IH1 & IH)]; [repeat split; simpl; lia|].
  destruct Hv as [-> | ->]; cbn [filter Z.eqb Pos.eqb List.length]; lia.
Qed.

Lemma Qeq_bool_pos (d : Q) : 0 < d -> Qeq_bool d 0 = false.
Proof.
  intros Hd. destruct (Qeq_bool d 0) eqn:E; [|reflexivity].
  apply Qeq_bool_eq in E. lra.
Qed.

Lemma fdiv_pos (n d : Q) : 0 < d -> fdiv n d = Fin (n / d).
Proof. intros Hd. unfold fdiv. now rewrite Qeq_bool_pos. Qed.

Lemma sums_disagree_equal (so se : Q) : 0 < se -> so == se -> sums_disagree so se = false.
Proof.
  intros Hse Heq. unfold sums_disagree.
  assert (Hmin : 0 < Qmin so se) by (apply Q.min_glb_lt; lra).
  rewrite (fdiv_pos _ _ Hmin). apply Qltb_false.
  apply Qle_shift_div_r; [exact Hmin|].
  apply Qle_trans with 0; [|apply Qmult_le_0_compat; lra].
  apply Qabs_Qle_condition. split; lra.
Qed.

Lemma sums_disagree_double (so se : Q) : 0 < se -> so == 2 * se -> sums_disagree so se = true.
Proof.
  intros Hse Heq. unfold sums_disagree.
  assert (Hmin : 0 < Qmin so se) by (apply Q.min_glb_lt; lra).
  rewrite (fdiv_pos _ _ Hmin). apply Qltb_true.
  apply Qlt_shift_div_l; [exact Hmin|].
  pose proof (Q.le_min_r so se) as Hle.
  pose proof (Qle_Qabs (so - se)) as Habs.
  lra.
Qed.

Lemma bit_counts_Q (flat : list Z) :
  Forall (fun v => v = 0 \/ v = 1)%Z flat ->
  inject_Z (Z.of_nat (List.length flat))
  == inject_Z (count_bit 0 flat) + inject_Z (count_bit 1 flat).
Proof.
  intros Hbits. destruct (count_bit_total flat Hbits) as (_ & _ & ->).
  rewrite inject_Z_plus. reflexivity.
Qed.

Lemma inject_Z_pos (z : Z) : (0 < z)%Z -> 0 < inject_Z z.
Proof. intros Hz. change 0 with (inject_Z 0). now rewrite <- Zlt_Qlt. Qed.

Lemma legacy_chi_square_cases (L : ExternalLib) (lsb_plane : ndarray) :
  Forall (fun v => v = 0 \/ v = 1)%Z (data lsb_plane) ->
  let c0 := count_bit 0 (data lsb_plane) in
  let c1 := count_bit 1 (data lsb_plane) in
  (c0 = 0%Z /\ c1 = 0%Z ->
   AdvancedLsbDetector.chi_square_test lsb_plane
   = Raise (ValueError "shape mismatch: objects cannot be broadcast to a single shape")) /\
  ((c0 = 0%Z /\ 0 < c1)%Z \/ (0 < c0 /\ c1 = 0)%Z ->
   AdvancedLsbDetector.chi_square_test lsb_plane
   = Raise (ValueError "For each axis slice, the sum of the observed frequencies must agree with the sum of the expected frequencies")) /\
  ((0 < c0)%Z -> (0 < c1)%Z ->
   exists stat : Q,
     AdvancedLsbDetector.chi_square_test lsb_plane
     = Ok (Fin stat, chi2_sf (Fin stat) 1) /\
     stat == inject_Z ((c0 - c1) * (c0 - c1)) / inject_Z (c0 + c1)).
Proof.
  intros Hbits c0 c1.
  pose proof (bit_counts_Q _ Hbits) as Hn. fold c0 c1 in Hn.
  unfold AdvancedLsbDetector.chi_square_test, flatten.
  rewrite (np_unique_bits _ Hbits). fold c0 c1.
  set (n := inject_Z (Z.of_nat (List.length (data lsb_plane)))) in *.
  assert (Hh : n / 2 == n * (1 # 2)) by field.
  unfold bit_table.
  refine (conj _ (conj _ _)).
  - intros [-> ->]. reflexivity.
  - intros [[E0 H1] | [H0 E1]].
    + rewrite E0 in *. apply Z.ltb_lt in H1 as H1'. rewrite H1'.
      cbn [Z.ltb Z.compare app map snd]. unfold chisquare, broadcast.
      cbn [List.length repeat Nat.eqb hd bind].
      rewrite sums_disagree_double; [reflexivity | |].
      * unfold Qsum. cbn [fold_right]. apply inject_Z_pos in H1.
        change (inject_Z 0) with 0 in Hn. rewrite !Hh. lra.
      * unfold Qsum. cbn [fold_right]. change (inject_Z 0) with 0 in Hn.
        rewrite !Hh. lra.
    + rewrite E1 in *. apply Z.ltb_lt in H0 as H0'. rewrite H0'.
      cbn [Z.ltb Z.compare app map snd]. unfold chisquare, broadcast.
      cbn [List.length repeat Nat.eqb hd bind].
      rewrite sums_disagree_double; [reflexivity | |].
      * unfold Qsum. cbn [fold_right]. apply inject_Z_pos in H0.
        change (inject_Z 0) with 0 in Hn. rewrite !Hh. lra.
      * unfold Qsum. cbn [fold_right]. change (inject_Z 0) with 0 in Hn.
        rewrite !Hh. lra.
  - intros H0 H1.
    apply Z.ltb_lt in H0 as H0'. apply Z.ltb_lt in H1 as H1'. rewrite H0', H1'.
    cbn [app map snd]. unfold chisquare, broadcast.
    cbn [List.length repeat Nat.eqb hd bind].
    apply inject_Z_pos in H0. apply inject_Z_pos in H1.
    assert (Hhalf : 0 < n / 2) by (rewrite Hh; lra).
    rewrite sums_disagree_equal.
    + cbn [combine map fst snd fold_right List.length].
      rewrite !(fdiv_pos _ _ Hhalf). cbn [fadd bind].
      eexists. split; [reflexivity|].
      rewrite inject_Z_mult, inject_Z_plus.
      unfold Zminus. rewrite inject_Z_plus, inject_Z_opp.
      rewrite Hn. field. lra.
    + unfold Qsum. cbn [fold_right]. rewrite !Hh. lra.
    + unfold Qsum. cbn [fold_right]. rewrite !Hh. lra.
Qed.

(** X16. On a bit-plane the chi-square test of [advanced_lsb_detector.py]
    (and [advanced_steganography.py]) returns a result only when both bit
    values occur; the statistic is then [(c0 - c1)^2 / (c0 + c1)] at one
    degree of freedom.  On an empty plane and on every plane with a single
    bit value it raises. *)
Theorem legacy_chi_square_on_bits (L : ExternalLib) (lsb_plane : ndarray) :
  Forall (fun v => v = 0 \/ v = 1)%Z (data lsb_plane) ->
  let c0 := count_bit 0 (data lsb_plane) in
  let c1 := count_bit 1 (data lsb_plane) in
  (c0 = 0%Z /\ c1 = 0%Z ->
   AdvancedLsbDetector.chi_square_test lsb_plane
   = Raise (ValueError "shape mismatch: objects cannot be broadcast to a single shape")) /\
  ((c0 = 0%Z /\ 0 < c1)%Z \/ (0 < c0 /\ c1 = 0)%Z ->
   AdvancedLsbDetector.chi_square_test lsb_plane
   = Raise (ValueError "For each axis slice, the sum of the observed frequencies must agree with the sum of the expected frequencies")) /\
  ((0 < c0)%Z -> (0 < c1)%Z ->
   exists stat : Q,
     AdvancedLsbDetector.chi_square_test lsb_plane
     = Ok (Fin stat, chi2_sf (Fin stat) 1) /\
     stat == inject_Z ((c0 - c1) * (c0 - c1)) / inject_Z (c0 + c1)) /\
  AdvancedSteganography.chi_square_test lsb_plane
  = AdvancedLsbDetector.chi_square_test lsb_plane.
Proof.
  intros Hbits c0 c1.
  destruct (legacy_chi_square_cases L lsb_plane Hbits) as (Hempty & Hsingle & Hboth).
  refine (conj Hempty (conj Hsingle (conj Hboth _))).
  reflexivity.
Qed.

Lemma legacy_chi_square_on_bits_witness :
  let lsb_plane := {| shape := [2; 2]%Z; data := [0; 1; 1; 1]%Z |} in
  let c0 := count_bit 0 (data lsb_plane) in
  let c1 := count_bit 1 (data lsb_plane) in
  (c0 = 0%Z /\ c1 = 0%Z ->
   @AdvancedLsbDetector.chi_square_test Examples.lib lsb_plane
   = Raise (ValueError "shape mismatch: objects cannot be broadcast to a single shape")) /\
  ((c0 = 0%Z /\ 0 < c1)%Z \/ (0 < c0 /\ c1 = 0)%Z ->
   @AdvancedLsbDetector.chi_square_test Examples.lib lsb_plane
   = Raise (ValueError "For each axis slice, the sum of the observed frequencies must agree with the sum of the expected frequencies")) /\
  ((0 < c0)%Z -> (0 < c1)%Z ->
   exists stat : Q,
     @AdvancedLsbDetector.chi_square_test Examples.lib lsb_plane
     = Ok (Fin stat, @chi2_sf Examples.lib (Fin stat) 1) /\
     stat == inject_Z ((c0 - c1) * (c0 - c1)) / inject_Z (c0 + c1)) /\
  @AdvancedSteganography.chi_square_test Examples.lib lsb_plane
  = @AdvancedLsbDetector.chi_square_test Examples.lib lsb_plane.
Proof.
  apply (legacy_chi_square_on_bits Examples.lib
           {| shape := [2; 2]%Z; data := [0; 1; 1; 1]%Z |}).
  simpl.
  repeat first [ apply Forall_nil
               | apply Forall_cons; [first [left; reflexivity | right; reflexivity]|] ].
Defined.

(** X17. The chi-square test of [advanced_media_steganography.py] returns
    a result on every bit-plane: its fallback [(0, 1.0)] on an empty plane;
    a statistic of 0 without a degree of freedom on a plane with a single
    bit value (the expected count is then the observed one); and
    [(c0 - c1)^2 / (c0 + c1)] at one degree of freedom when both values
    occur. *)
Theorem media_chi_square_on_bits (L : ExternalLib) (lsb_plane : ndarray) :
  Forall (fun v => v = 0 \/ v = 1)%Z (data lsb_plane) ->
  let c0 := count_bit 0 (data lsb_plane) in
  let c1 := count_bit 1 (data lsb_plane) in
  (c0 = 0%Z /\ c1 = 0%Z ->
   AdvancedMediaSteganography.chi_square_test lsb_plane = (Fin 0, Fin 1)) /\
  ((c0 = 0%Z /\ 0 < c1)%Z \/ (0 < c0 /\ c1 = 0)%Z ->
   exists stat : Q,
     AdvancedMediaSteganography.chi_square_test lsb_plane
     = (Fin stat, chi2_sf (Fin stat) 0) /\
     stat == 0) /\
  ((0 < c0)%Z -> (0 < c1)%Z ->
   exists stat : Q,
     AdvancedMediaSteganography.chi_square_test lsb_plane
     = (Fin stat, chi2_sf (Fin stat) 1) /\
     stat == inject_Z ((c0 - c1) * (c0 - c1)) / inject_Z (c0 + c1)).
Proof.
  intros Hbits c0 c1.
  pose proof (bit_counts_Q _ Hbits) as Hn. fold c0 c1 in Hn.
  unfold AdvancedMediaSteganography.chi_square_test, flatten.
  rewrite (np_unique_bits _ Hbits). fold c0 c1.
  set (n := Z.of_nat (List.length (data lsb_plane))) in *.
  unfold bit_table, py_truediv.
  assert (H1 : inject_Z n / inject_Z 1 == inject_Z n) by (field; discriminate).
  assert (H2 : inject_Z n / inject_Z 2 == inject_Z n * (1 # 2)) by (field; discriminate).
  refine (conj _ (conj _ _)).
  - intros [-> ->]. reflexivity.
  - intros [[E0 Hc1] | [Hc0 E1]].
    + rewrite E0 in *. apply Z.ltb_lt in Hc1 as Hc1'. rewrite Hc1'.
      cbn [Z.ltb Z.compare app map fst snd List.length Z.of_nat Pos.of_succ_nat Z.eqb
           bind catch repeat].
      unfold chisquare, broadcast. cbn [List.length repeat Nat.eqb hd bind].
      apply inject_Z_pos in Hc1. change (inject_Z 0) with 0 in Hn.
      assert (He : 0 < inject_Z n / inject_Z 1) by (rewrite H1; lra).
      rewrite sums_disagree_equal.
      * cbn [combine map fst snd fold_right List.length].
        rewrite (fdiv_pos _ _ He). cbn [fadd bind catch].
        eexists. split; [reflexivity|]. rewrite H1, Hn. field. lra.
      * unfold Qsum. cbn [fold_right]. lra.
      * unfold Qsum. cbn [fold_right]. rewrite H1. lra.
    + rewrite E1 in *. apply Z.ltb_lt in Hc0 as Hc0'. rewrite Hc0'.
      cbn [Z.ltb Z.compare app map fst snd List.length Z.of_nat Pos.of_succ_nat Z.eqb
           bind catch repeat].
      unfold chisquare, broadcast. cbn [List.length repeat Nat.eqb hd bind].
      apply inject_Z_pos in Hc0. change (inject_Z 0) with 0 in Hn.
      assert (He : 0 < inject_Z n / inject_Z 1) by (rewrite H1; lra).
      rewrite sums_disagree_equal.
      * cbn [combine map fst snd fold_right List.length].
        rewrite (fdiv_pos _ _ He). cbn [fadd bind catch].
        eexists. split; [reflexivity|]. rewrite H1, Hn. field. lra.
      * unfold Qsum. cbn [fold_right]. lra.
      * unfold Qsum. cbn [fold_right]. rewrite H1. lra.
  - intros Hc0 Hc1.
    apply Z.ltb_lt in Hc0 as Hc0'. apply Z.ltb_lt in Hc1 as Hc1'. rewrite Hc0', Hc1'.
    cbn [app map fst snd List.length Z.of_nat Pos.of_succ_nat Pos.succ Z.eqb
         bind catch repeat].
    unfold chisquare, broadcast. cbn [List.length repeat Nat.eqb hd bind].
    apply inject_Z_pos in Hc0. apply inject_Z_pos in Hc1.
    assert (He : 0 < inject_Z n / inject_Z 2) by (rewrite H2; lra).
    rewrite sums_disagree_equal.
    + cbn [combine map fst snd fold_right List.length].
      rewrite !(fdiv_pos _ _ He). cbn [fadd bind catch].
      eexists. split; [reflexivity|].
      rewrite inject_Z_mult, inject_Z_plus.
      unfold Zminus. rewrite inject_Z_plus, inject_Z_opp.
      rewrite H2, Hn. field. lra.
    + unfold Qsum. cbn [fold_right]. lra.
    + unfold Qsum. cbn [fold_right]. rewrite !H2. lra.
Qed.

Lemma media_chi_square_on_bits_witness :
  let lsb_plane := {| shape := [2; 2]%Z; data := [0; 1; 1; 1]%Z |} in
  let c0 := count_bit 0 (data lsb_plane) in
  let c1 := count_bit 1 (data lsb_plane) in
  (c0 = 0%Z /\ c1 = 0%Z ->
   @AdvancedMediaSteganography.chi_square_test Examples.lib lsb_plane = (Fin 0, Fin 1)) /\
  ((c0 = 0%Z /\ 0 < c1)%Z \/ (0 < c0 /\ c1 = 0)%Z ->
   exists stat : Q,
     @AdvancedMediaSteganography.chi_square_test Examples.lib lsb_plane
     = (Fin stat, @chi2_sf Examples.lib (Fin stat) 0) /\
     stat == 0) /\
  ((0 < c0)%Z -> (0 < c1)%Z ->
   exists stat : Q,
     @AdvancedMediaSteganography.chi_square_test Examples.lib lsb_plane
     = (Fin stat, @chi2_sf Examples.lib (Fin stat) 1) /\
     stat == inject_Z ((c0 - c1) * (c0 - c1)) / inject_Z (c0 + c1)).
Proof.
  apply (media_chi_square_on_bits Examples.lib
           {| shape := [2; 2]%Z; data := [0; 1; 1; 1]%Z |}).
  simpl.
  repeat first [ apply Forall_nil
               | apply Forall_cons; [first [left; reflexivity | right; reflexivity]|] ].
Defined.

Lemma np_and1_bits (a : ndarray) :
  Forall (fun v => v = 0 \/ v = 1)%Z (data (np_and1 a)).
Proof.
  unfold np_and1. cbn [data]. apply Forall_forall. intros v Hin.
  apply in_map_iff in Hin. destruct Hin as (u & <- & _).
  replace (Z.land u 1) with (u mod 2)%Z by (symmetry; apply (Z.land_ones u 1); lia).
  pose proof (Z.mod_pos_bound u 2)%Z. lia.
Qed.

(** X18. Once the image is decoded, [analyze_image] of
    [advanced_lsb_detector.py] ends in its error verdict exactly when one of
    the two bit values is missing from the bit-plane of the gray image: an
    image whose gray values are all even, or all odd, cannot be analysed. *)
Theorem legacy_analysis_needs_both_bits
  (L : ExternalLib) (D : AdvancedLsbDetector.Decoder)
  (image_data : bytes) (img lsb : ndarray) (img_format : string) :
  AdvancedLsbDetector.load_image_as_array image_data = Ok (img, img_format) ->
  AdvancedLsbDetector.extract_lsb_plane img = Ok lsb ->
  (dict_has "error" (AdvancedLsbDetector.analyze_image image_data) = true <->
   count_bit 0 (data lsb) = 0%Z \/ count_bit 1 (data lsb) = 0%Z) /\
  (dict_has "error" (AdvancedLsbDetector.analyze_image image_data) = true ->
   dict_get "detected" (AdvancedLsbDetector.analyze_image image_data)
   = Some (VBool false)).
Proof.
  intros Hload Hlsb.
  unfold AdvancedLsbDetector.analyze_image, AdvancedLsbDetector.run_battery.
  rewrite Hload. cbn [bind].
  unfold AdvancedLsbDetector.extract_lsb_plane in Hlsb.
  destruct (cvtColor_BGR2GRAY img) as [gray|e] eqn:Hgray; [|discriminate Hlsb].
  cbn [bind] in Hlsb. injection Hlsb as <-.
  unfold AdvancedLsbDetector.extract_lsb_plane. rewrite Hgray. cbn [bind].
  pose proof (np_and1_bits gray) as Hbits.
  destruct (count_bit_total _ Hbits) as (H0 & H1 & _).
  destruct (legacy_chi_square_cases L (np_and1 gray) Hbits) as (Hempty & Hsingle & Hboth).
  destruct (Z.eq_dec (count_bit 0 (data (np_and1 gray))) 0) as [E0|N0];
    [|destruct (Z.eq_dec (count_bit 1 (data (np_and1 gray))) 0) as [E1|N1]].
  - assert (Hraise : exists e, AdvancedLsbDetector.chi_square_test (np_and1 gray) = Raise e).
    { destruct (Z.eq_dec (count_bit 1 (data (np_and1 gray))) 0) as [E1|N1].
      - eexists. apply Hempty. split; assumption.
      - eexists. apply Hsingle. left. split; [assumption | lia]. }
    destruct Hraise as (e & ->). cbn [bind catch].
    split; [split; [intros _; left; exact E0 | reflexivity] | reflexivity].
  - assert (Hraise : exists e, AdvancedLsbDetector.chi_square_test (np_and1 gray) = Raise e).
    { eexists. apply Hsingle. right. split; [lia | assumption]. }
    destruct Hraise as (e & ->). cbn [bind catch].
    split; [split; [intros _; right; exact E1 | reflexivity] | reflexivity].
  - destruct Hboth as (stat & -> & _); [lia | lia |]. cbn [bind].
    destruct (cvtColor_BGR2GRAY_shape L img gray Hgray) as (h & w & c & _ & Hshape).
    unfold AdvancedLsbDetector.rs_analysis. rewrite Hshape.
    destruct (AdvancedLsbDetector.rs_loop gray h w) as [[total regular] singular].
    cbn [bind]. destruct (AdvancedLsbDetector.score_battery _) as [suspicious confidence].
    cbn [catch]. split.
    + split; [intros H; discriminate H | intros [E|E]; contradiction].
    + intros H; discriminate H.
Qed.

Lemma legacy_analysis_needs_both_bits_witness :
  let lsb := {| shape := [2; 2]%Z; data := [0; 0; 0; 0]%Z |} in
  (dict_has "error"
     (@AdvancedLsbDetector.analyze_image Examples.lib Examples.black_decoder []) = true <->
   count_bit 0 (data lsb) = 0%Z \/ count_bit 1 (data lsb) = 0%Z) /\
  (dict_has "error"
     (@AdvancedLsbDetector.analyze_image Examples.lib Examples.black_decoder []) = true ->
   dict_get "detected"
     (@AdvancedLsbDetector.analyze_image Examples.lib Examples.black_decoder [])
   = Some (VBool false)).
Proof.
  apply (legacy_analysis_needs_both_bits Examples.lib Examples.black_decoder []
           (Examples.gray_image 2 2 [0; 0; 0; 0]%Z)
           {| shape := [2; 2]%Z; data := [0; 0; 0; 0]%Z |} "png");
    reflexivity.
Defined.

(** ** Sampling the frames of a video *)

Lemma linspace_index_range (frame_count max_frames : Z) (k : nat) :
  (1 <= frame_count)%Z -> (Z.of_nat k < max_frames)%Z ->
  let idx := Qfloor (inject_Z 0 + inject_Z (Z.of_nat k)
                     * (inject_Z (frame_count - 1 - 0) / inject_Z (max_frames - 1))) in
  (0 <= idx <= frame_count - 1)%Z.
Proof.
  intros Hfc Hk idx. subst idx.
  set (x := inject_Z 0 + inject_Z (Z.of_nat k)
            * (inject_Z (frame_count - 1 - 0) / inject_Z (max_frames - 1))).
  assert (Hx : 0 <= x /\ x <= inject_Z (frame_count - 1)).
  { subst x. change (inject_Z 0) with 0.
    replace (frame_count - 1 - 0)%Z with (frame_count - 1)%Z by lia.
    assert (Hk0 : 0 <= inject_Z (Z.of_nat k))
      by (change 0 with (inject_Z 0); rewrite <- Zle_Qle; lia).
    assert (Hf0 : 0 <= inject_Z (frame_count - 1))
      by (change 0 with (inject_Z 0); rewrite <- Zle_Qle; lia).
    destruct (Z.eq_dec max_frames 1) as [E|E].
    - assert (k = 0%nat) by lia. subst k. cbn [Z.of_nat] in *.
      change (inject_Z 0) with 0 in *.
      assert (E0 : 0 + 0 * (inject_Z (frame_count - 1) / inject_Z (max_frames - 1)) == 0)
        by ring.
      rewrite E0. split; lra.
    - assert (Hm : 0 < inject_Z (max_frames - 1)) by (apply inject_Z_pos; lia).
      assert (Hkm : inject_Z (Z.of_nat k) <= inject_Z (max_frames - 1))
        by (rewrite <- Zle_Qle; lia).
      set (a := inject_Z (Z.of_nat k)) in *.
      set (f := inject_Z (frame_count - 1)) in *.
      set (m := inject_Z (max_frames - 1)) in *.
      assert (Hq : 0 <= f / m) by (apply Qle_shift_div_l; lra).
      split.
      + assert (0 <= a * (f / m)) by (apply Qmult_le_0_compat; assumption). lra.
      + assert (Ha : a * (f / m) <= m * (f / m))
          by (apply Qmult_le_compat_r; assumption).
        assert (Hmf : m * (f / m) == f) by (field; lra).
        lra. }
  destruct Hx as [Hx0 Hx1]. split.
  - apply (Qfloor_resp_le 0 x) in Hx0. exact Hx0.
  - apply Qfloor_resp_le in Hx1. rewrite Qfloor_Z in Hx1. exact Hx1.
Qed.

Lemma read_in_range (cap : AdvancedMediaSteganography.capture) (indices : list Z) :
  Forall (fun i => 0 <= i < Z.of_nat (List.length (AdvancedMediaSteganography.cap_stream cap)))%Z
         indices ->
  flat_map (fun idx => match AdvancedMediaSteganography.read_at cap idx with
                       | Some frame => [frame]
                       | None => []
                       end) indices
  = map (fun idx => nth (Z.to_nat idx) (AdvancedMediaSteganography.cap_stream cap)
                        (np_zeros [])) indices.
Proof.
  induction 1 as [|i r Hi _ IH]; [reflexivity|].
  cbn [flat_map map]. rewrite IH.
  unfold AdvancedMediaSteganography.read_at.
  replace (i <? 0)%Z with false by (symmetry; apply Z.ltb_ge; lia).
  rewrite (nth_error_nth' _ (np_zeros [])) by lia.
  reflexivity.
Qed.

(** X19. When the header of a video reports the true number of frames and
    that number exceeds [max_frames], the sample holds exactly [max_frames]
    frames; it starts with the first frame of the video and, for two frames
    or more, ends with the last one. *)
Theorem sample_with_accurate_header
  (W : AdvancedMediaSteganography.World) (video_path : string) (max_frames : Z)
  (log : list event) :
  let cap := AdvancedMediaSteganography.video_capture video_path in
  let stream := AdvancedMediaSteganography.cap_stream cap in
  AdvancedMediaSteganography.cap_isOpened cap = true ->
  AdvancedMediaSteganography.cap_frame_count cap = Z.of_nat (List.length stream) ->
  (0 <= max_frames < AdvancedMediaSteganography.cap_frame_count cap)%Z ->
  exists frames : list ndarray,
    AdvancedMediaSteganography.extract_frames_from_video video_path max_frames log
    = (Ok frames, log ++ [VideoOpenAttempt video_path]) /\
    Z.of_nat (List.length frames) = max_frames /\
    ((1 <= max_frames)%Z -> nth_error frames 0 = nth_error stream 0) /\
    ((2 <= max_frames)%Z ->
     nth_error frames (Z.to_nat (max_frames - 1))
     = nth_error stream (List.length stream - 1)).
Proof.
  intros cap stream Hopen Hcount Hmax.
  unfold AdvancedMediaSteganography.extract_frames_from_video,
    io_try, io_bind, io_call, io_ret, io_lift.
  fold cap. rewrite Hopen. cbn [negb].
  replace (max_frames <? AdvancedMediaSteganography.cap_frame_count cap)%Z with true
    by (symmetry; apply Z.ltb_lt; lia).
  set (n := AdvancedMediaSteganography.cap_frame_count cap) in *.
  assert (Hrange : Forall (fun i => 0 <= i < Z.of_nat (List.length stream))%Z
                          (AdvancedMediaSteganography.np_linspace_int 0 (n - 1) max_frames)).
  { apply Forall_forall. intros i Hin.
    unfold AdvancedMediaSteganography.np_linspace_int in Hin.
    apply in_map_iff in Hin. destruct Hin as (k & <- & Hk).
    apply in_seq in Hk.
    pose proof (linspace_index_range n max_frames k) as H. cbv zeta in H.
    rewrite <- Hcount. lia. }
  rewrite (read_in_range cap _ Hrange). fold stream.
  eexists. split; [reflexivity|].
  unfold AdvancedMediaSteganography.np_linspace_int.
  rewrite !length_map, length_seq.
  split; [lia|]. split.
  - intros H1.
    destruct (Z.to_nat max_frames) as [|m] eqn:Em; [lia|].
    cbn [seq map nth_error].
    replace (Qfloor _) with 0%Z.
    + cbn [Z.to_nat]. destruct stream as [|f fs]; [cbn in Hcount; lia | reflexivity].
    + symmetry. apply Z.le_antisymm.
      * assert (E : inject_Z 0 + inject_Z (Z.of_nat 0)
                    * (inject_Z (n - 1 - 0) / inject_Z (max_frames - 1)) == 0)
          by (cbn [Z.of_nat]; change (inject_Z 0) with 0; ring).
        rewrite E. reflexivity.
      * apply (linspace_index_range n max_frames 0); lia.
  - intros H2.
    rewrite map_map.
    rewrite nth_error_map.
    rewrite (nth_error_nth' _ 0%nat) by (rewrite length_seq; lia).
    rewrite seq_nth by lia. cbn [option_map Nat.add].
    rewrite Z2Nat.id by lia.
    assert (E : inject_Z 0 + inject_Z (max_frames - 1)
                * (inject_Z (n - 1 - 0) / inject_Z (max_frames - 1))
                == inject_Z (n - 1)).
    { replace (n - 1 - 0)%Z with (n - 1)%Z by lia. change (inject_Z 0) with 0.
      assert (Hm : 0 < inject_Z (max_frames - 1)) by (apply inject_Z_pos; lia).
      field. lra. }
    rewrite E, Qfloor_Z.
    replace (Z.to_nat (n - 1)) with (List.length stream - 1)%nat by lia.
    symmetry. apply nth_error_nth'. lia.
Qed.

Lemma sample_with_accurate_header_witness :
  exists frames : list ndarray,
    @AdvancedMediaSteganography.extract_frames_from_video
      (Examples.world_of Examples.counted_capture Examples.no_ffmpeg (fun _ => Ok []))
      "/tmp/clip.mp4" 10 []
    = (Ok frames, [] ++ [VideoOpenAttempt "/tmp/clip.mp4"]) /\
    Z.of_nat (List.length frames) = 10%Z /\
    ((1 <= 10)%Z -> nth_error frames 0 = nth_error Examples.frames_8_of_24 0) /\
    ((2 <= 10)%Z ->
     nth_error frames (Z.to_nat (10 - 1))
     = nth_error Examples.frames_8_of_24 (List.length Examples.frames_8_of_24 - 1)).
Proof.
  apply (sample_with_accurate_header
           (Examples.world_of Examples.counted_capture Examples.no_ffmpeg (fun _ => Ok []))
           "/tmp/clip.mp4" 10 []).
  - reflexivity.
  - reflexivity.
  - simpl. lia.
Defined.

(** ** The Node.js wrapper *)

Lemma io_bind_assoc {A B C : Type} (c : IO A) (k : A -> IO B) (k' : B -> IO C)
  (log : list event) :
  io_bind (io_bind c k) k' log = io_bind c (fun a => io_bind (k a) k') log.
Proof.
  unfold io_bind. destruct (c log) as [[a|e] l]; reflexivity.
Qed.

Lemma framed_ret {A : Type} (a : A) : framed (io_ret a).
Proof. intros log. unfold io_ret. cbn. now rewrite app_nil_r. Qed.

Lemma framed_lift {A : Type} (r : result A) : framed (io_lift r).
Proof. intros log. unfold io_lift. cbn. now rewrite app_nil_r. Qed.

Lemma framed_call {A : Type} (ev : event) (outcome : result A) : framed (io_call ev outcome).
Proof. intros log. reflexivity. Qed.

Lemma framed_bind {A B : Type} (c : IO A) (k : A -> IO B) :
  framed c -> (forall a, framed (k a)) -> framed (io_bind c k).
Proof.
  intros Hc Hk log. unfold io_bind. rewrite (Hc log).
  destruct (c []) as [[a|e] l0]; cbn [fst snd]; [|reflexivity].
  rewrite (Hk a (log ++ l0)), (Hk a l0). cbn [fst snd]. now rewrite app_assoc.
Qed.

Lemma framed_try {A : Type} (c : IO A) (h : exn -> IO A) :
  framed c -> (forall e, framed (h e)) -> framed (io_try c h).
Proof.
  intros Hc Hh log. unfold io_try. rewrite (Hc log).
  destruct (c []) as [[a|e] l0]; cbn [fst snd]; [reflexivity|].
  rewrite (Hh e (log ++ l0)), (Hh e l0). cbn [fst snd]. now rewrite app_assoc.
Qed.

Ltac frame_step :=
  first
    [ apply framed_ret | apply framed_lift | apply framed_call
    | apply framed_bind; [|intros ?] | apply framed_try; [|intros ?]
    | match goal with
      | |- framed (if ?b then _ else _) => destruct b
      | |- framed (match ?x with _ => _ end) => destruct x
      end
    | progress cbv zeta ].

Lemma analyze_audio_lsb_framed
  (L : ExternalLib) (W : AdvancedMediaSteganography.World) (audio_path : string) :
  framed (AdvancedMediaSteganography.analyze_audio_lsb audio_path).
Proof. unfold AdvancedMediaSteganography.analyze_audio_lsb. repeat frame_step. Qed.

Lemma media_analyze_image_framed
  (L : ExternalLib) (W : AdvancedMediaSteganography.World) (image_data : bytes) :
  framed (AdvancedMediaSteganography.analyze_image image_data).
Proof.
  unfold AdvancedMediaSteganography.analyze_image,
    AdvancedMediaSteganography.load_image_from_buffer.
  repeat frame_step.
Qed.

Lemma analyze_video_framed
  (L : ExternalLib) (W : AdvancedMediaSteganography.World) (video_path : string) :
  framed (AdvancedMediaSteganography.analyze_video video_path).
Proof.
  unfold AdvancedMediaSteganography.analyze_video,
    AdvancedMediaSteganography.extract_frames_from_video,
    AdvancedMediaSteganography.video_audio,
    AdvancedMediaSteganography.extract_audio_from_video.
  repeat first [apply analyze_audio_lsb_framed | frame_step].
Qed.

Lemma detect_media_steganography_framed
  (L : ExternalLib) (W : AdvancedMediaSteganography.World)
  (file_data : bytes) (file_name : string) :
  framed (AdvancedMediaSteganography.detect_media_steganography file_data file_name).
Proof.
  unfold AdvancedMediaSteganography.detect_media_steganography,
    AdvancedMediaSteganography.save_buffer_to_temp_file.
  repeat first [apply analyze_audio_lsb_framed | apply analyze_video_framed
               | apply media_analyze_image_framed | frame_step].
Qed.

Lemma detect_media_steganography_after
  (L : ExternalLib) (W : AdvancedMediaSteganography.World)
  (file_data : bytes) (file_name : string) (d : dict) (evs log : list event) :
  run (AdvancedMediaSteganography.detect_media_steganography file_data file_name)
  = (Ok d, evs) ->
  AdvancedMediaSteganography.detect_media_steganography file_data file_name log
  = (Ok d, log ++ evs).
Proof.
  unfold run. intros Hrun.
  rewrite (detect_media_steganography_framed L W file_data file_name log), Hrun.
  reflexivity.
Qed.

(** X20. The Node.js wrapper takes the file name from the path argument and
    the bytes from the first source that is not empty: its parameter, then
    the standard input, then the file at the path.  When [json.dumps] accepts
    the verdict of the dispatcher on these bytes, the wrapper returns it and
    prints it once, after everything the dispatcher did.  When [json.dumps]
    raises on that verdict, the wrapper returns and prints its own error
    verdict, with the text of the exception, instead. *)
Theorem wrapper_input_precedence
  (L : ExternalLib) (W : AdvancedMediaSteganography.World)
  (script file_path : string) (rest : list string)
  (data : bytes) (d : dict) (evs : list event)
  (file_data : option bytes) (reads : list event) :
  AdvancedMediaSteganography.sys_argv = script :: file_path :: rest ->
  run (AdvancedMediaSteganography.detect_media_steganography data (basename file_path))
  = (Ok d, evs) ->
  (file_data = Some data /\ data <> [] /\ reads = []) \/
  (AdvancedMediaSteganography.is_empty file_data = true /\
   AdvancedMediaSteganography.stdin_read = Ok data /\ data <> [] /\
   reads = [StdinRead]) \/
  (AdvancedMediaSteganography.is_empty file_data = true /\
   AdvancedMediaSteganography.stdin_read = Ok [] /\
   AdvancedMediaSteganography.file_read file_path = Ok data /\
   reads = [StdinRead; FileRead file_path]) ->
  let error_result (e : exn) : dict :=
    [ ("hasSteganography", VBool false);
      ("confidence", VInt 0);
      ("error", VStr (exn_str e)) ]%string in
  (forall text,
      AdvancedMediaSteganography.json_dumps d = Ok text ->
      run (AdvancedMediaSteganography.detect_steganography_in_media file_data)
      = (Ok (VDict d), reads ++ evs ++ [Printed text])) /\
  (forall e text,
      AdvancedMediaSteganography.json_dumps d = Raise e ->
      AdvancedMediaSteganography.json_dumps (error_result e) = Ok text ->
      run (AdvancedMediaSteganography.detect_steganography_in_media file_data)
      = (Ok (VDict (error_result e)), reads ++ evs ++ [Printed text])).
Proof.
  intros Hargv Hrun Hsource error_result. subst error_result.
  pose proof (fun log => detect_media_steganography_after L W data (basename file_path)
                           d evs log Hrun) as Hafter.
  assert (Hreads :
            forall k : option bytes -> IO pyval,
              io_bind
                (io_bind (if AdvancedMediaSteganography.is_empty file_data
                          then io_bind (io_call StdinRead
                                          AdvancedMediaSteganography.stdin_read)
                                 (fun d0 => io_ret (Some d0))
                          else io_ret file_data)
                   (fun file_data0 =>
                      if AdvancedMediaSteganography.is_empty file_data0
                      then io_bind (io_call (FileRead file_path)
                                      (AdvancedMediaSteganography.file_read file_path))
                             (fun d0 => io_ret (Some d0))
                      else io_ret file_data0)) k []
              = k (Some data) reads).
  { intros k. unfold io_bind, io_call, io_ret.
    destruct Hsource as [(-> & Hdata & ->) | [(Hempty & Hstdin & Hdata & ->)
                                             | (Hempty & Hstdin & Hfile & ->)]].
    - destruct data as [|b bs]; [contradiction|]. reflexivity.
    - rewrite Hempty, Hstdin. destruct data as [|b bs]; [contradiction|]. reflexivity.
    - rewrite Hempty, Hstdin. cbn [AdvancedMediaSteganography.is_empty app].
      rewrite Hfile. reflexivity. }
  assert (Heq :
            run (AdvancedMediaSteganography.detect_steganography_in_media file_data)
            = match AdvancedMediaSteganography.json_dumps d with
              | Ok text => (Ok (VDict d), (reads ++ evs) ++ [Printed text])
              | Raise e =>
                  match AdvancedMediaSteganography.json_dumps
                          [ ("hasSteganography", VBool false);
                            ("confidence", VInt 0);
                            ("error", VStr (exn_str e)) ]%string with
                  | Ok text =>
                      (Ok (VDict [ ("hasSteganography", VBool false);
                                   ("confidence", VInt 0);
                                   ("error", VStr (exn_str e)) ]%string),
                       (reads ++ evs) ++ [Printed text])
                  | Raise e0 => (Raise e0, reads ++ evs)
                  end
              end).
  { unfold run, AdvancedMediaSteganography.detect_steganography_in_media.
    rewrite Hargv. cbn [List.length Nat.ltb Nat.leb nth]. cbv zeta.
    unfold io_try.
    rewrite <- (io_bind_assoc _ _ _ []).
    rewrite Hreads.
    unfold io_bind at 1. rewrite Hafter.
    unfold io_bind, io_lift, io_call, io_ret.
    destruct (AdvancedMediaSteganography.json_dumps d) as [text|e]; [reflexivity|].
    destruct (AdvancedMediaSteganography.json_dumps _) as [text|e0]; reflexivity. }
  rewrite Heq. split.
  - intros text ->. rewrite <- app_assoc. reflexivity.
  - intros e text -> ->. rewrite <- app_assoc. reflexivity.
Qed.

Lemma wrapper_input_precedence_witness :
  let error_result (e : exn) : dict :=
    [ ("hasSteganography", VBool false);
      ("confidence", VInt 0);
      ("error", VStr (exn_str e)) ]%string in
  (forall text,
      @AdvancedMediaSteganography.json_dumps Examples.upload_world Examples.upload_verdict
      = Ok text ->
      run (@AdvancedMediaSteganography.detect_steganography_in_media
             Examples.lib Examples.upload_world (Some [Byte.x78]))
      = (Ok (VDict Examples.upload_verdict), [] ++ Examples.upload_events ++ [Printed text])) /\
  (forall e text,
      @AdvancedMediaSteganography.json_dumps Examples.upload_world Examples.upload_verdict
      = Raise e ->
      @AdvancedMediaSteganography.json_dumps Examples.upload_world (error_result e)
      = Ok text ->
      run (@AdvancedMediaSteganography.detect_steganography_in_media
             Examples.lib Examples.upload_world (Some [Byte.x78]))
      = (Ok (VDict (error_result e)), [] ++ Examples.upload_events ++ [Printed text])).
Proof.
  apply (wrapper_input_precedence Examples.lib Examples.upload_world
           "advanced_media_steganography.py" "/data/upload.wav" []
           [Byte.x78] Examples.upload_verdict Examples.upload_events
           (Some [Byte.x78]) []).
  - reflexivity.
  - vm_compute. reflexivity.
  - left. split; [reflexivity|]. split; [discriminate | reflexivity].
Defined.

(** ** Loading by path, and the note on lossy formats *)

(** X21. How [analyze_image] of [advanced_steganography.py] reports a file
    it cannot load: an extension outside the supported list is named as
    such, without the decoder's wrapper; a raster file that OpenCV does not
    read is reported inside the wrapper [Failed to load image (ext): ...].
    The last branch of the loader is dead: a supported extension that is not
    one of the raster ones is [.gif] or [.ico]. *)
Theorem path_loader_errors
  (L : ExternalLib) (D : AdvancedSteganography.Decoder) (image_path : string) :
  let ext := lower (splitext_ext image_path) in
  let raster := [".png"; ".jpg"; ".jpeg"; ".bmp"; ".tiff"; ".tif"; ".webp"]%string in
  let failed (msg : string) : dict :=
    [ ("hasSteganography", VBool false);
      ("confidence", VNum 0);
      ("error", VStr msg);
      ("detectionMethod", VStr "Advanced LSB Analysis");
      ("detectionsByMethod", VDict []);
      ("notes", VStrs ["Analysis failed with error"%string]) ]%string in
  (str_in ext AdvancedSteganography.SUPPORTED_FORMATS = false ->
   AdvancedSteganography.analyze_image image_path
   = failed ("Unsupported file extension: " ++ ext)%string) /\
  (str_in ext raster = true ->
   AdvancedSteganography.cv2_imread image_path = None ->
   AdvancedSteganography.analyze_image image_path
   = failed ("Failed to load image (" ++ ext ++ "): Failed to load image with OpenCV: "
             ++ image_path)%string) /\
  (str_in ext AdvancedSteganography.SUPPORTED_FORMATS = true ->
   str_in ext raster = false ->
   str_in ext [".gif"; ".ico"]%string = true).
Proof.
  intros ext raster failed. subst raster failed.
  refine (conj _ (conj _ _)).
  - intros Hext.
    unfold AdvancedSteganography.analyze_image, AdvancedSteganography.run_battery,
      AdvancedSteganography.load_image_safe.
    fold ext. rewrite Hext. reflexivity.
  - intros Hraster Hread.
    assert (Hsup : str_in ext AdvancedSteganography.SUPPORTED_FORMATS = true).
    { unfold str_in, AdvancedSteganography.SUPPORTED_FORMATS in *.
      cbn [existsb] in *.
      repeat match goal with
             | H : context [String.eqb ext ?s] |- _ =>
                 destruct (String.eqb ext s); cbn [orb] in *
             | |- context [String.eqb ext ?s] =>
                 destruct (String.eqb ext s); cbn [orb] in *
             end; first [reflexivity | discriminate Hraster]. }
    unfold AdvancedSteganography.analyze_image, AdvancedSteganography.run_battery,
      AdvancedSteganography.load_image_safe.
    fold ext. rewrite Hsup, Hraster, Hread. reflexivity.
  - unfold str_in, AdvancedSteganography.SUPPORTED_FORMATS. cbn [existsb].
    intros Hsup Hraster.
    repeat match goal with
           | H : context [String.eqb ext ?s] |- _ =>
               destruct (String.eqb ext s); cbn [orb] in *
           | |- context [String.eqb ext ?s] =>
               destruct (String.eqb ext s); cbn [orb] in *
           end; first [reflexivity | discriminate Hraster | discriminate Hsup].
Qed.

Lemma path_loader_errors_witness :
  let image_path := "/data/scan.PNG"%string in
  let ext := ".png"%string in
  let raster := [".png"; ".jpg"; ".jpeg"; ".bmp"; ".tiff"; ".tif"; ".webp"]%string in
  let failed (msg : string) : dict :=
    [ ("hasSteganography", VBool false);
      ("confidence", VNum 0);
      ("error", VStr msg);
      ("detectionMethod", VStr "Advanced LSB Analysis");
      ("detectionsByMethod", VDict []);
      ("notes", VStrs ["Analysis failed with error"%string]) ]%string in
  (str_in ext AdvancedSteganography.SUPPORTED_FORMATS = false ->
   @AdvancedSteganography.analyze_image Examples.lib Examples.file_decoder image_path
   = failed ("Unsupported file extension: " ++ ext)%string) /\
  (str_in ext raster = true ->
   @AdvancedSteganography.cv2_imread Examples.file_decoder image_path = None ->
   @AdvancedSteganography.analyze_image Examples.lib Examples.file_decoder image_path
   = failed ("Failed to load image (" ++ ext ++ "): Failed to load image with OpenCV: "
             ++ image_path)%string) /\
  (str_in ext AdvancedSteganography.SUPPORTED_FORMATS = true ->
   str_in ext raster = false ->
   str_in ext [".gif"; ".ico"]%string = true).
Proof.
  exact (path_loader_errors Examples.lib Examples.file_decoder "/data/scan.PNG").
Defined.

Lemma lossy_format_has_dot (s : string) :
  str_in s AdvancedLsbDetector.LOSSY_FORMATS = true -> String.get 0 s = Some "."%char.
Proof.
  unfold str_in, AdvancedLsbDetector.LOSSY_FORMATS. cbn [existsb].
  intros H.
  destruct (String.eqb_spec s ".jpg"); [subst; reflexivity|].
  destruct (String.eqb_spec s ".jpeg"); [subst; reflexivity|].
  destruct (String.eqb_spec s ".webp"); [subst; reflexivity|].
  discriminate H.
Qed.

Lemma lower_ascii_dot (c : ascii) : lower_ascii c = "."%char -> c = "."%char.
Proof.
  destruct c as [[] [] [] [] [] [] [] []]; vm_compute; intros H;
    first [reflexivity | discriminate H].
Qed.

Lemma lower_first_dot (s : string) :
  String.get 0 (lower s) = Some "."%char -> String.get 0 s = Some "."%char.
Proof.
  destruct s as [|c r]; cbn [lower String.get]; [discriminate|].
  intros H. injection H as H. apply lower_ascii_dot in H. now subst c.
Qed.

(** X22. The note on lossy formats: [advanced_lsb_detector.py] compares
    the format name that PIL reports with a list of file extensions, so for
    a format name that does not start with a dot (JPEG, WEBP, ...) the note
    is never written, whatever the image. *)
Theorem lossy_note_never_for_format_names
  (L : ExternalLib) (D : AdvancedLsbDetector.Decoder) (image_data : bytes) :
  (forall img f,
      AdvancedLsbDetector.pil_open_rgb image_data = Ok (img, Some f) ->
      String.get 0 f <> Some "."%char) ->
  dict_get "notes" (AdvancedLsbDetector.analyze_image image_data) = Some (VStrs []) \/
  (dict_has "error" (AdvancedLsbDetector.analyze_image image_data) = true /\
   dict_get "notes" (AdvancedLsbDetector.analyze_image image_data) = None).
Proof.
  intros Hname.
  unfold AdvancedLsbDetector.analyze_image.
  destruct (AdvancedLsbDetector.run_battery image_data) as [b|e] eqn:Hb;
    cbn [bind catch]; [|right; split; reflexivity].
  left.
  assert (Hfmt : str_in (AdvancedLsbDetector.b_format b) AdvancedLsbDetector.LOSSY_FORMATS
                 = false).
  { destruct (str_in _ _) eqn:Hin; [|reflexivity]. exfalso.
    apply lossy_format_has_dot in Hin.
    unfold AdvancedLsbDetector.run_battery, AdvancedLsbDetector.load_image_as_array in Hb.
    destruct (AdvancedLsbDetector.pil_open_rgb image_data) as [[img_array fmt]|e] eqn:Hopen;
      cbn [bind try_except] in Hb; [|discriminate Hb].
    destruct (cvtColor_RGB2BGR img_array) as [img|e]; cbn [bind try_except] in Hb;
      [|discriminate Hb].
    destruct (cvtColor_BGR2GRAY img) as [gray|e]; cbn [bind] in Hb; [|discriminate Hb].
    destruct (AdvancedLsbDetector.extract_lsb_plane img) as [lsb|e]; cbn [bind] in Hb;
      [|discriminate Hb].
    destruct (AdvancedLsbDetector.chi_square_test lsb) as [[chi p]|e]; cbn [bind] in Hb;
      [|discriminate Hb].
    destruct (AdvancedLsbDetector.rs_analysis gray) as [[rs_reg rs_sing]|e];
      cbn [bind] in Hb; [|discriminate Hb].
    injection Hb as <-. cbn [AdvancedLsbDetector.b_format] in Hin.
    destruct fmt as [f|]; [|discriminate Hin].
    apply lower_first_dot in Hin. exact (Hname img_array f eq_refl Hin). }
  destruct (AdvancedLsbDetector.score_battery b) as [suspicious confidence].
  rewrite Hfmt. reflexivity.
Qed.

Lemma lossy_note_never_for_format_names_witness :
  dict_get "notes" (@AdvancedLsbDetector.analyze_image Examples.lib Examples.jpeg_decoder [])
  = Some (VStrs []) \/
  (dict_has "error" (@AdvancedLsbDetector.analyze_image Examples.lib Examples.jpeg_decoder [])
   = true /\
   dict_get "notes" (@AdvancedLsbDetector.analyze_image Examples.lib Examples.jpeg_decoder [])
   = None).
Proof.
  apply (lossy_note_never_for_format_names Examples.lib Examples.jpeg_decoder []).
  intros img f H. injection H as _ <-. discriminate.
Defined.

(** X23. [advanced_steganography.py] goes by the file extension instead:
    a scored verdict carries the note exactly for the extensions [.jpg],
    [.jpeg] and [.webp], in any letter case. *)
Theorem lossy_note_by_extension
  (L : ExternalLib) (D : AdvancedSteganography.Decoder) (image_path : string) :
  dict_has "error" (AdvancedSteganography.analyze_image image_path) = false ->
  dict_get "notes" (AdvancedSteganography.analyze_image image_path)
  = Some (VStrs (if str_in (lower (splitext_ext image_path))
                           AdvancedSteganography.LOSSY_FORMATS
                 then ["Lossy format; LSB steganography less likely."%string] else [])).
Proof.
  unfold AdvancedSteganography.analyze_image.
  destruct (AdvancedSteganography.run_battery image_path) as [b|e] eqn:Hb;
    cbn [bind catch]; [|intros H; discriminate H].
  intros _.
  assert (Hfmt : AdvancedLsbDetector.b_format b = lower (splitext_ext image_path)).
  { unfold AdvancedSteganography.run_battery in Hb.
    destruct (AdvancedSteganography.load_image_safe image_path) as [img|e];
      cbn [bind] in Hb; [|discriminate Hb].
    destruct (cvtColor_BGR2GRAY img) as [gray|e]; cbn [bind] in Hb; [|discriminate Hb].
    destruct (AdvancedSteganography.extract_lsb_plane img) as [lsb|e]; cbn [bind] in Hb;
      [|discriminate Hb].
    destruct (AdvancedSteganography.chi_square_test lsb) as [[chi p]|e]; cbn [bind] in Hb;
      [|discriminate Hb].
    destruct (AdvancedSteganography.rs_analysis gray) as [[rs_reg rs_sing]|e];
      cbn [bind] in Hb; [|discriminate Hb].
    injection Hb as <-. reflexivity. }
  destruct (AdvancedLsbDetector.score_battery b) as [suspicious confidence].
  rewrite Hfmt.
  destruct (str_in _ _); reflexivity.
Qed.

Lemma lossy_note_by_extension_witness :
  dict_get "notes"
    (@AdvancedSteganography.analyze_image Examples.lib Examples.comb_file_decoder
       "/data/photo.JPG")
  = Some (VStrs (if str_in (lower (splitext_ext "/data/photo.JPG"))
                           AdvancedSteganography.LOSSY_FORMATS
                 then ["Lossy format; LSB steganography less likely."%string] else [])).
Proof.
  apply (lossy_note_by_extension Examples.lib Examples.comb_file_decoder "/data/photo.JPG").
  vm_compute. reflexivity.
Defined.

(** ** The media security service *)

(** X24. The two threat-level tables are inverse to each other on the six
    levels: every number from 0 to 4 names a level that maps back to it,
    every other number names [unknown], which maps to -1; and each of the six
    level names is recovered from its number. *)
Theorem threat_level_round_trip :
  (forall n : Z,
      MediaSecurityService._threat_level_to_numeric
        (VStr (MediaSecurityService._numeric_to_threat_level n))
      = if ((0 <=? n) && (n <=? 4))%Z then n else (-1)%Z) /\
  (forall s : string,
      In s ["none"; "low"; "medium"; "high"; "critical"; "unknown"]%string ->
      MediaSecurityService._numeric_to_threat_level
        (MediaSecurityService._threat_level_to_numeric (VStr s)) = s) /\
  (forall v : pyval,
      (-1 <= MediaSecurityService._threat_level_to_numeric v <= 4)%Z).
Proof.
  refine (conj _ (conj _ _)).
  - intros n. unfold MediaSecurityService._numeric_to_threat_level.
    repeat match goal with
           | |- context [(n =? ?k)%Z] =>
               destruct (Z.eqb_spec n k); [subst n; reflexivity|]
           end.
    cbn. destruct ((0 <=? n) && (n <=? 4))%Z eqn:E; [|reflexivity].
    apply andb_true_iff in E. destruct E as [E0 E4].
    apply Z.leb_le in E0. apply Z.leb_le in E4. lia.
  - intros s Hs. cbn [In] in Hs.
    repeat (destruct Hs as [<- | Hs]; [reflexivity|]). contradiction.
  - intros v. unfold MediaSecurityService._threat_level_to_numeric.
    destruct v; try lia.
    repeat match goal with
           | |- context [String.eqb ?a ?b] => destruct (String.eqb a b)
           end; lia.
Qed.

Lemma mentions_app (word : string) (a b : list string) :
  MediaSecurityService.mentions word (a ++ b)
  = MediaSecurityService.mentions word a || MediaSecurityService.mentions word b.
Proof. unfold MediaSecurityService.mentions. apply existsb_app. Qed.

Lemma ensure_mentions (word text : string) (recommendations : list string) :
  SteganographyService.contains word (lower text) = true ->
  exists added : list string,
    (if negb (MediaSecurityService.mentions word recommendations)
     then recommendations ++ [text] else recommendations)
    = recommendations ++ added /\
    MediaSecurityService.mentions word (recommendations ++ added) = true.
Proof.
  intros Htext.
  destruct (MediaSecurityService.mentions word recommendations) eqn:Hm; cbn [negb].
  - exists []. rewrite app_nil_r. split; [reflexivity | exact Hm].
  - exists [text]. split; [reflexivity|].
    rewrite mentions_app. unfold MediaSecurityService.mentions at 2. cbn [existsb].
    rewrite Htext. now rewrite orb_true_r.
Qed.

Lemma mentions_kept (word : string) (a b : list string) :
  MediaSecurityService.mentions word a = true ->
  MediaSecurityService.mentions word (a ++ b) = true.
Proof. intros H. now rewrite mentions_app, H. Qed.

(** X25. Whatever recommendations are already in the list,
    [_add_security_recommendations] keeps them as a prefix and leaves a list
    that ends with the advice on behavioural anomaly detection and mentions
    sandboxing and metadata; for an audio or video file it also mentions
    autoplay and codecs. *)
Theorem recommendations_always_cover
  (file_type : string) (recommendations : list string) :
  let out := MediaSecurityService._add_security_recommendations file_type recommendations in
  (exists added, out = recommendations ++ added) /\
  last out EmptyString
  = "Use behavioral anomaly detection for unusual file interactions"%string /\
  MediaSecurityService.mentions "sandbox" out = true /\
  MediaSecurityService.mentions "metadata" out = true /\
  (str_in file_type ["audio"; "video"]%string = true ->
   MediaSecurityService.mentions "autoplay" out = true /\
   MediaSecurityService.mentions "codec" out = true).
Proof.
  intros out. subst out. unfold MediaSecurityService._add_security_recommendations.
  cbv zeta.
  destruct (ensure_mentions "sandbox"
              "Sandbox media files before opening them in your main environment"
              recommendations eq_refl) as (a1 & -> & M1).
  destruct (ensure_mentions "metadata" "Strip metadata from media files before sharing"
              (recommendations ++ a1) eq_refl) as (a2 & -> & M2).
  destruct (str_in file_type ["audio"; "video"]%string).
  - destruct (ensure_mentions "autoplay"
                "Disable autoplay in media players for untrusted content"
                ((recommendations ++ a1) ++ a2) eq_refl) as (a3 & -> & M3).
    destruct (ensure_mentions "codec"
                "Monitor and block uncommon codec usage which may hide malicious code"
                (((recommendations ++ a1) ++ a2) ++ a3) eq_refl) as (a4 & -> & M4).
    split; [rewrite <- !app_assoc; eexists; reflexivity|].
    split; [apply last_last|].
    split; [do 4 apply mentions_kept; exact M1|].
    split; [do 3 apply mentions_kept; exact M2|].
    intros _. split; [do 2 apply mentions_kept; exact M3 | apply mentions_kept; exact M4].
  - split; [rewrite <- !app_assoc; eexists; reflexivity|].
    split; [apply last_last|].
    split; [do 2 apply mentions_kept; exact M1|].
    split; [apply mentions_kept; exact M2|].
    intros H. discriminate H.
Qed.

Lemma add_recommendations_nonempty (file_type : string) (recommendations : list string) :
  MediaSecurityService._add_security_recommendations file_type recommendations <> [].
Proof.
  unfold MediaSecurityService._add_security_recommendations. cbv zeta.
  intros H. apply app_eq_nil in H. destruct H as [_ H]. discriminate H.
Qed.

Lemma add_recommendations_keeps (file_type r : string) (recommendations : list string) :
  In r recommendations ->
  In r (MediaSecurityService._add_security_recommendations file_type recommendations).
Proof.
  intros Hin. unfold MediaSecurityService._add_security_recommendations. cbv zeta.
  repeat match goal with
         | |- In r (if ?b then _ else _) => destruct b
         | |- In r (_ ++ _) => apply in_or_app; left
         end; exact Hin.
Qed.

Lemma initial_status_ok : status_ok MediaSecurityService.initial_status.
Proof.
  exists "none"%string. cbn. repeat split; auto.
Qed.

Lemma check_metadata_ok (metadata_result : dict) (st : MediaSecurityService.security_status) :
  status_ok st -> status_ok (MediaSecurityService.check_metadata metadata_result st).
Proof.
  intros Hok. unfold MediaSecurityService.check_metadata.
  destruct (truthy _); [|exact Hok].
  exists "low"%string. cbn. repeat split; auto; try discriminate.
  intros H. apply app_eq_nil in H. destruct H as [_ H]. discriminate H.
Qed.

Lemma check_steganography_ok
  (stego_result : dict) (st st' : MediaSecurityService.security_status) :
  status_ok st ->
  MediaSecurityService.check_steganography stego_result st = Ok st' ->
  status_ok st'.
Proof.
  intros Hok. unfold MediaSecurityService.check_steganography.
  destruct (truthy _); [|intros H; injection H as <-; exact Hok].
  destruct (MediaSecurityService.py_gt _ _) as [confident|e]; cbn [bind];
    [|discriminate].
  intros H. injection H as <-.
  exists (if confident then "high" else "medium")%string. cbn.
  split; [reflexivity|]. split; [destruct confident; auto 6|].
  split; split; try discriminate.
  - destruct confident; discriminate.
  - intros H. apply app_eq_nil in H. destruct H as [_ H]. discriminate H.
Qed.

Lemma check_yara_ok
  (S : MediaSecurityService.Scanners) (temp_file_path : string)
  (st st' : MediaSecurityService.security_status) (analysis analysis' : dict) :
  status_ok st ->
  MediaSecurityService.check_yara temp_file_path st analysis = Ok (st', analysis') ->
  status_ok st'.
Proof.
  intros Hok. unfold MediaSecurityService.check_yara.
  destruct MediaSecurityService.yara_rules; [|intros H; injection H as <- _; exact Hok].
  destruct (MediaSecurityService.scan_with_yara temp_file_path) as [yara|e]; cbn [bind];
    [|discriminate].
  destruct (truthy _); [|intros H; injection H as <- _; exact Hok].
  intros H. injection H as <- _.
  destruct Hok as (l & Hl & Hin & _ & _). rewrite Hl.
  exists (if String.eqb l "none" then "medium" else l)%string.
  cbn [MediaSecurityService.threatLevel MediaSecurityService.isSafe
       MediaSecurityService.warnings].
  split; [destruct (String.eqb l "none"); reflexivity|].
  split.
  - destruct (String.eqb_spec l "none"); [cbn; auto | exact Hin].
  - split; split; try discriminate.
    + destruct (String.eqb_spec l "none"); [discriminate | contradiction].
    + intros H. apply app_eq_nil in H. destruct H as [_ H]. discriminate H.
Qed.

Lemma check_codecs_ok
  (S : MediaSecurityService.Scanners) (file_ext temp_file_path file_type : string)
  (st st' : MediaSecurityService.security_status) (analysis analysis' : dict) :
  status_ok st ->
  MediaSecurityService.check_codecs file_ext temp_file_path st analysis
  = Ok (st', analysis') ->
  status_ok (MediaSecurityService.finish_status file_type st').
Proof.
  intros Hok. unfold MediaSecurityService.check_codecs.
  assert (Hkeep : status_ok (MediaSecurityService.finish_status file_type st)).
  { destruct Hok as (l & Hl & Hin & Hs & Hw). exists l.
    unfold MediaSecurityService.finish_status.
    cbn [MediaSecurityService.threatLevel MediaSecurityService.isSafe
         MediaSecurityService.warnings].
    rewrite Hl. auto. }
  destruct (str_in _ _); [|intros H; injection H as <- _; exact Hkeep].
  destruct (MediaSecurityService.detect_uncommon_codecs temp_file_path) as [codec|e];
    cbn [bind]; [|discriminate].
  destruct (truthy _); [|intros H; injection H as <- _; exact Hkeep].
  intros H. injection H as <- _.
  destruct Hok as (l & Hl & Hin & _ & _). rewrite Hl.
  unfold MediaSecurityService.finish_status.
  cbn [MediaSecurityService.threatLevel MediaSecurityService.isSafe
       MediaSecurityService.warnings].
  eexists. split; [reflexivity|].
  cbn [In] in Hin.
  assert (Hw : forall ws : list string, ws ++ ["Uncommon codec detected"%string] = [] -> False).
  { intros ws H. apply app_eq_nil in H. destruct H as [_ H]. discriminate H. }
  destruct Hin as [<- | [<- | [<- | [<- | []]]]]; cbn;
    (split; [auto 6|]; split; split; try discriminate;
     intros H; exfalso; exact (Hw _ H)).
Qed.

(** X26. [analyze_media_file] always returns a result with a security
    status.  In a result without an error the threat level is one of
    [none], [low], [medium] and [high] (never a number), the file is called
    safe exactly when the level is [none], which is exactly when there is no
    warning, and there is always a recommendation; a result with an error
    is unsafe with the level [unknown]. *)
Theorem security_status_invariant
  (L : ExternalLib) (W : AdvancedMediaSteganography.World)
  (S : MediaSecurityService.Scanners) (file_data : bytes) (file_name : string) :
  exists (d : dict) (log : list event) (safe : bool) (level : string)
         (ws rs : list string),
    run (MediaSecurityService.analyze_media_file file_data file_name) = (Ok d, log) /\
    dict_get "securityStatus" d
    = Some (VDict [ ("isSafe", VBool safe); ("threatLevel", VStr level);
                    ("warnings", VStrs ws); ("recommendations", VStrs rs) ]%string) /\
    (dict_has "error" d = true -> safe = false /\ level = "unknown"%string) /\
    (dict_has "error" d = false ->
     In level ["none"; "low"; "medium"; "high"]%string /\
     (safe = true <-> level = "none"%string) /\
     (safe = true <-> ws = []) /\
     rs <> []).
Proof.
  assert (Hfail : forall (e : exn) (log : list event),
             exists (d : dict) (log' : list event) (safe : bool) (level : string)
                    (ws rs : list string),
               (Ok [ ("fileName", VStr file_name);
                     ("error", VStr (exn_str e));
                     ("securityStatus",
                       VDict [ ("isSafe", VBool false);
                               ("threatLevel", VStr "unknown");
                               ("warnings",
                                 VStrs ["Analysis failed - treat file with caution"]);
                               ("recommendations",
                                 VStrs ["Do not open this file as it could not be properly analyzed"])
                             ]%string) ]%string, log) = (Ok d, log') /\
               dict_get "securityStatus" d
               = Some (VDict [ ("isSafe", VBool safe); ("threatLevel", VStr level);
                               ("warnings", VStrs ws);
                               ("recommendations", VStrs rs) ]%string) /\
               (dict_has "error" d = true -> safe = false /\ level = "unknown"%string) /\
               (dict_has "error" d = false ->
                In level ["none"; "low"; "medium"; "high"]%string /\
                (safe = true <-> level = "none"%string) /\
                (safe = true <-> ws = []) /\
                rs <> [])).
  { intros e log. do 6 eexists. split; [reflexivity|]. split; [reflexivity|].
    split; [intros _; split; reflexivity | intros H; discriminate H]. }
  unfold run, MediaSecurityService.analyze_media_file.
  unfold io_try at 1. unfold io_bind at 1. unfold io_call at 1.
  destruct (AdvancedMediaSteganography.tmp_write file_data _) as [temp|e0]; [|apply Hfail].
  unfold MediaSecurityService.io_finally.
  unfold io_bind at 1. unfold io_lift at 1.
  destruct (MediaSecurityService.extract_metadata temp _) as [metadata|e1].
  2: { unfold io_try, io_call, io_ret.
       destruct (AdvancedMediaSteganography.unlink temp) as [[]|e5]; apply Hfail. }
  unfold io_bind at 1.
  destruct (detect_media_steganography_total L W file_data file_name
              ([] ++ [TempFileWritten (lower (splitext_ext file_name))]))
    as (verdict & log1 & -> & _).
  unfold io_bind at 1. unfold io_lift at 1.
  pose proof (check_metadata_ok metadata _ initial_status_ok) as Hok0.
  set (st0 := MediaSecurityService.check_metadata metadata
                MediaSecurityService.initial_status) in *.
  destruct (MediaSecurityService.check_steganography verdict st0) as [st1|e2] eqn:H1;
    cbn [bind].
  2: { unfold io_try, io_call, io_ret.
       destruct (AdvancedMediaSteganography.unlink temp) as [[]|e5]; apply Hfail. }
  pose proof (check_steganography_ok _ _ _ Hok0 H1) as Hok1.
  destruct (MediaSecurityService.check_yara temp st1 _) as [[st2 analysis2]|e3] eqn:H2;
    cbn [bind].
  2: { unfold io_try, io_call, io_ret.
       destruct (AdvancedMediaSteganography.unlink temp) as [[]|e5]; apply Hfail. }
  pose proof (check_yara_ok S _ _ _ _ _ Hok1 H2) as Hok2.
  destruct (MediaSecurityService.check_codecs _ temp st2 analysis2)
    as [[st3 analysis3]|e4] eqn:H3.
  2: { unfold io_try, io_call, io_ret.
       destruct (AdvancedMediaSteganography.unlink temp) as [[]|e5]; apply Hfail. }
  pose proof (check_codecs_ok S _ _
                (MediaSecurityService._determine_file_type (lower (splitext_ext file_name)))
                _ _ _ _ Hok2 H3) as Hok3.
  destruct Hok3 as (l & Hl & Hin & Hs & Hw).
  assert (Hrs : MediaSecurityService.recommendations
                  (MediaSecurityService.finish_status
                     (MediaSecurityService._determine_file_type
                        (lower (splitext_ext file_name))) st3) <> [])
    by apply add_recommendations_nonempty.
  set (st := MediaSecurityService.finish_status _ st3) in *.
  unfold io_ret, io_try, io_call.
  assert (G : forall log : list event,
             exists (d : dict) (log' : list event) (safe : bool) (level : string)
                    (ws rs : list string),
               (Ok [ ("fileName", VStr file_name);
                     ("fileSize", VInt (Z.of_nat (List.length file_data)));
                     ("fileType",
                       VStr (MediaSecurityService._determine_file_type
                               (lower (splitext_ext file_name))));
                     ("securityStatus", MediaSecurityService.status_val st);
                     ("analysis", VDict analysis3);
                     ("metadata", VDict metadata) ]%string, log) = (Ok d, log') /\
               dict_get "securityStatus" d
               = Some (VDict [ ("isSafe", VBool safe); ("threatLevel", VStr level);
                               ("warnings", VStrs ws);
                               ("recommendations", VStrs rs) ]%string) /\
               (dict_has "error" d = true -> safe = false /\ level = "unknown"%string) /\
               (dict_has "error" d = false ->
                In level ["none"; "low"; "medium"; "high"]%string /\
                (safe = true <-> level = "none"%string) /\
                (safe = true <-> ws = []) /\
                rs <> [])).
  { intros log.
    exists [ ("fileName", VStr file_name);
             ("fileSize", VInt (Z.of_nat (List.length file_data)));
             ("fileType",
               VStr (MediaSecurityService._determine_file_type
                       (lower (splitext_ext file_name))));
             ("securityStatus", MediaSecurityService.status_val st);
             ("analysis", VDict analysis3);
             ("metadata", VDict metadata) ]%string, log,
      (MediaSecurityService.isSafe st), l,
      (MediaSecurityService.warnings st), (MediaSecurityService.recommendations st).
    split; [reflexivity|].
    split; [unfold MediaSecurityService.status_val; rewrite Hl; reflexivity|].
    split; [intros H; discriminate H|].
    intros _. auto. }
  destruct (AdvancedMediaSteganography.unlink temp) as [[]|e5]; apply G.
Qed.

Lemma flagged_after_detection
  (stego_result : dict) (st st' : MediaSecurityService.security_status) :
  truthy (AdvancedMediaSteganography.dict_get_default
            "hasSteganography" (VBool false) stego_result) = true ->
  MediaSecurityService.check_steganography stego_result st = Ok st' ->
  exists confident : bool,
    MediaSecurityService.py_gt
      (AdvancedMediaSteganography.dict_get_default "confidence" (VInt 0) stego_result)
      (7 # 10) = Ok confident /\
    flagged (if confident then "high" else "medium")%string st'.
Proof.
  intros Hdet. unfold MediaSecurityService.check_steganography. rewrite Hdet.
  destruct (MediaSecurityService.py_gt _ _) as [confident|e]; cbn [bind]; [|discriminate].
  intros H. injection H as <-. exists confident. split; [reflexivity|].
  unfold flagged. cbn. repeat split.
  - destruct confident; auto.
  - apply in_or_app. right. left. reflexivity.
  - apply in_or_app. right. left. reflexivity.
Qed.

Lemma flagged_after_yara
  (S : MediaSecurityService.Scanners) (temp_file_path level : string)
  (st st' : MediaSecurityService.security_status) (analysis analysis' : dict) :
  flagged level st ->
  MediaSecurityService.check_yara temp_file_path st analysis = Ok (st', analysis') ->
  flagged level st'.
Proof.
  intros Hf. unfold MediaSecurityService.check_yara.
  destruct MediaSecurityService.yara_rules; [|intros H; injection H as <- _; exact Hf].
  destruct (MediaSecurityService.scan_with_yara temp_file_path) as [yara|e]; cbn [bind];
    [|discriminate].
  destruct (truthy _); [|intros H; injection H as <- _; exact Hf].
  intros H. injection H as <- _.
  destruct Hf as (Hl & Hlevel & Hs & Hw & Hr). unfold flagged. rewrite Hl.
  cbn [MediaSecurityService.threatLevel MediaSecurityService.isSafe
       MediaSecurityService.warnings MediaSecurityService.recommendations].
  replace (String.eqb level "none") with false
    by (destruct Hlevel as [-> | ->]; reflexivity).
  repeat split; auto. apply in_or_app. left. exact Hw.
Qed.

Lemma flagged_after_codecs
  (S : MediaSecurityService.Scanners) (file_ext temp_file_path file_type level : string)
  (st st' : MediaSecurityService.security_status) (analysis analysis' : dict) :
  flagged level st ->
  MediaSecurityService.check_codecs file_ext temp_file_path st analysis
  = Ok (st', analysis') ->
  flagged level (MediaSecurityService.finish_status file_type st').
Proof.
  intros Hf. unfold MediaSecurityService.check_codecs.
  assert (Hkeep : flagged level (MediaSecurityService.finish_status file_type st)).
  { destruct Hf as (Hl & Hlevel & Hs & Hw & Hr). unfold flagged.
    unfold MediaSecurityService.finish_status.
    cbn [MediaSecurityService.threatLevel MediaSecurityService.isSafe
         MediaSecurityService.warnings MediaSecurityService.recommendations].
    rewrite Hl. repeat split; auto. apply add_recommendations_keeps. exact Hr. }
  destruct (str_in _ _); [|intros H; injection H as <- _; exact Hkeep].
  destruct (MediaSecurityService.detect_uncommon_codecs temp_file_path) as [codec|e];
    cbn [bind]; [|discriminate].
  destruct (truthy _); [|intros H; injection H as <- _; exact Hkeep].
  intros H. injection H as <- _.
  destruct Hf as (Hl & Hlevel & Hs & Hw & Hr). unfold flagged.
  unfold MediaSecurityService.finish_status.
  cbn [MediaSecurityService.threatLevel MediaSecurityService.isSafe
       MediaSecurityService.warnings MediaSecurityService.recommendations].
  rewrite Hl. split.
  - destruct Hlevel as [-> | ->]; reflexivity.
  - repeat split; auto.
    + apply in_or_app. left. exact Hw.
    + apply add_recommendations_keeps. apply in_or_app. left. exact Hr.
Qed.

(** X27. A detection by the dispatcher decides the threat level of the
    security analysis: in a result without an error the file is unsafe with
    the level [high] when the dispatcher's confidence exceeds 0.7 and
    [medium] otherwise, whatever the metadata, the YARA rules and the codec
    check add; the warning and the recommendation about hidden data are
    present. *)
Theorem detection_sets_threat_level
  (L : ExternalLib) (W : AdvancedMediaSteganography.World)
  (S : MediaSecurityService.Scanners) (file_data : bytes) (file_name : string)
  (verdict d : dict) (evs log : list event) :
  run (AdvancedMediaSteganography.detect_media_steganography file_data file_name)
  = (Ok verdict, evs) ->
  truthy (AdvancedMediaSteganography.dict_get_default
            "hasSteganography" (VBool false) verdict) = true ->
  run (MediaSecurityService.analyze_media_file file_data file_name) = (Ok d, log) ->
  dict_has "error" d = false ->
  exists (confident : bool) (ws rs : list string),
    MediaSecurityService.py_gt
      (AdvancedMediaSteganography.dict_get_default "confidence" (VInt 0) verdict) (7 # 10)
    = Ok confident /\
    dict_get "securityStatus" d
    = Some (VDict [ ("isSafe", VBool false);
                    ("threatLevel", VStr (if confident then "high" else "medium"));
                    ("warnings", VStrs ws); ("recommendations", VStrs rs) ]%string) /\
    In "Potential hidden data detected"%string ws /\
    In "Avoid opening this file - it may contain concealed malicious content"%string rs.
Proof.
  intros Hverdict Hdet.
  unfold run, MediaSecurityService.analyze_media_file.
  unfold io_try at 1. unfold io_bind at 1. unfold io_call at 1.
  destruct (AdvancedMediaSteganography.tmp_write file_data _) as [temp|e0].
  2: { unfold io_ret. intros H. injection H as <- _. intros Herr. discriminate Herr. }
  unfold MediaSecurityService.io_finally.
  unfold io_bind at 1. unfold io_lift at 1.
  destruct (MediaSecurityService.extract_metadata temp _) as [metadata|e1].
  2: { unfold io_try, io_call, io_ret.
       destruct (AdvancedMediaSteganography.unlink temp) as [[]|e5];
         intros H; injection H as <- _; intros Herr; discriminate Herr. }
  unfold io_bind at 1.
  rewrite (detect_media_steganography_after L W file_data file_name verdict evs _ Hverdict).
  unfold io_bind at 1. unfold io_lift at 1.
  set (st0 := MediaSecurityService.check_metadata metadata
                MediaSecurityService.initial_status).
  destruct (MediaSecurityService.check_steganography verdict st0) as [st1|e2] eqn:H1;
    cbn [bind].
  2: { unfold io_try, io_call, io_ret.
       destruct (AdvancedMediaSteganography.unlink temp) as [[]|e5];
         intros H; injection H as <- _; intros Herr; discriminate Herr. }
  destruct (flagged_after_detection verdict st0 st1 Hdet H1) as (confident & Hgt & Hf1).
  destruct (MediaSecurityService.check_yara temp st1 _) as [[st2 analysis2]|e3] eqn:H2;
    cbn [bind].
  2: { unfold io_try, io_call, io_ret.
       destruct (AdvancedMediaSteganography.unlink temp) as [[]|e5];
         intros H; injection H as <- _; intros Herr; discriminate Herr. }
  pose proof (flagged_after_yara S _ _ _ _ _ _ Hf1 H2) as Hf2.
  destruct (MediaSecurityService.check_codecs _ temp st2 analysis2)
    as [[st3 analysis3]|e4] eqn:H3.
  2: { unfold io_try, io_call, io_ret.
       destruct (AdvancedMediaSteganography.unlink temp) as [[]|e5];
         intros H; injection H as <- _; intros Herr; discriminate Herr. }
  pose proof (flagged_after_codecs S _ _
                (MediaSecurityService._determine_file_type (lower (splitext_ext file_name)))
                _ _ _ _ _ Hf2 H3) as Hf3.
  set (st := MediaSecurityService.finish_status _ st3) in *.
  destruct Hf3 as (Hl & _ & Hs & Hw & Hr).
  unfold io_ret, io_try, io_call.
  assert (G : forall d0 : dict,
             d0 = [ ("fileName", VStr file_name);
                    ("fileSize", VInt (Z.of_nat (List.length file_data)));
                    ("fileType",
                      VStr (MediaSecurityService._determine_file_type
                              (lower (splitext_ext file_name))));
                    ("securityStatus", MediaSecurityService.status_val st);
                    ("analysis", VDict analysis3);
                    ("metadata", VDict metadata) ]%string ->
             exists (confident0 : bool) (ws rs : list string),
               MediaSecurityService.py_gt
                 (AdvancedMediaSteganography.dict_get_default "confidence" (VInt 0) verdict)
                 (7 # 10) = Ok confident0 /\
               dict_get "securityStatus" d0
               = Some (VDict [ ("isSafe", VBool false);
                               ("threatLevel",
                                 VStr (if confident0 then "high" else "medium"));
                               ("warnings", VStrs ws);
                               ("recommendations", VStrs rs) ]%string) /\
               In "Potential hidden data detected"%string ws /\
               In "Avoid opening this file - it may contain concealed malicious content"%string
                  rs).
  { intros d0 ->. exists confident, (MediaSecurityService.warnings st),
      (MediaSecurityService.recommendations st).
    split; [exact Hgt|].
    split; [unfold MediaSecurityService.status_val; rewrite Hl, Hs; reflexivity|].
    split; assumption. }
  destruct (AdvancedMediaSteganography.unlink temp) as [[]|e5];
    intros H; injection H as <- _; intros _; apply G; reflexivity.
Qed.

Lemma detection_sets_threat_level_witness :
  exists (confident : bool) (ws rs : list string),
    MediaSecurityService.py_gt
      (AdvancedMediaSteganography.dict_get_default "confidence" (VInt 0)
         Examples.clip_verdict) (7 # 10)
    = Ok confident /\
    dict_get "securityStatus" Examples.clip_analysis
    = Some (VDict [ ("isSafe", VBool false);
                    ("threatLevel", VStr (if confident then "high" else "medium"));
                    ("warnings", VStrs ws); ("recommendations", VStrs rs) ]%string) /\
    In "Potential hidden data detected"%string ws /\
    In "Avoid opening this file - it may contain concealed malicious content"%string rs.
Proof.
  apply (detection_sets_threat_level Examples.lib
           (Examples.world Examples.frames_8_of_24 []) Examples.quiet_scanners
           [Byte.x78] "clip.mp4" Examples.clip_verdict Examples.clip_analysis
           Examples.clip_events Examples.clip_analysis_events).
  - vm_compute. reflexivity.
  - vm_compute. reflexivity.
  - vm_compute. reflexivity.
  - vm_compute. reflexivity.
Defined.




(** X29. The service and the dispatcher disagree on two extensions: an
    [.m4v] or [.3gp] file is typed as a video by the service, but the
    dispatcher does not analyse it and answers with its verdict for an
    unsupported format.  On every other extension the media type that the
    dispatcher reports is the file type of the service, or [unknown]. *)
Theorem service_and_dispatcher_file_types
  (L : ExternalLib) (W : AdvancedMediaSteganography.World)
  (file_data : bytes) (file_name : string) :
  let file_ext := lower (splitext_ext file_name) in
  (str_in file_ext [".m4v"; ".3gp"]%string = true ->
   MediaSecurityService._determine_file_type file_ext = "video"%string /\
   run (AdvancedMediaSteganography.detect_media_steganography file_data file_name)
   = (Ok (AdvancedMediaSteganography.unsupported_verdict file_ext), [])) /\
  (str_in file_ext [".m4v"; ".3gp"]%string = false ->
   exists (d : dict) (log : list event),
     run (AdvancedMediaSteganography.detect_media_steganography file_data file_name)
     = (Ok d, log) /\
     (dict_get "mediaType" d
      = Some (VStr (MediaSecurityService._determine_file_type file_ext)) \/
      dict_get "mediaType" d = Some (VStr "unknown"))).
Proof.
  intros file_ext. split.
  - intros Hext.
    assert (E : file_ext = ".m4v"%string \/ file_ext = ".3gp"%string).
    { unfold str_in in Hext. cbn [existsb] in Hext.
      destruct (String.eqb_spec file_ext ".m4v"); [left; assumption|].
      destruct (String.eqb_spec file_ext ".3gp"); [right; assumption|].
      discriminate Hext. }
    unfold run, AdvancedMediaSteganography.detect_media_steganography.
    fold file_ext.
    destruct E as [-> | ->]; split; reflexivity.
  - intros Hext.
    assert (Hvideo : str_in file_ext MediaSecurityService.VIDEO_FORMATS
                     = str_in file_ext AdvancedMediaSteganography.VIDEO_EXTENSIONS).
    { change MediaSecurityService.VIDEO_FORMATS
        with (AdvancedMediaSteganography.VIDEO_EXTENSIONS ++ [".m4v"; ".3gp"]%string).
      unfold str_in in *. rewrite existsb_app, Hext. apply orb_false_r. }
    unfold MediaSecurityService._determine_file_type. rewrite Hvideo.
    change (str_in file_ext MediaSecurityService.AUDIO_FORMATS)
      with (str_in file_ext AdvancedMediaSteganography.AUDIO_EXTENSIONS).
    change (str_in file_ext MediaSecurityService.IMAGE_FORMATS)
      with (str_in file_ext AdvancedMediaSteganography.IMAGE_EXTENSIONS).
    unfold run, AdvancedMediaSteganography.detect_media_steganography.
    fold file_ext.
    unfold io_try at 1. unfold io_bind at 1.
    destruct (str_in file_ext AdvancedMediaSteganography.AUDIO_EXTENSIONS).
    + unfold AdvancedMediaSteganography.save_buffer_to_temp_file.
      unfold io_bind at 1. unfold io_call at 1.
      destruct (AdvancedMediaSteganography.tmp_write file_data file_ext) as [p|e].
      * unfold io_bind at 1.
        destruct (analyze_audio_lsb_log L W p ([] ++ [TempFileWritten file_ext]))
          as (d & ->).
        unfold io_ret at 1. unfold io_bind, io_try, io_call, io_ret.
        destruct (truthy (VStr p) && AdvancedMediaSteganography.path_exists p);
          [destruct (AdvancedMediaSteganography.unlink p) as [[]|e]|];
          (eexists; eexists; split; [reflexivity | left; apply dict_get_set_same]).
      * unfold io_ret. eexists; eexists; split; [reflexivity | right; reflexivity].
    + destruct (str_in file_ext AdvancedMediaSteganography.VIDEO_EXTENSIONS).
      * unfold AdvancedMediaSteganography.save_buffer_to_temp_file.
        unfold io_bind at 1. unfold io_call at 1.
        destruct (AdvancedMediaSteganography.tmp_write file_data file_ext) as [p|e].
        -- unfold io_bind at 1.
           destruct (analyze_video_log L W p ([] ++ [TempFileWritten file_ext]))
             as (d & evs & ->).
           unfold io_ret at 1. unfold io_bind, io_try, io_call, io_ret.
           destruct (truthy (VStr p) && AdvancedMediaSteganography.path_exists p);
             [destruct (AdvancedMediaSteganography.unlink p) as [[]|e]|];
             (eexists; eexists; split; [reflexivity | left; apply dict_get_set_same]).
        -- unfold io_ret. eexists; eexists; split; [reflexivity | right; reflexivity].
      * destruct (str_in file_ext AdvancedMediaSteganography.IMAGE_EXTENSIONS).
        -- unfold io_bind at 1.
           destruct (media_analyze_image_log L W file_data []) as (d & ->).
           unfold io_ret at 1. unfold io_bind, io_ret.
           eexists; eexists; split; [reflexivity | left; apply dict_get_set_same].
        -- unfold io_bind, io_ret.
           eexists; eexists; split; [reflexivity | left; reflexivity].
Qed.

Lemma service_and_dispatcher_file_types_witness :
  let file_ext := ".m4v"%string in
  (str_in file_ext [".m4v"; ".3gp"]%string = true ->
   MediaSecurityService._determine_file_type file_ext = "video"%string /\
   run (@AdvancedMediaSteganography.detect_media_steganography Examples.lib
          (Examples.world [] []) [Byte.x78] "/data/Clip.M4V")
   = (Ok (AdvancedMediaSteganography.unsupported_verdict file_ext), [])) /\
  (str_in file_ext [".m4v"; ".3gp"]%string = false ->
   exists (d : dict) (log : list event),
     run (@AdvancedMediaSteganography.detect_media_steganography Examples.lib
            (Examples.world [] []) [Byte.x78] "/data/Clip.M4V")
     = (Ok d, log) /\
     (dict_get "mediaType" d
      = Some (VStr (MediaSecurityService._determine_file_type file_ext)) \/
      dict_get "mediaType" d = Some (VStr "unknown"))).
Proof.
  exact (service_and_dispatcher_file_types Examples.lib (Examples.world [] [])
           [Byte.x78] "/data/Clip.M4V").
Defined.
